(** * ForestDB transaction lifecycle (src/transaction.cc)

    A shallow embedding of [FdbTransaction] (item bookkeeping) and of the three
    lifecycle entry points [FdbEngine::beginTransaction], [abortTransaction]
    and [endTransaction], with the properties of the specification stated
    over it.

    The handle, its file and the file's WAL are records; the process-wide
    [transaction_id] counter is a 64-bit integer with its wrap-around written
    out; the collaborators whose code lives in other translation units are
    the fields of the [Collaborators] class.  Every primitive action the
    lifecycle code performs is appended to a chronological log, so that
    ordering properties (guard before mutation, one WAL registration, no
    rollback query) can be stated next to the state-based ones.  The
    [do ... while (fstatus == FILE_REMOVED_PENDING)] loops take fuel. *)

From Stdlib Require Import ZArith List Bool Lia Sorted.
Import ListNotations.
Local Open Scope Z_scope.

(** ** Status codes and enumerations *)

(** Modelled from the spec: [fdb_status] is declared in libforestdb/forestdb.h,
    which is not part of the sources at hand.  The spec names the six codes the
    lifecycle surfaces itself; every other code a delegate may propagate is
    [FDB_RESULT_OTHER]. *)
Inductive fdb_status : Type :=
| FDB_RESULT_SUCCESS
| FDB_RESULT_INVALID_HANDLE
| FDB_RESULT_HANDLE_BUSY
| FDB_RESULT_TRANSACTION_FAIL
| FDB_RESULT_FAIL_BY_ROLLBACK
| FDB_RESULT_ENGINE_NOT_INSTANTIATED
| FDB_RESULT_OTHER (code : Z).

Definition is_success (st : fdb_status) : bool :=
  match st with FDB_RESULT_SUCCESS => true | _ => false end.

(** Modelled from the spec: [file_status_t] (filemgr.h) with the three values
    the spec lists for [getStatus()]. *)
Inductive file_status_t : Type :=
| FILE_NORMAL
| FILE_REMOVED_PENDING
| FILE_COMPACT_OLD.

Definition is_removed_pending (fs : file_status_t) : bool :=
  match fs with FILE_REMOVED_PENDING => true | _ => false end.

Definition is_compact_old (fs : file_status_t) : bool :=
  match fs with FILE_COMPACT_OLD => true | _ => false end.

(** Modelled from the spec: the keyspace-type check distinguishes root from
    sub handles. *)
Inductive kvs_type_t : Type :=
| KVS_ROOT
| KVS_SUB.

Definition is_kvs_sub (k : kvs_type_t) : bool :=
  match k with KVS_SUB => true | KVS_ROOT => false end.

(** [uint64_t] arithmetic. *)
Definition UINT64_MOD : Z := 2 ^ 64.
Definition wrap64 (z : Z) : Z := z mod UINT64_MOD.
Arguments wrap64 : simpl never.

(** [uint64_t(-1)] *)
Definition UINT64_MINUS_ONE : Z := wrap64 (-1).

(** ** Transactions and their item lists *)

(** A [wal_item]: only the address that identifies it and the slot index the
    transaction records in it ([dwq_index]) matter here. *)
Record wal_item : Type := mk_wal_item {
  item_addr : Z;
  dwq_index : Z
}.

(** Modelled from the spec: [TxnItemList] (declared outside this file) is an
    ordered sequence of slots, each holding a write-item reference or nothing,
    plus the reference of the prior value if any. *)
Record TxnItemList : Type := mk_TxnItemList {
  items : list (option Z);
  old_items : list (option Z)
}.

(** Modelled from the spec: [TxnItemList::addItem] appends the pair, records
    the assigned index in the new item and returns the index. *)
Definition TxnItemList_addItem (l : TxnItemList) (item : wal_item)
  (old_item : option wal_item) : Z * TxnItemList * wal_item :=
  let idx := Z.of_nat (length (items l)) in
  (idx,
   {| items := items l ++ [Some (item_addr item)];
      old_items := old_items l ++ [option_map item_addr old_item] |},
   {| item_addr := item_addr item; dwq_index := idx |}).

(** Modelled from the spec: [TxnItemList::getItemCount]; the spec leaves open
    whether invalidated slots count, and the raw number of slots is taken. *)
Definition TxnItemList_getItemCount (l : TxnItemList) : Z :=
  Z.of_nat (length (items l)).

(** [FdbTransaction].  The back pointers ([handle], [wrapper]) are identities
    only: the handle owns the transaction by value, and the WAL designates a
    registered transaction by its [txn_id]. *)
Record FdbTransaction : Type := mk_FdbTransaction {
  isolation : Z;
  txn_id : Z;
  prev_hdr_bid : Z;
  prev_revnum : Z;
  txn_items : option TxnItemList
}.

(** The constructor: [txn_id(transaction_id++)] reads the static counter and
    advances it modulo 2^64; [txn_items(nullptr)].  Returns the object and the
    counter's new value. *)
Definition FdbTransaction_new (transaction_id : Z) (_isolation : Z)
  (_prev_hdr_bid _prev_revnum : Z) : FdbTransaction * Z :=
  ({| isolation := _isolation;
      txn_id := transaction_id;
      prev_hdr_bid := _prev_hdr_bid;
      prev_revnum := _prev_revnum;
      txn_items := None |},
   wrap64 (transaction_id + 1)).

Definition set_txn_items (t : FdbTransaction) (l : option TxnItemList)
  : FdbTransaction :=
  {| isolation := isolation t;
     txn_id := txn_id t;
     prev_hdr_bid := prev_hdr_bid t;
     prev_revnum := prev_revnum t;
     txn_items := l |}.

(** [size_t FdbTransaction::getItemCount()] *)
Definition getItemCount (t : FdbTransaction) : Z :=
  match txn_items t with
  | Some l => TxnItemList_getItemCount l
  | None => 0
  end.

(** [TxnItemList *FdbTransaction::getItemList()] *)
Definition getItemList (t : FdbTransaction) : option TxnItemList :=
  txn_items t.

(** [void FdbTransaction::resetTxnItems()] *)
Definition resetTxnItems (t : FdbTransaction) : FdbTransaction :=
  set_txn_items t None.

(** How a call of a member function can end: it returns, a C++ exception
    leaves it, or it runs into undefined behaviour. *)
Inductive cxx_exception : Type :=
| std_out_of_range.

Inductive completion (A : Type) : Type :=
| Normal (a : A)
| Throws (e : cxx_exception)
| Undefined.
Arguments Normal {A} a.
Arguments Throws {A} e.
Arguments Undefined {A}.

(** [std::vector::at(n)]: the range test ([n < size()], on unsigned values)
    and the store it guards. *)
Definition vector_in_range {A : Type} (v : list A) (n : Z) : bool :=
  (0 <=? n) && (n <? Z.of_nat (length v)).

Fixpoint vector_store {A : Type} (v : list A) (n : nat) (x : A) : list A :=
  match v, n with
  | [], _ => []
  | _ :: tl, O => x :: tl
  | hd :: tl, S m => hd :: vector_store tl m x
  end.

(** [void FdbTransaction::resetTxnItem(wal_item *item)]:
    [txn_items->items.at(item->dwq_index) = nullptr;
     item->dwq_index = uint64_t(-1);]
    [txn_items] is dereferenced without a null test; [at] throws
    [std::out_of_range] when the index is not below [size()], and nothing
    catches it (the statements after it, the unlock included, are skipped). *)
Definition resetTxnItem (t : FdbTransaction) (item : wal_item)
  : completion (FdbTransaction * wal_item) :=
  match txn_items t with
  | None => Undefined
  | Some l =>
      if vector_in_range (items l) (dwq_index item)
      then
        Normal (set_txn_items t
                  (Some {| items := vector_store (items l)
                                      (Z.to_nat (dwq_index item)) None;
                           old_items := old_items l |}),
                {| item_addr := item_addr item;
                   dwq_index := UINT64_MINUS_ONE |})
      else Throws std_out_of_range
  end.

(** [uint64_t FdbTransaction::addTxnItem(wal_item *item, wal_item *old_item)] *)
Definition addTxnItem (t : FdbTransaction) (item : wal_item)
  (old_item : option wal_item) : Z * FdbTransaction * wal_item :=
  let l := match txn_items t with
           | Some l => l
           | None => {| items := []; old_items := [] |}
           end in
  let '(idx, l', item') := TxnItemList_addItem l item old_item in
  (idx, set_txn_items t (Some l'), item').

(** ** Handles, files and the WAL *)

(** Modelled from the spec: the WAL (wal.h, wal.cc) keeps the list of the
    registered transactions and the entries written under each of them. *)
Record Wal : Type := mk_Wal {
  wal_txns : list Z;
  wal_entries : list (Z * Z)
}.

(** Modelled from the spec: [Wal::addTransaction_Wal] registers the
    transaction. *)
Definition addTransaction_Wal (w : Wal) (t : FdbTransaction) : Wal :=
  {| wal_txns := wal_txns w ++ [txn_id t]; wal_entries := wal_entries w |}.

(** Modelled from the spec: [Wal::removeTransaction_Wal] removes the
    transaction's registration. *)
Definition removeTransaction_Wal (w : Wal) (t : FdbTransaction) : Wal :=
  {| wal_txns := remove Z.eq_dec (txn_id t) (wal_txns w);
     wal_entries := wal_entries w |}.

(** Modelled from the spec: [Wal::discardTxnEntries_Wal] discards every entry
    that belongs to the transaction. *)
Definition discardTxnEntries_Wal (w : Wal) (t : FdbTransaction) : Wal :=
  {| wal_txns := wal_txns w;
     wal_entries :=
       filter (fun e => negb (fst e =? txn_id t)) (wal_entries w) |}.

(** Modelled from the spec: the parts of [FileMgr] (filemgr.h) the lifecycle
    consumes: status, rollback flag, the file-wide mutex and the WAL. *)
Record FileMgr : Type := mk_FileMgr {
  fstatus : file_status_t;
  rollback_on : bool;
  mutex_held : bool;
  wal : Wal
}.

(** Modelled from the spec: the fields of [FdbKvsHandle] (fdb_internal.h) the
    lifecycle reads or writes.  [kvs = None] is the null [kvs] pointer;
    [txn = None] the null [txn] pointer; [file] is the file [handle->file]
    points to. *)
Record FdbKvsHandle : Type := mk_FdbKvsHandle {
  txn : option FdbTransaction;
  kvs : option kvs_type_t;
  handle_busy : bool;
  last_hdr_bid : Z;
  cur_header_revnum : Z;
  durability_opt : Z;
  file : FileMgr
}.

(** [FdbFileHandle]: [getRootHandle()] may be null. *)
Record FdbFileHandle : Type := mk_FdbFileHandle {
  getRootHandle : option FdbKvsHandle
}.

(** The non-null [fhandle] whose root handle is [h]. *)
Definition fhandle_of (h : FdbKvsHandle) : option FdbFileHandle :=
  Some {| getRootHandle := Some h |}.

Definition set_txn (h : FdbKvsHandle) (t : option FdbTransaction)
  : FdbKvsHandle :=
  {| txn := t; kvs := kvs h; handle_busy := handle_busy h;
     last_hdr_bid := last_hdr_bid h;
     cur_header_revnum := cur_header_revnum h;
     durability_opt := durability_opt h; file := file h |}.

Definition set_handle_busy (h : FdbKvsHandle) (b : bool) : FdbKvsHandle :=
  {| txn := txn h; kvs := kvs h; handle_busy := b;
     last_hdr_bid := last_hdr_bid h;
     cur_header_revnum := cur_header_revnum h;
     durability_opt := durability_opt h; file := file h |}.

Definition set_file (h : FdbKvsHandle) (f : FileMgr) : FdbKvsHandle :=
  {| txn := txn h; kvs := kvs h; handle_busy := handle_busy h;
     last_hdr_bid := last_hdr_bid h;
     cur_header_revnum := cur_header_revnum h;
     durability_opt := durability_opt h; file := f |}.

Definition set_mutex_held (f : FileMgr) (b : bool) : FileMgr :=
  {| fstatus := fstatus f; rollback_on := rollback_on f;
     mutex_held := b; wal := wal f |}.

Definition set_wal (f : FileMgr) (w : Wal) : FileMgr :=
  {| fstatus := fstatus f; rollback_on := rollback_on f;
     mutex_held := mutex_held f; wal := w |}.

(** [handle->kvs && handle->kvs->getKvsType() == KVS_SUB] *)
Definition on_sub_handle (h : FdbKvsHandle) : bool :=
  match kvs h with
  | Some k => is_kvs_sub k
  | None => false
  end.

(** ** Collaborators

    Code of other translation units, taken as parameters.  The delegates act
    on the handle (its file included); the static counter of this file is out
    of their reach. *)
Class Collaborators : Type := {
  (** [BLK_NOT_FOUND], the "not found" block id *)
  BLK_NOT_FOUND : Z;
  (** the [FDB_DRB_ASYNC] bit of [config.durability_opt] *)
  FDB_DRB_ASYNC : Z;
  (** [fdb_check_file_reopen(handle, NULL)] *)
  fdb_check_file_reopen : FdbKvsHandle -> fdb_status * FdbKvsHandle;
  (** [fdb_sync_db_header(handle)] *)
  fdb_sync_db_header : FdbKvsHandle -> FdbKvsHandle;
  (** [commitWithKVHandle(handle, opt, sync)] *)
  commitWithKVHandle : FdbKvsHandle -> Z -> bool -> fdb_status * FdbKvsHandle
}.

(** ** Actions and the machine state *)

Inductive event : Type :=
| EvBeginBusy (acquired : bool)
| EvEndBusy
| EvReopen (st : fdb_status)
| EvMutexLock
| EvMutexUnlock
| EvSyncHeader
| EvIsRollbackOn (answer : bool)
| EvGetFileStatus (answer : file_status_t)
| EvMallocWrapper
| EvNewTxn (id : Z)
| EvWalAdd (id : Z)
| EvWalDiscard (id : Z)
| EvWalRemove (id : Z)
| EvFreeWrapper (id : Z)
| EvDeleteTxn (id : Z)
| EvClearTxn
| EvCommit (opt : Z) (sync : bool) (st : fdb_status).

(** The static [transaction_id], the root handle the call works on, and the
    actions performed so far, oldest first. *)
Record St : Type := mk_St {
  transaction_id : Z;
  hnd : FdbKvsHandle;
  log : list event
}.

Definition emit (e : event) (s : St) : St :=
  {| transaction_id := transaction_id s; hnd := hnd s; log := log s ++ [e] |}.

Definition with_hnd (s : St) (h : FdbKvsHandle) : St :=
  {| transaction_id := transaction_id s; hnd := h; log := log s |}.

Definition with_file (s : St) (f : FileMgr) : St :=
  with_hnd s (set_file (hnd s) f).

(** How a lifecycle call ends: [fhandle] or its root handle is null and
    [FDB_RESULT_INVALID_HANDLE] is returned with nothing touched; it returns a
    status; it dereferences [handle->txn] after a delegate nulled it; or the
    retry loop is still running when the fuel is spent. *)
Inductive outcome : Type :=
| NullHandle
| Returned (status : fdb_status) (s : St)
| NullDereference (s : St)
| OutOfFuel (s : St).

(** The status the caller receives, if the call returns. *)
Definition returned_status (o : outcome) : option fdb_status :=
  match o with
  | NullHandle => Some FDB_RESULT_INVALID_HANDLE
  | Returned st _ => Some st
  | NullDereference _ | OutOfFuel _ => None
  end.

(** The state the call left, if it got hold of a handle. *)
Definition final_state (o : outcome) : St :=
  match o with
  | NullHandle =>
      {| transaction_id := 0;
         hnd := {| txn := None; kvs := None; handle_busy := false;
                   last_hdr_bid := 0; cur_header_revnum := 0;
                   durability_opt := 0;
                   file := {| fstatus := FILE_NORMAL; rollback_on := false;
                              mutex_held := false;
                              wal := {| wal_txns := []; wal_entries := [] |} |}
                |};
         log := [] |}
  | Returned _ s | NullDereference s | OutOfFuel s => s
  end.

(** The actions the call performed. *)
Definition actions (o : outcome) : list event :=
  match o with
  | NullHandle => []
  | Returned _ s | NullDereference s | OutOfFuel s => log s
  end.

(** The state a call starts from. *)
Definition entry (tid : Z) (h : FdbKvsHandle) : St :=
  {| transaction_id := tid; hnd := h; log := [] |}.

Section Lifecycle.

Context {collab : Collaborators}.

(** *** Primitive actions *)

(** Modelled from the spec: [BEGIN_HANDLE_BUSY(handle)] takes the handle's busy
    guard if it is free and reports whether it did. *)
Definition BEGIN_HANDLE_BUSY (s : St) : bool * St :=
  if handle_busy (hnd s)
  then (false, emit (EvBeginBusy false) s)
  else (true, emit (EvBeginBusy true) (with_hnd s (set_handle_busy (hnd s) true))).

(** Modelled from the spec: [END_HANDLE_BUSY(handle)] releases the guard. *)
Definition END_HANDLE_BUSY (s : St) : St :=
  emit EvEndBusy (with_hnd s (set_handle_busy (hnd s) false)).

Definition check_file_reopen (s : St) : fdb_status * St :=
  let '(status, h) := fdb_check_file_reopen (hnd s) in
  (status, emit (EvReopen status) (with_hnd s h)).

Definition mutexLock (s : St) : St :=
  emit EvMutexLock (with_file s (set_mutex_held (file (hnd s)) true)).

Definition mutexUnlock (s : St) : St :=
  emit EvMutexUnlock (with_file s (set_mutex_held (file (hnd s)) false)).

Definition sync_db_header (s : St) : St :=
  emit EvSyncHeader (with_hnd s (fdb_sync_db_header (hnd s))).

Definition isRollbackOn (s : St) : bool * St :=
  let b := rollback_on (file (hnd s)) in (b, emit (EvIsRollbackOn b) s).

Definition getFileStatus (s : St) : file_status_t * St :=
  let fs := fstatus (file (hnd s)) in (fs, emit (EvGetFileStatus fs) s).

(** [handle->txn = new FdbTransaction(isolation_level, handle, txn_hdr_bid,
    handle->cur_header_revnum, txn_wrapper)] *)
Definition new_FdbTransaction (isolation_level txn_hdr_bid : Z) (s : St)
  : FdbTransaction * St :=
  let '(t, next_id) :=
    FdbTransaction_new (transaction_id s) isolation_level txn_hdr_bid
      (cur_header_revnum (hnd s)) in
  (t, emit (EvNewTxn (txn_id t))
        {| transaction_id := next_id;
           hnd := set_txn (hnd s) (Some t);
           log := log s |}).

Definition wal_addTransaction (t : FdbTransaction) (s : St) : St :=
  emit (EvWalAdd (txn_id t))
    (with_file s (set_wal (file (hnd s))
                    (addTransaction_Wal (wal (file (hnd s))) t))).

Definition wal_discardTxnEntries (t : FdbTransaction) (s : St) : St :=
  emit (EvWalDiscard (txn_id t))
    (with_file s (set_wal (file (hnd s))
                    (discardTxnEntries_Wal (wal (file (hnd s))) t))).

Definition wal_removeTransaction (t : FdbTransaction) (s : St) : St :=
  emit (EvWalRemove (txn_id t))
    (with_file s (set_wal (file (hnd s))
                    (removeTransaction_Wal (wal (file (hnd s))) t))).

(** [free(handle->txn->wrapper); delete handle->txn; handle->txn = NULL;] *)
Definition release_transaction (t : FdbTransaction) (s : St) : St :=
  let s := emit (EvFreeWrapper (txn_id t)) s in
  let s := emit (EvDeleteTxn (txn_id t)) s in
  emit EvClearTxn (with_hnd s (set_txn (hnd s) None)).

(** *** [FdbEngine::beginTransaction] *)

(** Lines 246-266: what follows the stabilization loop. *)
Definition beginTransaction_create (isolation_level : Z) (status : fdb_status)
  (s : St) : outcome :=
  let s := emit EvMallocWrapper s in
  let '(fstatus2, s) := getFileStatus s in
  let txn_hdr_bid :=
    if negb (is_compact_old fstatus2)
    then last_hdr_bid (hnd s)   (* keep previous header's BID *)
    else BLK_NOT_FOUND in
  let '(t, s) := new_FdbTransaction isolation_level txn_hdr_bid s in
  let s := wal_addTransaction t s in
  let s := mutexUnlock s in
  let s := END_HANDLE_BUSY s in
  Returned status s.

(** Lines 220-244 and what follows: one unit of fuel per execution of the
    loop body. *)
Fixpoint beginTransaction_loop (fuel : nat) (isolation_level : Z) (s : St)
  : outcome :=
  match fuel with
  | O => OutOfFuel s
  | S fuel' =>
      let '(status, s) := check_file_reopen s in
      if negb (is_success status)
      then Returned status (END_HANDLE_BUSY s)
      else
        let s := mutexLock s in
        let s := sync_db_header s in
        let '(rollback, s) := isRollbackOn s in
        if rollback
        then (* deny beginning transaction during rollback *)
          let s := mutexUnlock s in
          Returned FDB_RESULT_FAIL_BY_ROLLBACK (END_HANDLE_BUSY s)
        else
          let '(fstatus, s) := getFileStatus s in
          if is_removed_pending fstatus
          then beginTransaction_loop fuel' isolation_level (mutexUnlock s)
          else beginTransaction_create isolation_level status s
  end.

Definition beginTransaction (fuel : nat) (tid : Z)
  (fhandle : option FdbFileHandle) (isolation_level : Z) : outcome :=
  match fhandle with
  | None => NullHandle
  | Some fh =>
      match getRootHandle fh with
      | None => NullHandle
      | Some handle =>
          let s := {| transaction_id := tid; hnd := handle; log := [] |} in
          match txn handle with
          | Some _ => (* transaction already exists *)
              Returned FDB_RESULT_TRANSACTION_FAIL s
          | None =>
              if on_sub_handle handle
              then (* deny transaction on sub handle *)
                Returned FDB_RESULT_INVALID_HANDLE s
              else
                let '(acquired, s) := BEGIN_HANDLE_BUSY s in
                if negb acquired
                then Returned FDB_RESULT_HANDLE_BUSY s
                else beginTransaction_loop fuel isolation_level s
          end
      end
  end.

(** *** [FdbEngine::abortTransaction] *)

(** Lines 169-179. *)
Definition abortTransaction_discard (status : fdb_status) (s : St) : outcome :=
  match txn (hnd s) with
  | None => NullDereference s
  | Some t =>
      let s := wal_discardTxnEntries t s in
      let s := wal_removeTransaction t s in
      let s := release_transaction t s in
      let s := mutexUnlock s in
      let s := END_HANDLE_BUSY s in
      Returned status s
  end.

Fixpoint abortTransaction_loop (fuel : nat) (s : St) : outcome :=
  match fuel with
  | O => OutOfFuel s
  | S fuel' =>
      let '(status, s) := check_file_reopen s in
      if negb (is_success status)
      then Returned status (END_HANDLE_BUSY s)
      else
        let s := mutexLock s in
        let s := sync_db_header s in
        let '(fstatus, s) := getFileStatus s in
        if is_removed_pending fstatus
        then abortTransaction_loop fuel' (mutexUnlock s)
        else abortTransaction_discard status s
  end.

Definition abortTransaction (fuel : nat) (tid : Z)
  (fhandle : option FdbFileHandle) : outcome :=
  match fhandle with
  | None => NullHandle
  | Some fh =>
      match getRootHandle fh with
      | None => NullHandle
      | Some handle =>
          let s := {| transaction_id := tid; hnd := handle; log := [] |} in
          match txn handle with
          | None => (* there is no transaction started *)
              Returned FDB_RESULT_TRANSACTION_FAIL s
          | Some _ =>
              if on_sub_handle handle
              then Returned FDB_RESULT_INVALID_HANDLE s
              else
                let '(acquired, s) := BEGIN_HANDLE_BUSY s in
                if negb acquired
                then Returned FDB_RESULT_HANDLE_BUSY s
                else abortTransaction_loop fuel s
          end
      end
  end.

(** *** [FdbEngine::endTransaction] *)

(** Lines 317-325. *)
Definition endTransaction_remove (fs : fdb_status) (s : St) : outcome :=
  match txn (hnd s) with
  | None => NullDereference s
  | Some t =>
      let s := wal_removeTransaction t s in
      let s := release_transaction t s in
      let s := mutexUnlock s in
      Returned fs s
  end.

Fixpoint endTransaction_loop (fuel : nat) (s : St) : outcome :=
  match fuel with
  | O => OutOfFuel s
  | S fuel' =>
      let '(fs, s) := check_file_reopen s in
      if negb (is_success fs)
      then Returned fs s
      else
        let s := mutexLock s in
        let s := sync_db_header s in
        let '(fstatus, s) := getFileStatus s in
        if is_removed_pending fstatus
        then endTransaction_loop fuel' (mutexUnlock s)
        else endTransaction_remove fs s
  end.

(** [bool sync = !(handle->config.durability_opt & FDB_DRB_ASYNC)] *)
Definition durability_sync (h : FdbKvsHandle) : bool :=
  Z.land (durability_opt h) FDB_DRB_ASYNC =? 0.

Definition commit (opt : Z) (sync : bool) (s : St) : fdb_status * St :=
  let '(fs, h) := commitWithKVHandle (hnd s) opt sync in
  (fs, emit (EvCommit opt sync fs) (with_hnd s h)).

Definition endTransaction (fuel : nat) (tid : Z)
  (fhandle : option FdbFileHandle) (opt : Z) : outcome :=
  match fhandle with
  | None => NullHandle
  | Some fh =>
      match getRootHandle fh with
      | None => NullHandle
      | Some handle =>
          let s := {| transaction_id := tid; hnd := handle; log := [] |} in
          match txn handle with
          | None => (* there is no transaction started *)
              Returned FDB_RESULT_TRANSACTION_FAIL s
          | Some t =>
              if on_sub_handle handle
              then Returned FDB_RESULT_INVALID_HANDLE s
              else
                let '(fs, s) :=
                  if negb (getItemCount t =? 0)
                  then commit opt (durability_sync handle) s
                  else (FDB_RESULT_SUCCESS, s) in
                if is_success fs
                then endTransaction_loop fuel s
                else Returned fs s
          end
      end
  end.

End Lifecycle.

Arguments beginTransaction : clear implicits.
Arguments abortTransaction : clear implicits.
Arguments endTransaction : clear implicits.

(** ** A process: lifecycle calls sharing the static counter *)

(** [static std::atomic<uint64_t> transaction_id(0)] *)
Definition initial_transaction_id : Z := 0.

Inductive lifecycle_call : Type :=
| CallBegin (fuel : nat) (fhandle : option FdbFileHandle) (isolation_level : Z)
| CallAbort (fuel : nat) (fhandle : option FdbFileHandle)
| CallEnd (fuel : nat) (fhandle : option FdbFileHandle) (opt : Z).

Definition perform (c : Collaborators) (tid : Z) (call : lifecycle_call)
  : outcome :=
  match call with
  | CallBegin fuel fhandle isolation_level =>
      beginTransaction c fuel tid fhandle isolation_level
  | CallAbort fuel fhandle => abortTransaction c fuel tid fhandle
  | CallEnd fuel fhandle opt => endTransaction c fuel tid fhandle opt
  end.

(** The counter after a call. *)
Definition counter_after (tid : Z) (o : outcome) : Z :=
  match o with
  | NullHandle => tid
  | Returned _ s | NullDereference s | OutOfFuel s => transaction_id s
  end.

(** The id of the transaction a call created: that of the transaction a
    successful [beginTransaction] left in the handle. *)
Definition created_id (call : lifecycle_call) (o : outcome) : option Z :=
  match call, o with
  | CallBegin _ _ _, Returned FDB_RESULT_SUCCESS s =>
      option_map txn_id (txn (hnd s))
  | _, _ => None
  end.

(** The ids assigned along a sequence of calls, in the order of the calls. *)
Fixpoint assigned_ids (c : Collaborators) (tid : Z)
  (calls : list lifecycle_call) : list Z :=
  match calls with
  | [] => []
  | call :: rest =>
      let o := perform c tid call in
      match created_id call o with
      | Some id => id :: assigned_ids c (counter_after tid o) rest
      | None => assigned_ids c (counter_after tid o) rest
      end
  end.

(** ** The retry loop, factored for the proofs

    The three entry points run the same loop (reopen, lock, synchronize,
    read the status, retry while removal is pending) and differ in the
    rollback query, which only [beginTransaction] makes, and in what they do
    on leaving it.  [stabilize] is that loop with the exits left open. *)
Inductive stabilization : Type :=
| ReopenFailed (status : fdb_status) (s : St)
| RollbackSeen (s : St)
| Stable (status : fdb_status) (s : St)
| Spinning (s : St).

Fixpoint stabilize (c : Collaborators) (check_rollback : bool) (fuel : nat)
  (s : St) : stabilization :=
  match fuel with
  | O => Spinning s
  | S fuel' =>
      let '(status, s) := check_file_reopen s in
      if negb (is_success status)
      then ReopenFailed status s
      else
        let s := sync_db_header (mutexLock s) in
        let '(rollback, s) :=
          if check_rollback then isRollbackOn s else (false, s) in
        if rollback
        then RollbackSeen s
        else
          let '(fstatus, s) := getFileStatus s in
          if is_removed_pending fstatus
          then stabilize c check_rollback fuel' (mutexUnlock s)
          else Stable status s
  end.

(** The actions of a loop iteration that goes round again. *)
Definition retry_event (check_rollback : bool) (e : event) : bool :=
  match e with
  | EvReopen st => is_success st
  | EvMutexLock | EvMutexUnlock | EvSyncHeader | EvGetFileStatus _ => true
  | EvIsRollbackOn answer => check_rollback && negb answer
  | _ => false
  end.

Definition is_busy_event (e : event) : bool :=
  match e with
  | EvBeginBusy _ | EvEndBusy => true
  | _ => false
  end.

(** The actions that change the handle's transaction slot or the WAL's
    registrations and entries, or release the transaction's memory. *)
Definition is_txn_mutation (e : event) : bool :=
  match e with
  | EvNewTxn _ | EvWalAdd _ | EvWalDiscard _ | EvWalRemove _
  | EvFreeWrapper _ | EvDeleteTxn _ | EvClearTxn => true
  | _ => false
  end.

Definition is_rollback_query (e : event) : bool :=
  match e with
  | EvIsRollbackOn _ => true
  | _ => false
  end.

Definition is_wal_add (e : event) : bool :=
  match e with
  | EvWalAdd _ => true
  | _ => false
  end.

(** A call's actions are bracketed by the busy guard: it is taken first,
    released last, and not touched in between. *)
Definition guard_bracketed (tr : list event) : Prop :=
  exists mid,
    tr = EvBeginBusy true :: mid ++ [EvEndBusy] /\
    Forall (fun e => is_busy_event e = false) mid.

(** The state in which the loop is left. *)
Definition stabilization_state (r : stabilization) : St :=
  match r with
  | ReopenFailed _ s | RollbackSeen s | Stable _ s | Spinning s => s
  end.

(** The transaction [t] is in the handle's slot and registered with the WAL
    of the handle's file. *)
Definition still_active (t : FdbTransaction) (h : FdbKvsHandle) : Prop :=
  txn h = Some t /\ In (txn_id t) (wal_txns (wal (file h))).

(** What the guard discipline asks of a call that returns: it did nothing
    at all; or it found the guard taken, reported it and did nothing else; or
    its actions are bracketed by the guard, which is free again. *)
Definition guarded_return (tid : Z) (fhandle : option FdbFileHandle)
  (o : outcome) : Prop :=
  forall st s', o = Returned st s' ->
    (exists h, fhandle = fhandle_of h /\ s' = entry tid h) \/
    (exists h, fhandle = fhandle_of h /\ st = FDB_RESULT_HANDLE_BUSY /\
               s' = emit (EvBeginBusy false) (entry tid h)) \/
    (guard_bracketed (log s') /\ handle_busy (hnd s') = false).

(** ** Collaborators, handles and calls used in the examples *)

(** Reopen and header synchronization leave the handle as it is; commit
    succeeds. *)
Definition quiet_collaborators : Collaborators :=
  {| BLK_NOT_FOUND := 18446744073709551615;
     FDB_DRB_ASYNC := 2;
     fdb_check_file_reopen := fun h => (FDB_RESULT_SUCCESS, h);
     fdb_sync_db_header := fun h => h;
     commitWithKVHandle := fun h _ _ => (FDB_RESULT_SUCCESS, h) |}.

(** As [quiet_collaborators], with a commit that fails. *)
Definition failing_commit_collaborators : Collaborators :=
  {| BLK_NOT_FOUND := 18446744073709551615;
     FDB_DRB_ASYNC := 2;
     fdb_check_file_reopen := fun h => (FDB_RESULT_SUCCESS, h);
     fdb_sync_db_header := fun h => h;
     commitWithKVHandle := fun h _ _ => (FDB_RESULT_OTHER (-5), h) |}.

(** As [quiet_collaborators], with a reopen that fails. *)
Definition failing_reopen_collaborators : Collaborators :=
  {| BLK_NOT_FOUND := 18446744073709551615;
     FDB_DRB_ASYNC := 2;
     fdb_check_file_reopen := fun h => (FDB_RESULT_OTHER (-9), h);
     fdb_sync_db_header := fun h => h;
     commitWithKVHandle := fun h _ _ => (FDB_RESULT_SUCCESS, h) |}.

Definition normal_file : FileMgr :=
  {| fstatus := FILE_NORMAL; rollback_on := false; mutex_held := false;
     wal := {| wal_txns := []; wal_entries := [] |} |}.

Definition set_fstatus (f : FileMgr) (fs : file_status_t) : FileMgr :=
  {| fstatus := fs; rollback_on := rollback_on f;
     mutex_held := mutex_held f; wal := wal f |}.

(** A compaction that finishes while the caller retries: synchronizing the
    header of a file finds it removal-pending as long as the handle still
    points at header block 0; reopening a removal-pending file moves the
    handle to the new file (header block 7). *)
Definition compacting_collaborators : Collaborators :=
  {| BLK_NOT_FOUND := 18446744073709551615;
     FDB_DRB_ASYNC := 2;
     fdb_check_file_reopen := fun h =>
       if is_removed_pending (fstatus (file h))
       then (FDB_RESULT_SUCCESS,
             {| txn := txn h; kvs := kvs h; handle_busy := handle_busy h;
                last_hdr_bid := 7; cur_header_revnum := cur_header_revnum h + 1;
                durability_opt := durability_opt h;
                file := set_fstatus (file h) FILE_NORMAL |})
       else (FDB_RESULT_SUCCESS, h);
     fdb_sync_db_header := fun h =>
       if last_hdr_bid h =? 0
       then set_file h (set_fstatus (file h) FILE_REMOVED_PENDING)
       else h;
     commitWithKVHandle := fun h _ _ => (FDB_RESULT_SUCCESS, h) |}.

(** A root handle without transaction on a quiet file. *)
Definition idle_root_handle : FdbKvsHandle :=
  {| txn := None; kvs := Some KVS_ROOT; handle_busy := false;
     last_hdr_bid := 0; cur_header_revnum := 3; durability_opt := 0;
     file := normal_file |}.

Definition set_kvs (h : FdbKvsHandle) (k : option kvs_type_t) : FdbKvsHandle :=
  {| txn := txn h; kvs := k; handle_busy := handle_busy h;
     last_hdr_bid := last_hdr_bid h;
     cur_header_revnum := cur_header_revnum h;
     durability_opt := durability_opt h; file := file h |}.

(** A transaction with one item, as [addTxnItem] leaves it. *)
Definition one_item_txn : FdbTransaction :=
  let t := {| isolation := 2; txn_id := 41; prev_hdr_bid := 0;
              prev_revnum := 3; txn_items := None |} in
  snd (fst (addTxnItem t {| item_addr := 4096; dwq_index := 0 |} None)).

Definition set_fstatus_of (h : FdbKvsHandle) (fs : file_status_t)
  : FdbKvsHandle :=
  set_file h (set_fstatus (file h) fs).

(** A root handle with [one_item_txn] active and registered. *)
Definition active_root_handle : FdbKvsHandle :=
  {| txn := Some one_item_txn; kvs := Some KVS_ROOT; handle_busy := false;
     last_hdr_bid := 0; cur_header_revnum := 3; durability_opt := 0;
     file := set_wal normal_file
               {| wal_txns := [41]; wal_entries := [(41, 4096); (40, 8192)] |} |}.

(** The state [beginTransaction] leaves when a compaction finishes during
    its first retry. *)
Definition begun_after_compaction : St :=
  match beginTransaction compacting_collaborators 3 0
          (fhandle_of idle_root_handle) 2 with
  | Returned _ s => s
  | _ => entry 0 idle_root_handle
  end.

(** Handles whose file is being rolled back. *)
Definition set_rollback_on (f : FileMgr) (b : bool) : FileMgr :=
  {| fstatus := fstatus f; rollback_on := b;
     mutex_held := mutex_held f; wal := wal f |}.

Definition rolling_back_idle_handle : FdbKvsHandle :=
  set_file idle_root_handle (set_rollback_on (file idle_root_handle) true).

Definition rolling_back_active_handle : FdbKvsHandle :=
  set_file active_root_handle (set_rollback_on (file active_root_handle) true).

(** A handle with an active transaction whose busy guard is held by an
    operation in flight. *)
Definition busy_active_handle : FdbKvsHandle :=
  set_handle_busy active_root_handle true.

(** A process that begins a transaction, is refused a second one on a handle
    that has one, aborts and ends that one, and begins two more on other
    handles. *)
Definition sample_calls : list lifecycle_call :=
  [CallBegin 2 (fhandle_of idle_root_handle) 2;
   CallBegin 2 (fhandle_of active_root_handle) 2;
   CallAbort 2 (fhandle_of active_root_handle);
   CallBegin 3 (fhandle_of (set_fstatus_of idle_root_handle FILE_COMPACT_OLD)) 1;
   CallEnd 2 (fhandle_of active_root_handle) 0;
   CallBegin 3 (fhandle_of idle_root_handle) 2].

(** ** The public entry points

    [fdb_begin_transaction], [fdb_abort_transaction] and
    [fdb_end_transaction] fetch the engine singleton and forward to its
    method; [engine] tells whether [FdbEngine::getInstance()] is non-null. *)
Inductive api_outcome : Type :=
| EngineMissing
| EngineCall (o : outcome).

(** The status the caller of the public entry point receives. *)
Definition api_status (a : api_outcome) : option fdb_status :=
  match a with
  | EngineMissing => Some FDB_RESULT_ENGINE_NOT_INSTANTIATED
  | EngineCall o => returned_status o
  end.

Definition api_actions (a : api_outcome) : list event :=
  match a with
  | EngineMissing => []
  | EngineCall o => actions o
  end.

Definition fdb_begin_transaction (c : Collaborators) (engine : bool)
  (fuel : nat) (tid : Z) (fhandle : option FdbFileHandle)
  (isolation_level : Z) : api_outcome :=
  if engine
  then EngineCall (beginTransaction c fuel tid fhandle isolation_level)
  else EngineMissing.

Definition fdb_abort_transaction (c : Collaborators) (engine : bool)
  (fuel : nat) (tid : Z) (fhandle : option FdbFileHandle) : api_outcome :=
  if engine
  then EngineCall (abortTransaction c fuel tid fhandle)
  else EngineMissing.

Definition fdb_end_transaction (c : Collaborators) (engine : bool)
  (fuel : nat) (tid : Z) (fhandle : option FdbFileHandle) (opt : Z)
  : api_outcome :=
  if engine
  then EngineCall (endTransaction c fuel tid fhandle opt)
  else EngineMissing.

(** ** Further vocabulary for the properties *)

(** The file mutex along a sequence of actions, starting free or held: [None]
    when it is locked while held or unlocked while free. *)
Fixpoint mutex_after (held : bool) (tr : list event) : option bool :=
  match tr with
  | [] => Some held
  | EvMutexLock :: tl => if held then None else mutex_after true tl
  | EvMutexUnlock :: tl => if held then mutex_after false tl else None
  | _ :: tl => mutex_after held tl
  end.

Definition is_commit_event (e : event) : bool :=
  match e with
  | EvCommit _ _ _ => true
  | _ => false
  end.

(** What only [beginTransaction] and [abortTransaction] do. *)
Definition is_begin_or_abort_only (e : event) : bool :=
  match e with
  | EvBeginBusy _ | EvEndBusy | EvIsRollbackOn _ | EvMallocWrapper
  | EvNewTxn _ | EvWalAdd _ | EvWalDiscard _ => true
  | _ => false
  end.

(** [start], [start + 1], ... ([n] values). *)
Fixpoint consecutive_from (start : Z) (n : nat) : list Z :=
  match n with
  | O => []
  | S m => start :: consecutive_from (start + 1) m
  end.

(** A root handle ready for [beginTransaction]: no transaction, not a sub
    handle, guard free. *)
Definition ready_to_begin (h : FdbKvsHandle) : Prop :=
  txn h = None /\ on_sub_handle h = false /\ handle_busy h = false.

(** A root handle with a transaction that [abortTransaction] accepts. *)
Definition ready_to_abort (h : FdbKvsHandle) : Prop :=
  txn h <> None /\ on_sub_handle h = false /\ handle_busy h = false.

(** Delegates that leave the handle alone: the reopen succeeds and the
    header is already synchronized. *)
Definition delegates_idle (c : Collaborators) : Prop :=
  (forall h, fdb_check_file_reopen h = (FDB_RESULT_SUCCESS, h)) /\
  (forall h, fdb_sync_db_header h = h).

(** Collaborators under which removal stays pending: every reopen succeeds,
    and every header synchronization finds the file removal-pending with no
    rollback in progress. *)
Definition stuck_collaborators : Collaborators :=
  {| BLK_NOT_FOUND := 18446744073709551615;
     FDB_DRB_ASYNC := 2;
     fdb_check_file_reopen := fun h => (FDB_RESULT_SUCCESS, h);
     fdb_sync_db_header := fun h =>
       set_file h (set_rollback_on
                     (set_fstatus (file h) FILE_REMOVED_PENDING) false);
     commitWithKVHandle := fun h _ _ => (FDB_RESULT_SUCCESS, h) |}.

(** Collaborators whose header synchronization completes a pending removal:
    it leaves the file in the normal state whenever it finds it
    removal-pending. *)
Definition settling_collaborators : Collaborators :=
  {| BLK_NOT_FOUND := 18446744073709551615;
     FDB_DRB_ASYNC := 2;
     fdb_check_file_reopen := fun h => (FDB_RESULT_SUCCESS, h);
     fdb_sync_db_header := fun h =>
       if is_removed_pending (fstatus (file h))
       then set_file h (set_fstatus (file h) FILE_NORMAL)
       else h;
     commitWithKVHandle := fun h _ _ => (FDB_RESULT_SUCCESS, h) |}.

(** The state [beginTransaction] leaves on an idle root handle with idle
    delegates, when the counter is at its last value. *)
Definition begun_at_last_id : St :=
  final_state (beginTransaction quiet_collaborators 1 18446744073709551615
                 (fhandle_of idle_root_handle) 2).

(** The state [beginTransaction] leaves on an idle root handle with idle
    delegates and the counter at 5. *)
Definition begun_quietly : St :=
  final_state (beginTransaction quiet_collaborators 1 5
                 (fhandle_of idle_root_handle) 2).

(** The state [endTransaction] leaves on [active_root_handle] with idle
    delegates. *)
Definition ended_quietly : St :=
  final_state (endTransaction quiet_collaborators 1 5
                 (fhandle_of active_root_handle) 1).

(** ** The handle along the retries of [abortTransaction] and [endTransaction]

    What the delegates and the file mutex do to the handle in the loop of
    lines 150-167 and 299-315, read off the loop body without the log and
    the fuel. *)

(** The handle after the reopen, the lock and the header synchronization of
    one pass. *)
Definition synced (c : Collaborators) (h : FdbKvsHandle) : FdbKvsHandle :=
  let h1 := snd (fdb_check_file_reopen h) in
  fdb_sync_db_header (set_file h1 (set_mutex_held (file h1) true)).

(** A pass goes round again when the reopen succeeds and the synchronized
    status is removal-pending. *)
Definition pass_retries (c : Collaborators) (h : FdbKvsHandle) : bool :=
  is_success (fst (fdb_check_file_reopen h)) &&
  is_removed_pending (fstatus (file (synced c h))).

(** The handle at the start of the next pass: the mutex is released. *)
Definition retry_pass (c : Collaborators) (h : FdbKvsHandle) : FdbKvsHandle :=
  set_file (synced c h) (set_mutex_held (file (synced c h)) false).

(** The handle after [k] passes that went round again, and the test that
    the first [k] passes do go round again. *)
Fixpoint after_retries (c : Collaborators) (k : nat) (h : FdbKvsHandle)
  : FdbKvsHandle :=
  match k with
  | O => h
  | S k' => after_retries c k' (retry_pass c h)
  end.

Fixpoint retries_pending (c : Collaborators) (k : nat) (h : FdbKvsHandle)
  : bool :=
  match k with
  | O => true
  | S k' => pass_retries c h && retries_pending c k' (retry_pass c h)
  end.

(** The handle [abortTransaction] leaves (lines 169-178) when it leaves its
    loop with the handle [h2] whose slot holds [t]: the entries of [t] are
    discarded, [t] is deregistered, the slot is cleared, the mutex and the
    guard are released; nothing else changes. *)
Definition aborted_handle (h2 : FdbKvsHandle) (t : FdbTransaction)
  : FdbKvsHandle :=
  {| txn := None;
     kvs := kvs h2;
     handle_busy := false;
     last_hdr_bid := last_hdr_bid h2;
     cur_header_revnum := cur_header_revnum h2;
     durability_opt := durability_opt h2;
     file :=
       {| fstatus := fstatus (file h2);
          rollback_on := rollback_on (file h2);
          mutex_held := false;
          wal :=
            {| wal_txns :=
                 remove Z.eq_dec (txn_id t) (wal_txns (wal (file h2)));
               wal_entries :=
                 filter (fun e => negb (fst e =? txn_id t))
                   (wal_entries (wal (file h2))) |} |} |}.

(** The handle [endTransaction] leaves (lines 317-322) when it leaves its
    loop with the handle [h2] whose slot holds [t]: [t] is deregistered, the
    slot is cleared and the mutex released; the WAL entries and the guard
    are as they were. *)
Definition ended_handle (h2 : FdbKvsHandle) (t : FdbTransaction)
  : FdbKvsHandle :=
  {| txn := None;
     kvs := kvs h2;
     handle_busy := handle_busy h2;
     last_hdr_bid := last_hdr_bid h2;
     cur_header_revnum := cur_header_revnum h2;
     durability_opt := durability_opt h2;
     file :=
       {| fstatus := fstatus (file h2);
          rollback_on := rollback_on (file h2);
          mutex_held := false;
          wal :=
            {| wal_txns :=
                 remove Z.eq_dec (txn_id t) (wal_txns (wal (file h2)));
               wal_entries := wal_entries (wal (file h2)) |} |} |}.

(** The state in which [endTransaction] enters its loop: after the commit if
    the transaction has items, the entry state otherwise. *)
Definition end_after_commit (c : Collaborators) (tid : Z) (h : FdbKvsHandle)
  (t : FdbTransaction) (opt : Z) : fdb_status * St :=
  if negb (getItemCount t =? 0)
  then @commit c opt (@durability_sync c h) (entry tid h)
  else (FDB_RESULT_SUCCESS, entry tid h).

(** The states [abortTransaction] and [endTransaction] leave on
    [rolling_back_active_handle] with [compacting_collaborators]: the header
    block of the handle is still 0, so the first pass finds the file
    removal-pending and the second does not. *)
Definition aborted_after_retry : St :=
  final_state (abortTransaction compacting_collaborators 2 5
                 (fhandle_of rolling_back_active_handle)).

Definition ended_after_retry : St :=
  final_state (endTransaction compacting_collaborators 2 5
                 (fhandle_of rolling_back_active_handle) 1).

(** ** Proofs *)

Ltac logs :=
  cbn [log emit with_hnd with_file hnd transaction_id fst snd] in *;
  rewrite <- ?app_assoc in *; cbn [app] in *.

Section LoopFacts.

Context {c : Collaborators}.

Lemma retry_event_not_busy (rb : bool) (e : event) :
  retry_event rb e = true -> is_busy_event e = false.
Proof. destruct e; simpl; congruence. Qed.

Lemma retry_event_not_mutation (rb : bool) (e : event) :
  retry_event rb e = true -> is_txn_mutation e = false.
Proof. destruct e; simpl; congruence. Qed.


Lemma retry_event_no_query (e : event) :
  retry_event false e = true -> is_rollback_query e = false.
Proof. destruct e; simpl; congruence. Qed.

Lemma is_success_true (st : fdb_status) :
  is_success st = true -> st = FDB_RESULT_SUCCESS.
Proof. destruct st; simpl; congruence. Qed.

(** What [stabilize] leaves behind, exit by exit. *)
Lemma stabilize_spec (rb : bool) (fuel : nat) : forall s,
  match stabilize c rb fuel s with
  | ReopenFailed st s1 =>
      is_success st = false /\
      transaction_id s1 = transaction_id s /\
      (exists h0, st = fst (fdb_check_file_reopen h0)) /\
      exists pre, Forall (fun e => retry_event rb e = true) pre /\
                  log s1 = log s ++ pre ++ [EvReopen st]
  | RollbackSeen s1 =>
      rb = true /\
      rollback_on (file (hnd s1)) = true /\
      transaction_id s1 = transaction_id s /\
      exists pre, Forall (fun e => retry_event rb e = true) pre /\
                  log s1 = log s ++ pre
                             ++ [EvMutexLock; EvSyncHeader; EvIsRollbackOn true]
  | Stable st s1 =>
      st = FDB_RESULT_SUCCESS /\
      is_removed_pending (fstatus (file (hnd s1))) = false /\
      (rb = true -> rollback_on (file (hnd s1)) = false) /\
      transaction_id s1 = transaction_id s /\
      exists pre, Forall (fun e => retry_event rb e = true) pre /\
                  log s1 = log s ++ pre
  | Spinning s1 =>
      transaction_id s1 = transaction_id s /\
      exists pre, Forall (fun e => retry_event rb e = true) pre /\
                  log s1 = log s ++ pre
  end.
Proof.
  induction fuel as [|fuel IH]; intros s.
  - simpl. split; [reflexivity|]. exists []. split; [constructor|].
    now rewrite app_nil_r.
  - cbn [stabilize]. unfold check_file_reopen.
    destruct (fdb_check_file_reopen (hnd s)) as [st h] eqn:Ereopen.
    destruct (is_success st) eqn:Est; cbn [negb].
    + destruct rb.
      * unfold isRollbackOn.
        destruct (rollback_on _) eqn:Erb.
        -- repeat split; auto.
           exists [EvReopen st]. split.
           ++ repeat constructor. simpl. exact Est.
           ++ unfold sync_db_header, mutexLock. logs. reflexivity.
        -- unfold getFileStatus.
           match goal with
           | |- context [is_removed_pending ?x] =>
               destruct (is_removed_pending x) eqn:Epend
           end.
           ++ match goal with
              | |- context [stabilize c true fuel ?s1] =>
                  specialize (IH s1); destruct (stabilize c true fuel s1)
              end.
              all: unfold sync_db_header, mutexLock, mutexUnlock in IH.
              all: logs.
              all: repeat match goal with
                     | H : _ /\ _ |- _ => destruct H
                     | H : exists _, _ |- _ => destruct H
                     end.
              all: repeat split; auto.
              all: try solve [eauto].
              all: match goal with
                   | H : log _ = _ |- _ => rewrite H
                   end.
              all: eexists (EvReopen st :: EvMutexLock :: EvSyncHeader
                              :: EvIsRollbackOn false :: EvGetFileStatus _
                              :: EvMutexUnlock :: _).
              all: split; [|rewrite <- ?app_assoc; cbn [app]; reflexivity].
              all: repeat constructor; simpl; auto.
           ++ repeat split; auto.
              ** apply is_success_true; exact Est.
              ** unfold sync_db_header, mutexLock. logs. eexists. split.
                 2: reflexivity.
                 repeat constructor; simpl; auto.
      * unfold getFileStatus.
        match goal with
        | |- context [is_removed_pending ?x] =>
            destruct (is_removed_pending x) eqn:Epend
        end.
        -- match goal with
           | |- context [stabilize c false fuel ?s1] =>
               specialize (IH s1); destruct (stabilize c false fuel s1)
           end.
           all: unfold sync_db_header, mutexLock, mutexUnlock in IH.
           all: logs.
           all: repeat match goal with
                  | H : _ /\ _ |- _ => destruct H
                  | H : exists _, _ |- _ => destruct H
                  end.
           all: try discriminate.
           all: repeat split; auto.
           all: try solve [eauto].
           all: match goal with
                | H : log _ = _ |- _ => rewrite H
                end.
           all: eexists (EvReopen st :: EvMutexLock :: EvSyncHeader
                           :: EvGetFileStatus _ :: EvMutexUnlock :: _).
           all: split; [|rewrite <- ?app_assoc; cbn [app]; reflexivity].
           all: repeat constructor; simpl; auto.
        -- repeat split; auto.
           ++ apply is_success_true; exact Est.
           ++ discriminate.
           ++ unfold sync_db_header, mutexLock. logs. eexists. split.
              2: reflexivity.
              repeat constructor; simpl; auto.
    + repeat split; auto.
      * exists (hnd s). now rewrite Ereopen.
      * exists []. split; [constructor|]. logs. reflexivity.
Qed.

End LoopFacts.

Section EntryPoints.

Context {c : Collaborators}.

Lemma beginTransaction_loop_stabilize (fuel : nat) (iso : Z) : forall s,
  beginTransaction_loop fuel iso s =
  match stabilize c true fuel s with
  | ReopenFailed st s1 => Returned st (END_HANDLE_BUSY s1)
  | RollbackSeen s1 =>
      Returned FDB_RESULT_FAIL_BY_ROLLBACK (END_HANDLE_BUSY (mutexUnlock s1))
  | Stable st s1 => beginTransaction_create iso st s1
  | Spinning s1 => OutOfFuel s1
  end.
Proof.
  induction fuel as [|fuel IH]; intros s; [reflexivity|].
  cbn [beginTransaction_loop stabilize].
  destruct (check_file_reopen s) as [st s1].
  destruct (is_success st); cbn [negb]; [|reflexivity].
  destruct (isRollbackOn (sync_db_header (mutexLock s1))) as [rb s2].
  destruct rb; [reflexivity|].
  destruct (getFileStatus s2) as [fs s3].
  destruct (is_removed_pending fs); [apply IH|reflexivity].
Qed.

Lemma abortTransaction_loop_stabilize (fuel : nat) : forall s,
  abortTransaction_loop fuel s =
  match stabilize c false fuel s with
  | ReopenFailed st s1 => Returned st (END_HANDLE_BUSY s1)
  | RollbackSeen s1 => OutOfFuel s1
  | Stable st s1 => abortTransaction_discard st s1
  | Spinning s1 => OutOfFuel s1
  end.
Proof.
  induction fuel as [|fuel IH]; intros s; [reflexivity|].
  cbn [abortTransaction_loop stabilize].
  destruct (check_file_reopen s) as [st s1].
  destruct (is_success st); cbn [negb]; [|reflexivity].
  destruct (getFileStatus (sync_db_header (mutexLock s1))) as [fs s3].
  destruct (is_removed_pending fs); [apply IH|reflexivity].
Qed.

Lemma endTransaction_loop_stabilize (fuel : nat) : forall s,
  endTransaction_loop fuel s =
  match stabilize c false fuel s with
  | ReopenFailed st s1 => Returned st s1
  | RollbackSeen s1 => OutOfFuel s1
  | Stable st s1 => endTransaction_remove st s1
  | Spinning s1 => OutOfFuel s1
  end.
Proof.
  induction fuel as [|fuel IH]; intros s; [reflexivity|].
  cbn [endTransaction_loop stabilize].
  destruct (check_file_reopen s) as [st s1].
  destruct (is_success st); cbn [negb]; [|reflexivity].
  destruct (getFileStatus (sync_db_header (mutexLock s1))) as [fs s3].
  destruct (is_removed_pending fs); [apply IH|reflexivity].
Qed.

(** More fuel does not change a loop that has left. *)
Lemma stabilize_fuel_mono (rb : bool) (fuel : nat) : forall s extra,
  (forall s1, stabilize c rb fuel s <> Spinning s1) ->
  stabilize c rb (fuel + extra) s = stabilize c rb fuel s.
Proof.
  induction fuel as [|fuel IH]; intros s extra Hleft.
  - exfalso. apply (Hleft s). reflexivity.
  - cbn [Nat.add stabilize] in *.
    destruct (check_file_reopen s) as [st s1].
    destruct (is_success st); cbn [negb] in *; [|reflexivity].
    destruct (if rb then isRollbackOn (sync_db_header (mutexLock s1))
              else (false, sync_db_header (mutexLock s1))) as [rbk s2].
    destruct rbk; [reflexivity|].
    destruct (getFileStatus s2) as [fs s3].
    destruct (is_removed_pending fs); [|reflexivity].
    apply IH. exact Hleft.
Qed.

(** A property of the handle that the delegates and the file mutex respect
    holds when the loop is left, however it is left. *)
Lemma stabilize_preserves (P : FdbKvsHandle -> Prop) (rb : bool) :
  (forall h, P h -> P (snd (fdb_check_file_reopen h))) ->
  (forall h, P h -> P (fdb_sync_db_header h)) ->
  (forall h b, P h -> P (set_file h (set_mutex_held (file h) b))) ->
  forall fuel s, P (hnd s) ->
  P (hnd (stabilization_state (stabilize c rb fuel s))).
Proof.
  intros Hreopen Hsync Hmutex.
  induction fuel as [|fuel IH]; intros s HP; [exact HP|].
  cbn [stabilize]. unfold check_file_reopen.
  pose proof (Hreopen (hnd s) HP) as HP1.
  destruct (fdb_check_file_reopen (hnd s)) as [st h]. cbn [snd] in HP1.
  destruct (is_success st); cbn [negb]; [|exact HP1].
  assert (HP2 : P (hnd (sync_db_header
                          (mutexLock (emit (EvReopen st) (with_hnd s h)))))).
  { unfold sync_db_header, mutexLock. logs. apply Hsync, Hmutex, HP1. }
  destruct rb.
  - unfold isRollbackOn. destruct (rollback_on _); [exact HP2|].
    unfold getFileStatus.
    match goal with
    | |- context [is_removed_pending ?x] => destruct (is_removed_pending x)
    end; [|exact HP2].
    apply IH. unfold mutexUnlock. logs. apply Hmutex. exact HP2.
  - unfold getFileStatus.
    match goal with
    | |- context [is_removed_pending ?x] => destruct (is_removed_pending x)
    end; [|exact HP2].
    apply IH. unfold mutexUnlock. logs. apply Hmutex. exact HP2.
Qed.

(** An entry point that has left its loop gives the same outcome with any
    larger amount of fuel. *)
Lemma beginTransaction_fuel_mono (fuel extra : nat) (tid : Z)
  (fhandle : option FdbFileHandle) (iso : Z) :
  (forall s, beginTransaction c fuel tid fhandle iso <> OutOfFuel s) ->
  beginTransaction c (fuel + extra) tid fhandle iso
  = beginTransaction c fuel tid fhandle iso.
Proof.
  unfold beginTransaction.
  destruct fhandle as [[[h|]]|]; try reflexivity. cbn [getRootHandle].
  destruct (txn h); [reflexivity|].
  destruct (on_sub_handle h); [reflexivity|].
  destruct (BEGIN_HANDLE_BUSY _) as [acquired s0].
  destruct acquired; cbn [negb]; [|reflexivity].
  rewrite !beginTransaction_loop_stabilize.
  destruct (stabilize c true fuel s0) as [st1 s1|s1|st1 s1|s1] eqn:E;
    intros Hleft.
  4: { exfalso. apply (Hleft s1). reflexivity. }
  all: rewrite stabilize_fuel_mono by (rewrite E; discriminate).
  all: rewrite E; reflexivity.
Qed.

Lemma abortTransaction_fuel_mono (fuel extra : nat) (tid : Z)
  (fhandle : option FdbFileHandle) :
  (forall s, abortTransaction c fuel tid fhandle <> OutOfFuel s) ->
  abortTransaction c (fuel + extra) tid fhandle
  = abortTransaction c fuel tid fhandle.
Proof.
  unfold abortTransaction.
  destruct fhandle as [[[h|]]|]; try reflexivity. cbn [getRootHandle].
  destruct (txn h); [|reflexivity].
  destruct (on_sub_handle h); [reflexivity|].
  destruct (BEGIN_HANDLE_BUSY _) as [acquired s0].
  destruct acquired; cbn [negb]; [|reflexivity].
  rewrite !abortTransaction_loop_stabilize.
  pose proof (stabilize_spec false fuel s0) as Hspec.
  destruct (stabilize c false fuel s0) as [st1 s1|s1|st1 s1|s1] eqn:E;
    intros Hleft.
  2: { destruct Hspec as (Hrb & _). discriminate. }
  3: { exfalso. apply (Hleft s1). reflexivity. }
  all: rewrite stabilize_fuel_mono by (rewrite E; discriminate).
  all: rewrite E; reflexivity.
Qed.

Lemma endTransaction_fuel_mono (fuel extra : nat) (tid : Z)
  (fhandle : option FdbFileHandle) (opt : Z) :
  (forall s, endTransaction c fuel tid fhandle opt <> OutOfFuel s) ->
  endTransaction c (fuel + extra) tid fhandle opt
  = endTransaction c fuel tid fhandle opt.
Proof.
  unfold endTransaction.
  destruct fhandle as [[[h|]]|]; try reflexivity. cbn [getRootHandle].
  destruct (txn h) as [t|]; [|reflexivity].
  destruct (on_sub_handle h); [reflexivity|].
  match goal with
  | |- context [if negb (getItemCount t =? 0) then ?a else ?b] =>
      destruct (if negb (getItemCount t =? 0) then a else b) as [fs s0]
  end.
  destruct (is_success fs); [|reflexivity].
  rewrite !endTransaction_loop_stabilize.
  pose proof (stabilize_spec false fuel s0) as Hspec.
  destruct (stabilize c false fuel s0) as [st1 s1|s1|st1 s1|s1] eqn:E;
    intros Hleft.
  2: { destruct Hspec as (Hrb & _). discriminate. }
  3: { exfalso. apply (Hleft s1). reflexivity. }
  all: rewrite stabilize_fuel_mono by (rewrite E; discriminate).
  all: rewrite E; reflexivity.
Qed.

End EntryPoints.

(** ** Precondition failures *)

(** C3: on a handle that already has an active transaction,
    [beginTransaction] returns [FDB_RESULT_TRANSACTION_FAIL]; on a handle
    without one, [endTransaction] and [abortTransaction] return
    [FDB_RESULT_TRANSACTION_FAIL].  In each case the counter and the handle
    are as before and no action was performed. *)
Theorem transaction_check_fails_without_effect (c : Collaborators)
  (fuel : nat) (tid : Z) (h : FdbKvsHandle) (iso opt : Z) :
  (txn h <> None ->
   beginTransaction c fuel tid (fhandle_of h) iso
   = Returned FDB_RESULT_TRANSACTION_FAIL (entry tid h)) /\
  (txn h = None ->
   endTransaction c fuel tid (fhandle_of h) opt
   = Returned FDB_RESULT_TRANSACTION_FAIL (entry tid h) /\
   abortTransaction c fuel tid (fhandle_of h)
   = Returned FDB_RESULT_TRANSACTION_FAIL (entry tid h)).
Proof.
  unfold beginTransaction, endTransaction, abortTransaction, fhandle_of, entry.
  cbn [getRootHandle].
  split.
  - intros Hactive. destruct (txn h); [reflexivity|congruence].
  - intros Hnone. rewrite Hnone. split; reflexivity.
Qed.

Lemma transaction_check_fails_without_effect_witness :
  (beginTransaction quiet_collaborators 2 5 (fhandle_of active_root_handle) 1
   = Returned FDB_RESULT_TRANSACTION_FAIL (entry 5 active_root_handle)) /\
  (endTransaction quiet_collaborators 2 5 (fhandle_of idle_root_handle) 1
   = Returned FDB_RESULT_TRANSACTION_FAIL (entry 5 idle_root_handle) /\
   abortTransaction quiet_collaborators 2 5 (fhandle_of idle_root_handle)
   = Returned FDB_RESULT_TRANSACTION_FAIL (entry 5 idle_root_handle)).
Proof.
  split.
  - apply (transaction_check_fails_without_effect quiet_collaborators 2 5
             active_root_handle 1 1).
    simpl. discriminate.
  - apply (transaction_check_fails_without_effect quiet_collaborators 2 5
             idle_root_handle 1 1).
    reflexivity.
Defined.

(** C4, as stated, fails: on a sub-keyspace handle without a transaction
    (the only state a sub handle can be in, since [beginTransaction] refuses
    it), [abortTransaction] and [endTransaction] return
    [FDB_RESULT_TRANSACTION_FAIL], not [FDB_RESULT_INVALID_HANDLE]; and on a
    sub handle that carries a transaction [beginTransaction] returns
    [FDB_RESULT_TRANSACTION_FAIL] too.  The transaction test comes first. *)
Lemma sub_handle_not_always_invalid_handle :
  let sub := set_kvs idle_root_handle (Some KVS_SUB) in
  let sub_active := set_kvs active_root_handle (Some KVS_SUB) in
  on_sub_handle sub = true /\
  on_sub_handle sub_active = true /\
  returned_status (abortTransaction quiet_collaborators 1 0 (fhandle_of sub))
  = Some FDB_RESULT_TRANSACTION_FAIL /\
  returned_status (endTransaction quiet_collaborators 1 0 (fhandle_of sub) 1)
  = Some FDB_RESULT_TRANSACTION_FAIL /\
  returned_status
    (beginTransaction quiet_collaborators 1 0 (fhandle_of sub_active) 2)
  = Some FDB_RESULT_TRANSACTION_FAIL /\
  FDB_RESULT_TRANSACTION_FAIL <> FDB_RESULT_INVALID_HANDLE.
Proof. repeat split; try reflexivity. discriminate. Qed.

(** C4, amended: on a sub-keyspace handle, [beginTransaction] returns
    [FDB_RESULT_INVALID_HANDLE] when the handle has no transaction, and
    [endTransaction] and [abortTransaction] return it when the handle has one;
    with the transaction test failing first, the status is
    [FDB_RESULT_TRANSACTION_FAIL].  In all cases the counter and the handle
    are as before and no action was performed. *)
Theorem sub_handle_rejected_without_effect (c : Collaborators)
  (fuel : nat) (tid : Z) (h : FdbKvsHandle) (iso opt : Z) :
  on_sub_handle h = true ->
  (txn h = None ->
   beginTransaction c fuel tid (fhandle_of h) iso
   = Returned FDB_RESULT_INVALID_HANDLE (entry tid h) /\
   endTransaction c fuel tid (fhandle_of h) opt
   = Returned FDB_RESULT_TRANSACTION_FAIL (entry tid h) /\
   abortTransaction c fuel tid (fhandle_of h)
   = Returned FDB_RESULT_TRANSACTION_FAIL (entry tid h)) /\
  (txn h <> None ->
   beginTransaction c fuel tid (fhandle_of h) iso
   = Returned FDB_RESULT_TRANSACTION_FAIL (entry tid h) /\
   endTransaction c fuel tid (fhandle_of h) opt
   = Returned FDB_RESULT_INVALID_HANDLE (entry tid h) /\
   abortTransaction c fuel tid (fhandle_of h)
   = Returned FDB_RESULT_INVALID_HANDLE (entry tid h)).
Proof.
  intros Hsub.
  unfold beginTransaction, endTransaction, abortTransaction, fhandle_of, entry.
  cbn [getRootHandle]. rewrite Hsub.
  split.
  - intros Hnone. rewrite Hnone. repeat split; reflexivity.
  - intros Hactive. destruct (txn h); [|congruence].
    repeat split; reflexivity.
Qed.

Lemma sub_handle_rejected_without_effect_witness :
  beginTransaction quiet_collaborators 1 0
    (fhandle_of (set_kvs idle_root_handle (Some KVS_SUB))) 2
  = Returned FDB_RESULT_INVALID_HANDLE
      (entry 0 (set_kvs idle_root_handle (Some KVS_SUB))) /\
  abortTransaction quiet_collaborators 1 0
    (fhandle_of (set_kvs active_root_handle (Some KVS_SUB)))
  = Returned FDB_RESULT_INVALID_HANDLE
      (entry 0 (set_kvs active_root_handle (Some KVS_SUB))).
Proof.
  split.
  - apply (sub_handle_rejected_without_effect quiet_collaborators 1 0
             (set_kvs idle_root_handle (Some KVS_SUB)) 2 1);
      reflexivity.
  - apply (sub_handle_rejected_without_effect quiet_collaborators 1 0
             (set_kvs active_root_handle (Some KVS_SUB)) 2 1).
    + reflexivity.
    + simpl. discriminate.
Defined.

(** ** [endTransaction] when the commit or the reopen fails *)

(** C1: on a handle with an active transaction whose item count is not zero,
    when the commit delegate returns a status other than success,
    [endTransaction] returns that status.  The handle is the one the delegate
    left, the call to the delegate is the only action ([endTransaction]
    neither deregisters nor frees nor clears), and so the transaction slot and
    the WAL registrations are those the delegate left: unchanged whenever the
    delegate did not change them. *)
Theorem end_failed_commit_keeps_transaction (c : Collaborators)
  (fuel : nat) (tid : Z) (h h' : FdbKvsHandle) (t : FdbTransaction)
  (opt : Z) (fs : fdb_status) :
  txn h = Some t ->
  getItemCount t <> 0 ->
  on_sub_handle h = false ->
  commitWithKVHandle h opt (durability_sync h) = (fs, h') ->
  fs <> FDB_RESULT_SUCCESS ->
  exists s',
    endTransaction c fuel tid (fhandle_of h) opt = Returned fs s' /\
    transaction_id s' = tid /\
    hnd s' = h' /\
    log s' = [EvCommit opt (durability_sync h) fs] /\
    Forall (fun e => is_txn_mutation e = false) (log s') /\
    (txn h' = txn h -> txn (hnd s') = Some t) /\
    (wal (file h') = wal (file h) ->
     wal (file (hnd s')) = wal (file h)).
Proof.
  intros Ht Hcount Hsub Hcommit Hfs.
  unfold endTransaction, fhandle_of. cbn [getRootHandle].
  rewrite Ht, Hsub.
  apply Z.eqb_neq in Hcount. rewrite Hcount. cbn [negb].
  unfold commit. cbn [hnd]. rewrite Hcommit.
  assert (Hfail : is_success fs = false) by (destruct fs; simpl; congruence).
  rewrite Hfail.
  eexists. split; [reflexivity|]. logs.
  split; [reflexivity|]. split; [reflexivity|]. split; [reflexivity|].
  split; [repeat constructor|].
  split; [congruence|auto].
Qed.

Lemma end_failed_commit_keeps_transaction_witness :
  exists s',
    endTransaction failing_commit_collaborators 3 7
      (fhandle_of active_root_handle) 1
    = Returned (FDB_RESULT_OTHER (-5)) s' /\
    transaction_id s' = 7 /\
    hnd s' = active_root_handle /\
    log s' = [EvCommit 1 true (FDB_RESULT_OTHER (-5))] /\
    Forall (fun e => is_txn_mutation e = false) (log s') /\
    (txn active_root_handle = txn active_root_handle ->
     txn (hnd s') = Some one_item_txn) /\
    (wal (file active_root_handle) = wal (file active_root_handle) ->
     wal (file (hnd s')) = wal (file active_root_handle)).
Proof.
  apply (@end_failed_commit_keeps_transaction failing_commit_collaborators
           3 7 active_root_handle active_root_handle one_item_txn 1
           (FDB_RESULT_OTHER (-5))).
  - reflexivity.
  - vm_compute. discriminate.
  - reflexivity.
  - reflexivity.
  - discriminate.
Defined.

Lemma still_active_mutex (t : FdbTransaction) (h : FdbKvsHandle) (b : bool) :
  still_active t h ->
  still_active t (set_file h (set_mutex_held (file h) b)).
Proof. intros [Ht Hreg]. split; assumption. Qed.

(** C10: with an active transaction that has items, when the commit delegate
    succeeds and the reopen step of the loop then returns a status other than
    success, [endTransaction] returns that status: at once if the first
    reopen fails, and with the same shape after any number of retries.  On
    such a return the commit was performed, [endTransaction] did not
    deregister, free or clear anything, and the transaction is still in the
    slot and registered if the delegates left it so; a status other than
    success therefore does not tell that the writes were not applied. *)
Theorem end_failed_reopen_after_commit (c : Collaborators)
  (fuel : nat) (tid : Z) (h h1 : FdbKvsHandle) (t : FdbTransaction) (opt : Z) :
  txn h = Some t ->
  getItemCount t <> 0 ->
  on_sub_handle h = false ->
  commitWithKVHandle h opt (durability_sync h) = (FDB_RESULT_SUCCESS, h1) ->
  (forall st h2,
     fdb_check_file_reopen h1 = (st, h2) ->
     st <> FDB_RESULT_SUCCESS ->
     endTransaction c (S fuel) tid (fhandle_of h) opt
     = Returned st
         {| transaction_id := tid; hnd := h2;
            log := [EvCommit opt (durability_sync h) FDB_RESULT_SUCCESS;
                    EvReopen st] |}) /\
  (forall st s',
     endTransaction c fuel tid (fhandle_of h) opt = Returned st s' ->
     st <> FDB_RESULT_SUCCESS ->
     transaction_id s' = tid /\
     (exists pre,
        Forall (fun e => retry_event false e = true) pre /\
        log s' = EvCommit opt (durability_sync h) FDB_RESULT_SUCCESS
                   :: pre ++ [EvReopen st]) /\
     Forall (fun e => is_txn_mutation e = false) (log s') /\
     ((forall x, still_active t x ->
                 still_active t (snd (fdb_check_file_reopen x))) ->
      (forall x, still_active t x -> still_active t (fdb_sync_db_header x)) ->
      still_active t h1 ->
      still_active t (hnd s'))).
Proof.
  intros Ht Hcount Hsub Hcommit.
  apply Z.eqb_neq in Hcount.
  split.
  - intros st h2 Hreopen Hst.
    unfold endTransaction, fhandle_of. cbn [getRootHandle].
    rewrite Ht, Hsub, Hcount. cbn [negb].
    unfold commit. cbn [hnd]. rewrite Hcommit. cbn [is_success].
    cbn [endTransaction_loop]. unfold check_file_reopen. logs.
    rewrite Hreopen.
    assert (Hfail : is_success st = false) by (destruct st; simpl; congruence).
    rewrite Hfail. reflexivity.
  - intros st s'.
    unfold endTransaction, fhandle_of. cbn [getRootHandle].
    rewrite Ht, Hsub, Hcount. cbn [negb].
    unfold commit. cbn [hnd]. rewrite Hcommit. cbn [is_success].
    rewrite endTransaction_loop_stabilize.
    match goal with
    | |- context [stabilize c false fuel ?s0] =>
        pose proof (stabilize_spec false fuel s0) as Hspec;
        pose proof (fun Hr Hs =>
                      stabilize_preserves (still_active t) false Hr Hs
                        (still_active_mutex t) fuel s0) as Hkeep;
        destruct (stabilize c false fuel s0) as [st1 s1|s1|st1 s1|s1]
    end.
    + intros Hret Hst. injection Hret as <- <-.
      destruct Hspec as (Hfail & Htid & _ & pre & Hpre & Hlog). logs.
      split; [exact Htid|].
      split; [exists pre; split; assumption|].
      split.
      * rewrite Hlog. constructor; [reflexivity|].
        apply Forall_app. split.
        -- eapply Forall_impl; [|exact Hpre].
           intros e. apply retry_event_not_mutation.
        -- repeat constructor.
      * intros Hr Hs Hh1. apply (Hkeep Hr Hs). exact Hh1.
    + discriminate.
    + destruct Hspec as (-> & _). unfold endTransaction_remove.
      destruct (txn (hnd s1)); [|discriminate].
      intros Hret Hst. injection Hret as <- _. congruence.
    + discriminate.
Qed.

Lemma end_failed_reopen_after_commit_witness :
  endTransaction failing_reopen_collaborators 1 7
    (fhandle_of active_root_handle) 1
  = Returned (FDB_RESULT_OTHER (-9))
      {| transaction_id := 7; hnd := active_root_handle;
         log := [EvCommit 1 true FDB_RESULT_SUCCESS;
                 EvReopen (FDB_RESULT_OTHER (-9))] |} /\
  still_active one_item_txn active_root_handle.
Proof.
  split.
  - apply (proj1 (@end_failed_reopen_after_commit failing_reopen_collaborators
                    0 7 active_root_handle active_root_handle one_item_txn 1
                    eq_refl
                    ltac:(vm_compute; discriminate)
                    eq_refl eq_refl)
             (FDB_RESULT_OTHER (-9)) active_root_handle eq_refl).
    discriminate.
  - split; [reflexivity|]. simpl. left. reflexivity.
Defined.

(** ** A successful [beginTransaction] *)

Lemma retry_events_register_nothing (rb : bool) (pre : list event) :
  Forall (fun e => retry_event rb e = true) pre ->
  filter is_wal_add pre = [].
Proof.
  induction 1 as [|e pre He _ IH]; [reflexivity|].
  simpl. rewrite IH. destruct e; simpl in *; congruence.
Qed.

(** C6: after a successful [beginTransaction] the handle holds a transaction
    whose [prev_hdr_bid] is the handle's [last_hdr_bid] if the file's status,
    read under the mutex once the loop is left, is not [FILE_COMPACT_OLD], and
    [BLK_NOT_FOUND] if it is; whose [prev_revnum] is the handle's
    [cur_header_revnum]; and which was registered with the WAL by exactly one
    [addTransaction_Wal], performed before the mutex and the guard are
    released and the call returns. *)
Theorem begin_success_snapshot_and_registration (c : Collaborators)
  (fuel : nat) (tid : Z) (fhandle : option FdbFileHandle) (iso : Z) (s' : St) :
  beginTransaction c fuel tid fhandle iso = Returned FDB_RESULT_SUCCESS s' ->
  exists t,
    txn (hnd s') = Some t /\
    txn_id t = tid /\
    isolation t = iso /\
    prev_hdr_bid t
    = (if is_compact_old (fstatus (file (hnd s')))
       then BLK_NOT_FOUND else last_hdr_bid (hnd s')) /\
    prev_revnum t = cur_header_revnum (hnd s') /\
    is_removed_pending (fstatus (file (hnd s'))) = false /\
    rollback_on (file (hnd s')) = false /\
    length (filter is_wal_add (log s')) = 1%nat /\
    (exists pre,
       log s' = pre ++ [EvNewTxn tid; EvWalAdd tid; EvMutexUnlock; EvEndBusy]) /\
    (exists regs, wal_txns (wal (file (hnd s'))) = regs ++ [tid]) /\
    transaction_id s' = wrap64 (tid + 1).
Proof.
  unfold beginTransaction.
  destruct fhandle as [fh|]; [|discriminate].
  destruct (getRootHandle fh) as [h|]; [|discriminate].
  destruct (txn h); [discriminate|].
  destruct (on_sub_handle h); [discriminate|].
  unfold BEGIN_HANDLE_BUSY. cbn [hnd].
  destruct (handle_busy h); cbn [negb]; [discriminate|].
  rewrite beginTransaction_loop_stabilize.
  match goal with
  | |- context [stabilize c true fuel ?s0] =>
      pose proof (stabilize_spec true fuel s0) as Hspec;
      destruct (stabilize c true fuel s0) as [st1 s1|s1|st1 s1|s1]
  end.
  - destruct Hspec as (Hfail & _). intros Hret. injection Hret as -> _.
    discriminate.
  - discriminate.
  - destruct Hspec as (-> & Hpend & Hrb & Htid & pre & Hpre & Hlog).
    specialize (Hrb eq_refl). logs.
    unfold beginTransaction_create, getFileStatus, new_FdbTransaction,
      FdbTransaction_new, wal_addTransaction, mutexUnlock, END_HANDLE_BUSY.
    logs. intros Hret. injection Hret as <-. logs.
    cbn [hnd txn set_handle_busy set_file set_txn file fstatus set_mutex_held
         set_wal rollback_on last_hdr_bid cur_header_revnum wal wal_txns
         addTransaction_Wal txn_id isolation prev_hdr_bid prev_revnum
         transaction_id log].
    rewrite Htid, Hlog. eexists. split; [reflexivity|].
    cbn [txn_id isolation prev_hdr_bid prev_revnum].
    split; [reflexivity|]. split; [reflexivity|].
    split; [destruct (is_compact_old _); reflexivity|].
    split; [reflexivity|]. split; [exact Hpend|]. split; [exact Hrb|].
    split.
    + rewrite !filter_app. cbn [filter is_wal_add].
      rewrite (retry_events_register_nothing true pre Hpre). reflexivity.
    + split.
      * eexists ((_ :: pre) ++ [_; _]).
        rewrite <- !app_assoc. reflexivity.
      * split; [eexists; reflexivity|reflexivity].
  - discriminate.
Qed.

Lemma begin_success_snapshot_and_registration_witness :
  beginTransaction compacting_collaborators 3 0 (fhandle_of idle_root_handle) 2
  = Returned FDB_RESULT_SUCCESS begun_after_compaction /\
  last_hdr_bid (hnd begun_after_compaction) = 7 /\
  exists t,
    txn (hnd begun_after_compaction) = Some t /\
    txn_id t = 0 /\
    isolation t = 2 /\
    prev_hdr_bid t
    = (if is_compact_old (fstatus (file (hnd begun_after_compaction)))
       then @BLK_NOT_FOUND compacting_collaborators
       else last_hdr_bid (hnd begun_after_compaction)) /\
    prev_revnum t = cur_header_revnum (hnd begun_after_compaction) /\
    is_removed_pending (fstatus (file (hnd begun_after_compaction))) = false /\
    rollback_on (file (hnd begun_after_compaction)) = false /\
    length (filter is_wal_add (log begun_after_compaction)) = 1%nat /\
    (exists pre,
       log begun_after_compaction
       = pre ++ [EvNewTxn 0; EvWalAdd 0; EvMutexUnlock; EvEndBusy]) /\
    (exists regs,
       wal_txns (wal (file (hnd begun_after_compaction))) = regs ++ [0]) /\
    transaction_id begun_after_compaction = wrap64 (0 + 1).
Proof.
  split; [vm_compute; reflexivity|].
  split; [vm_compute; reflexivity|].
  apply (@begin_success_snapshot_and_registration compacting_collaborators
           3 0 (fhandle_of idle_root_handle) 2 begun_after_compaction).
  vm_compute. reflexivity.
Defined.

(** ** The ways the entry points end *)

Section Inversions.

Context {c : Collaborators}.

(** Every way [beginTransaction] can end, with the actions performed. *)
Lemma beginTransaction_cases (fuel : nat) (tid : Z)
  (fhandle : option FdbFileHandle) (iso : Z) :
  let o := beginTransaction c fuel tid fhandle iso in
  o = NullHandle \/
  (exists h st,
     fhandle = fhandle_of h /\
     o = Returned st (entry tid h) /\
     (st = FDB_RESULT_TRANSACTION_FAIL \/ st = FDB_RESULT_INVALID_HANDLE)) \/
  (exists h,
     fhandle = fhandle_of h /\
     o = Returned FDB_RESULT_HANDLE_BUSY
           {| transaction_id := tid; hnd := h; log := [EvBeginBusy false] |}) \/
  (exists st s' pre,
     o = Returned st s' /\ is_success st = false /\
     (exists h0, st = fst (fdb_check_file_reopen h0)) /\
     Forall (fun e => retry_event true e = true) pre /\
     log s' = EvBeginBusy true :: pre ++ [EvReopen st; EvEndBusy] /\
     handle_busy (hnd s') = false /\ transaction_id s' = tid) \/
  (exists s' pre,
     o = Returned FDB_RESULT_FAIL_BY_ROLLBACK s' /\
     rollback_on (file (hnd s')) = true /\
     Forall (fun e => retry_event true e = true) pre /\
     log s' = EvBeginBusy true
                :: pre ++ [EvMutexLock; EvSyncHeader; EvIsRollbackOn true;
                           EvMutexUnlock; EvEndBusy] /\
     handle_busy (hnd s') = false /\ transaction_id s' = tid) \/
  (exists s' pre fs,
     o = Returned FDB_RESULT_SUCCESS s' /\
     Forall (fun e => retry_event true e = true) pre /\
     log s' = EvBeginBusy true
                :: pre ++ [EvMallocWrapper; EvGetFileStatus fs; EvNewTxn tid;
                           EvWalAdd tid; EvMutexUnlock; EvEndBusy] /\
     handle_busy (hnd s') = false /\
     transaction_id s' = wrap64 (tid + 1) /\
     option_map txn_id (txn (hnd s')) = Some tid) \/
  (exists s' pre,
     o = OutOfFuel s' /\ Forall (fun e => retry_event true e = true) pre /\
     log s' = EvBeginBusy true :: pre /\ transaction_id s' = tid).
Proof.
  unfold beginTransaction.
  destruct fhandle as [[[h|]]|]; [|left; reflexivity|left; reflexivity].
  cbn [getRootHandle].
  destruct (txn h).
  { right; left. exists h, FDB_RESULT_TRANSACTION_FAIL. auto. }
  destruct (on_sub_handle h).
  { right; left. exists h, FDB_RESULT_INVALID_HANDLE. auto. }
  unfold BEGIN_HANDLE_BUSY. cbn [hnd].
  destruct (handle_busy h); cbn [negb].
  { right; right; left. exists h. split; reflexivity. }
  rewrite beginTransaction_loop_stabilize.
  match goal with
  | |- context [stabilize c true fuel ?s0] =>
      pose proof (stabilize_spec true fuel s0) as Hspec;
      destruct (stabilize c true fuel s0) as [st1 s1|s1|st1 s1|s1]
  end; logs.
  - destruct Hspec as (Hfail & Htid & Horigin & pre & Hpre & Hlog).
    do 3 right; left. eexists st1, _, pre. split; [reflexivity|].
    unfold END_HANDLE_BUSY. logs. rewrite Hlog. cbn [app]. rewrite <- ?app_assoc. cbn [app].
    repeat split; auto.
  - destruct Hspec as (_ & Hrb & Htid & pre & Hpre & Hlog).
    do 4 right; left. eexists _, pre. split; [reflexivity|].
    unfold END_HANDLE_BUSY, mutexUnlock. logs. rewrite Hlog. cbn [app]. rewrite <- ?app_assoc. cbn [app].
    repeat split; auto.
  - destruct Hspec as (-> & _ & _ & Htid & pre & Hpre & Hlog).
    do 5 right; left. eexists _, pre, _.
    unfold beginTransaction_create, getFileStatus, new_FdbTransaction,
      FdbTransaction_new, wal_addTransaction, mutexUnlock, END_HANDLE_BUSY.
    logs. split; [reflexivity|]. logs. rewrite Hlog, Htid.
    repeat split; auto.
  - destruct Hspec as (Htid & pre & Hpre & Hlog).
    do 6 right. eexists _, pre. split; [reflexivity|]. auto.
Qed.

(** Every way [abortTransaction] can end. *)
Lemma abortTransaction_cases (fuel : nat) (tid : Z)
  (fhandle : option FdbFileHandle) :
  let o := abortTransaction c fuel tid fhandle in
  o = NullHandle \/
  (exists h st,
     fhandle = fhandle_of h /\
     o = Returned st (entry tid h) /\
     (st = FDB_RESULT_TRANSACTION_FAIL \/ st = FDB_RESULT_INVALID_HANDLE)) \/
  (exists h,
     fhandle = fhandle_of h /\
     o = Returned FDB_RESULT_HANDLE_BUSY
           {| transaction_id := tid; hnd := h; log := [EvBeginBusy false] |}) \/
  (exists st s' pre,
     o = Returned st s' /\ is_success st = false /\
     (exists h0, st = fst (fdb_check_file_reopen h0)) /\
     Forall (fun e => retry_event false e = true) pre /\
     log s' = EvBeginBusy true :: pre ++ [EvReopen st; EvEndBusy] /\
     handle_busy (hnd s') = false /\ transaction_id s' = tid) \/
  (exists s' pre id,
     o = Returned FDB_RESULT_SUCCESS s' /\
     Forall (fun e => retry_event false e = true) pre /\
     log s' = EvBeginBusy true
                :: pre ++ [EvWalDiscard id; EvWalRemove id; EvFreeWrapper id;
                           EvDeleteTxn id; EvClearTxn; EvMutexUnlock;
                           EvEndBusy] /\
     handle_busy (hnd s') = false /\ txn (hnd s') = None /\
     transaction_id s' = tid) \/
  (exists s' pre,
     (o = OutOfFuel s' \/ o = NullDereference s') /\ Forall (fun e => retry_event false e = true) pre /\
     log s' = EvBeginBusy true :: pre /\ transaction_id s' = tid).
Proof.
  unfold abortTransaction.
  destruct fhandle as [[[h|]]|]; [|left; reflexivity|left; reflexivity].
  cbn [getRootHandle].
  destruct (txn h).
  2: { right; left. exists h, FDB_RESULT_TRANSACTION_FAIL. auto. }
  destruct (on_sub_handle h).
  { right; left. exists h, FDB_RESULT_INVALID_HANDLE. auto. }
  unfold BEGIN_HANDLE_BUSY. cbn [hnd].
  destruct (handle_busy h); cbn [negb].
  { right; right; left. exists h. split; reflexivity. }
  rewrite abortTransaction_loop_stabilize.
  match goal with
  | |- context [stabilize c false fuel ?s0] =>
      pose proof (stabilize_spec false fuel s0) as Hspec;
      destruct (stabilize c false fuel s0) as [st1 s1|s1|st1 s1|s1]
  end; logs.
  - destruct Hspec as (Hfail & Htid & Horigin & pre & Hpre & Hlog).
    do 3 right; left. eexists st1, _, pre. split; [reflexivity|].
    unfold END_HANDLE_BUSY. logs. rewrite Hlog. cbn [app]. rewrite <- ?app_assoc. cbn [app].
    repeat split; auto.
  - destruct Hspec as (Hrb & _). discriminate.
  - destruct Hspec as (-> & _ & _ & Htid & pre & Hpre & Hlog).
    unfold abortTransaction_discard.
    destruct (txn (hnd s1)) as [t1|].
    + do 4 right; left. eexists _, pre, (txn_id t1).
      unfold wal_discardTxnEntries, wal_removeTransaction, release_transaction,
        mutexUnlock, END_HANDLE_BUSY.
      logs. split; [reflexivity|]. logs. rewrite Hlog.
      repeat split; auto.
    + do 5 right. eexists _, pre. split; [right; reflexivity|]. auto.
  - destruct Hspec as (Htid & pre & Hpre & Hlog).
    do 5 right. eexists _, pre. split; [left; reflexivity|]. auto.
Qed.

(** Every way [endTransaction] can end; [committed] is the outcome of the
    commit step, skipped when the transaction has no item. *)
Lemma endTransaction_cases (fuel : nat) (tid : Z)
  (fhandle : option FdbFileHandle) (opt : Z) :
  let o := endTransaction c fuel tid fhandle opt in
  o = NullHandle \/
  (exists h st,
     fhandle = fhandle_of h /\
     o = Returned st (entry tid h) /\
     (st = FDB_RESULT_TRANSACTION_FAIL \/ st = FDB_RESULT_INVALID_HANDLE)) \/
  (exists fs s' sync,
     o = Returned fs s' /\ is_success fs = false /\
     log s' = [EvCommit opt sync fs] /\ transaction_id s' = tid) \/
  (exists committed s' pre tl,
     (committed = [] \/
      exists sync, committed = [EvCommit opt sync FDB_RESULT_SUCCESS]) /\
     Forall (fun e => retry_event false e = true) pre /\ log s' = committed ++ pre ++ tl /\
     transaction_id s' = tid /\
     ((exists st, o = Returned st s' /\ is_success st = false /\
                  tl = [EvReopen st]) \/
      (exists id, o = Returned FDB_RESULT_SUCCESS s' /\ txn (hnd s') = None /\
                  tl = [EvWalRemove id; EvFreeWrapper id; EvDeleteTxn id;
                        EvClearTxn; EvMutexUnlock]) \/
      ((o = OutOfFuel s' \/ o = NullDereference s') /\ tl = []))).
Proof.
  unfold endTransaction.
  destruct fhandle as [[[h|]]|]; [|left; reflexivity|left; reflexivity].
  cbn [getRootHandle].
  destruct (txn h) as [t|].
  2: { right; left. exists h, FDB_RESULT_TRANSACTION_FAIL. auto. }
  destruct (on_sub_handle h).
  { right; left. exists h, FDB_RESULT_INVALID_HANDLE. auto. }
  assert (Hloop : forall s0 committed,
            log s0 = committed -> transaction_id s0 = tid ->
            exists s' pre tl,
              Forall (fun e => retry_event false e = true) pre /\ log s' = committed ++ pre ++ tl /\
              transaction_id s' = tid /\
              ((exists st, endTransaction_loop fuel s0 = Returned st s' /\
                           is_success st = false /\ tl = [EvReopen st]) \/
               (exists id,
                  endTransaction_loop fuel s0 = Returned FDB_RESULT_SUCCESS s' /\
                  txn (hnd s') = None /\
                  tl = [EvWalRemove id; EvFreeWrapper id; EvDeleteTxn id;
                        EvClearTxn; EvMutexUnlock]) \/
               ((endTransaction_loop fuel s0 = OutOfFuel s' \/
                 endTransaction_loop fuel s0 = NullDereference s') /\ tl = []))).
  { intros s0 committed Hlog0 Htid0.
    rewrite endTransaction_loop_stabilize.
    pose proof (stabilize_spec false fuel s0) as Hspec.
    destruct (stabilize c false fuel s0) as [st1 s1|s1|st1 s1|s1].
    - destruct Hspec as (Hfail & Htid & _ & pre & Hpre & Hlog).
      exists s1, pre, [EvReopen st1]. rewrite Hlog, Hlog0.
      repeat split; try congruence. left. exists st1. auto.
    - destruct Hspec as (Hrb & _). discriminate.
    - destruct Hspec as (-> & _ & _ & Htid & pre & Hpre & Hlog).
      unfold endTransaction_remove.
      destruct (txn (hnd s1)) as [t1|].
      + exists (mutexUnlock
                  (release_transaction t1 (wal_removeTransaction t1 s1))),
          pre,
          [EvWalRemove (txn_id t1); EvFreeWrapper (txn_id t1);
           EvDeleteTxn (txn_id t1); EvClearTxn; EvMutexUnlock].
        unfold wal_removeTransaction, release_transaction, mutexUnlock.
        logs. rewrite Hlog, Hlog0, <- ?app_assoc.
        split; [exact Hpre|]. split; [reflexivity|]. split; [congruence|].
        right; left. exists (txn_id t1). auto.
      + exists s1, pre, []. rewrite app_nil_r, Hlog, Hlog0.
        repeat split; try congruence. right; right. auto.
    - destruct Hspec as (Htid & pre & Hpre & Hlog).
      exists s1, pre, []. rewrite app_nil_r, Hlog, Hlog0.
      repeat split; try congruence. right; right. auto. }
  destruct (negb (getItemCount t =? 0)).
  - unfold commit. cbn [hnd].
    destruct (commitWithKVHandle h opt (durability_sync h)) as [fs h1].
    destruct (is_success fs) eqn:Hfs.
    + apply is_success_true in Hfs. subst fs.
      do 3 right.
      destruct (Hloop (emit (EvCommit opt (durability_sync h) FDB_RESULT_SUCCESS)
                         (with_hnd (entry tid h) h1))
                  _ eq_refl eq_refl)
        as (s' & pre & tl & Hpre & Hlog & Htid & Hcases).
      exists [EvCommit opt (durability_sync h) FDB_RESULT_SUCCESS], s', pre, tl.
      split; [right; eexists; reflexivity|].
      repeat split; try assumption.
    + right; right; left. eexists fs, _, _. split; [reflexivity|].
      repeat split; auto.
  - cbn [is_success].
    do 3 right.
    destruct (Hloop (entry tid h) _ eq_refl eq_refl)
      as (s' & pre & tl & Hpre & Hlog & Htid & Hcases).
    exists [], s', pre, tl.
    split; [left; reflexivity|].
    repeat split; try assumption.
Qed.

End Inversions.

(** On a file whose status is [FILE_COMPACT_OLD] the transaction starts
    without previous header. *)
Example begin_on_compact_old_file :
  option_map prev_hdr_bid
    (txn (hnd (final_state
                 (beginTransaction quiet_collaborators 1 0
                    (fhandle_of (set_fstatus_of idle_root_handle
                                   FILE_COMPACT_OLD)) 2))))
  = Some (@BLK_NOT_FOUND quiet_collaborators).
Proof. reflexivity. Qed.

(** ** Rollback *)




(** ** The loop of [abortTransaction] and [endTransaction] along the retries *)

(** [k] passes that go round again consume [k] units of fuel and take the
    handle to [after_retries k]. *)
Lemma stabilize_after_retries (c : Collaborators) (fuel : nat) :
  forall k s,
    retries_pending c k (hnd s) = true ->
    exists sk,
      stabilize c false (k + fuel) s = stabilize c false fuel sk /\
      hnd sk = after_retries c k (hnd s) /\
      transaction_id sk = transaction_id s /\
      exists pre, log sk = log s ++ pre /\
                  Forall (fun e => retry_event false e = true) pre.
Proof.
  induction k as [|k IH]; intros s Hpending.
  - exists s. repeat split. exists []. split; [now rewrite app_nil_r|constructor].
  - cbn [retries_pending] in Hpending. apply andb_true_iff in Hpending.
    destruct Hpending as [Hpass Hrest].
    unfold pass_retries in Hpass. apply andb_true_iff in Hpass.
    destruct Hpass as [Hok Hpend].
    cbn [Nat.add stabilize after_retries]. unfold check_file_reopen.
    unfold retry_pass, synced in *.
    destruct (fdb_check_file_reopen (hnd s)) as [st h1].
    cbn [fst snd] in *. rewrite Hok. cbn [negb].
    unfold getFileStatus, sync_db_header, mutexLock. logs. rewrite Hpend.
    match goal with
    | |- context [stabilize c false (k + fuel) ?s1] =>
        destruct (IH s1) as (sk & Heq & Hh & Htid & pre & Hlog & Hpre)
    end.
    { unfold mutexUnlock. logs. exact Hrest. }
    exists sk. split; [exact Heq|]. unfold mutexUnlock in *. logs.
    split; [exact Hh|]. split; [exact Htid|].
    eexists (EvReopen st :: EvMutexLock :: EvSyncHeader
               :: EvGetFileStatus _ :: EvMutexUnlock :: pre).
    split; [rewrite Hlog; reflexivity|].
    repeat constructor; simpl; auto.
Qed.

(** A pass whose reopen succeeds and whose synchronized status is not
    removal-pending leaves the loop, with the synchronized handle. *)
Lemma stabilize_leaves_on_stable_pass (c : Collaborators) (fuel : nat)
  (s : St) :
  fst (fdb_check_file_reopen (hnd s)) = FDB_RESULT_SUCCESS ->
  is_removed_pending (fstatus (file (synced c (hnd s)))) = false ->
  exists s1,
    stabilize c false (S fuel) s = Stable FDB_RESULT_SUCCESS s1 /\
    hnd s1 = synced c (hnd s) /\
    transaction_id s1 = transaction_id s /\
    log s1 = log s ++ [EvReopen FDB_RESULT_SUCCESS; EvMutexLock; EvSyncHeader;
                       EvGetFileStatus (fstatus (file (synced c (hnd s))))].
Proof.
  intros Hok Hstable. cbn [stabilize]. unfold check_file_reopen.
  unfold synced in *.
  destruct (fdb_check_file_reopen (hnd s)) as [st h1].
  cbn [fst snd] in *. subst st. cbn [is_success negb].
  unfold getFileStatus, sync_db_header, mutexLock. logs. rewrite Hstable.
  eexists. split; [reflexivity|]. logs. repeat split; reflexivity.
Qed.

(** Conversely, a loop that is left towards the code after it has made some
    number of passes that went round again, and a last one whose reopen
    succeeded and whose synchronized status was not removal-pending. *)
Lemma stabilize_stable_inv (c : Collaborators) :
  forall fuel s st s1,
    stabilize c false fuel s = Stable st s1 ->
    exists k,
      (k < fuel)%nat /\
      retries_pending c k (hnd s) = true /\
      fst (fdb_check_file_reopen (after_retries c k (hnd s)))
      = FDB_RESULT_SUCCESS /\
      hnd s1 = synced c (after_retries c k (hnd s)) /\
      is_removed_pending (fstatus (file (hnd s1))) = false /\
      st = FDB_RESULT_SUCCESS /\
      transaction_id s1 = transaction_id s.
Proof.
  induction fuel as [|fuel IH]; intros s st s1; [discriminate|].
  cbn [stabilize]. unfold check_file_reopen.
  destruct (fdb_check_file_reopen (hnd s)) as [st0 h1] eqn:Hre.
  destruct (is_success st0) eqn:Hok; cbn [negb]; [|discriminate].
  unfold getFileStatus, sync_db_header, mutexLock. logs.
  destruct (is_removed_pending
              (fstatus (file (fdb_sync_db_header
                                (set_file h1 (set_mutex_held (file h1) true))))))
    eqn:Hpend.
  - intros Hstable. apply IH in Hstable.
    destruct Hstable as (k & Hk & Hpending & Hreopen & Hh & Hnp & Hst & Htid).
    unfold mutexUnlock in *. logs.
    exists (S k). split; [lia|].
    cbn [retries_pending after_retries].
    unfold pass_retries, retry_pass, synced. rewrite Hre. cbn [fst snd].
    rewrite Hok, Hpend. cbn [andb].
    repeat split; assumption.
  - intros Hstable. injection Hstable as <- <-. logs.
    exists O. split; [lia|]. cbn [retries_pending after_retries].
    unfold synced. rewrite Hre. cbn [fst snd].
    apply is_success_true in Hok.
    repeat split; auto.
Qed.

(** A property of the handle that the delegates and the file mutex respect
    holds along the retries. *)
Lemma after_retries_preserves (c : Collaborators) (P : FdbKvsHandle -> Prop) :
  (forall h, P h -> P (snd (fdb_check_file_reopen h))) ->
  (forall h, P h -> P (fdb_sync_db_header h)) ->
  (forall h b, P h -> P (set_file h (set_mutex_held (file h) b))) ->
  forall k h, P h -> P (synced c (after_retries c k h)).
Proof.
  intros Hreopen Hsync Hmutex.
  assert (Hsynced : forall h, P h -> P (synced c h)).
  { intros h HP. unfold synced. apply Hsync, Hmutex, Hreopen, HP. }
  induction k as [|k IH]; intros h HP; cbn [after_retries].
  - apply Hsynced, HP.
  - apply IH. unfold retry_pass. apply Hmutex, Hsynced, HP.
Qed.

(** What [abortTransaction] does once its loop is left (lines 169-179). *)
Lemma abortTransaction_discard_returns (c : Collaborators) (s1 : St)
  (t1 : FdbTransaction) :
  txn (hnd s1) = Some t1 ->
  exists s',
    abortTransaction_discard FDB_RESULT_SUCCESS s1
    = Returned FDB_RESULT_SUCCESS s' /\
    hnd s' = aborted_handle (hnd s1) t1 /\
    transaction_id s' = transaction_id s1 /\
    log s' = log s1 ++ [EvWalDiscard (txn_id t1); EvWalRemove (txn_id t1);
                        EvFreeWrapper (txn_id t1); EvDeleteTxn (txn_id t1);
                        EvClearTxn; EvMutexUnlock; EvEndBusy].
Proof.
  intros Ht1. unfold abortTransaction_discard. rewrite Ht1.
  eexists. split; [reflexivity|].
  unfold wal_discardTxnEntries, wal_removeTransaction, release_transaction,
    mutexUnlock, END_HANDLE_BUSY, aborted_handle.
  logs. repeat split; reflexivity.
Qed.

(** What [endTransaction] does once its loop is left (lines 317-325). *)
Lemma endTransaction_remove_returns (c : Collaborators) (s1 : St)
  (t1 : FdbTransaction) :
  txn (hnd s1) = Some t1 ->
  exists s',
    endTransaction_remove FDB_RESULT_SUCCESS s1
    = Returned FDB_RESULT_SUCCESS s' /\
    hnd s' = ended_handle (hnd s1) t1 /\
    transaction_id s' = transaction_id s1 /\
    log s' = log s1 ++ [EvWalRemove (txn_id t1); EvFreeWrapper (txn_id t1);
                        EvDeleteTxn (txn_id t1); EvClearTxn; EvMutexUnlock].
Proof.
  intros Ht1. unfold endTransaction_remove. rewrite Ht1.
  eexists. split; [reflexivity|].
  unfold wal_removeTransaction, release_transaction, mutexUnlock, ended_handle.
  logs. repeat split; reflexivity.
Qed.

(** [abortTransaction] on a handle it accepts, after [k] passes that go round
    again and one that does not: it returns success with the aborted
    handle. *)
Lemma abortTransaction_after_retries (c : Collaborators) (fuel k : nat)
  (tid : Z) (h : FdbKvsHandle) (t1 : FdbTransaction) :
  txn h <> None ->
  on_sub_handle h = false ->
  handle_busy h = false ->
  retries_pending c k (set_handle_busy h true) = true ->
  fst (fdb_check_file_reopen (after_retries c k (set_handle_busy h true)))
  = FDB_RESULT_SUCCESS ->
  txn (synced c (after_retries c k (set_handle_busy h true))) = Some t1 ->
  is_removed_pending
    (fstatus (file (synced c (after_retries c k (set_handle_busy h true)))))
  = false ->
  exists s' pre,
    abortTransaction c (k + S fuel) tid (fhandle_of h)
    = Returned FDB_RESULT_SUCCESS s' /\
    hnd s' = aborted_handle
               (synced c (after_retries c k (set_handle_busy h true))) t1 /\
    transaction_id s' = tid /\
    log s' = pre ++ [EvWalDiscard (txn_id t1); EvWalRemove (txn_id t1);
                     EvFreeWrapper (txn_id t1); EvDeleteTxn (txn_id t1);
                     EvClearTxn; EvMutexUnlock; EvEndBusy] /\
    Forall (fun e => is_rollback_query e = false) (log s').
Proof.
  intros Hactive Hsub Hfree Hpending Hreopen Hslot Hstable.
  unfold abortTransaction, fhandle_of, BEGIN_HANDLE_BUSY.
  cbn [getRootHandle hnd]. rewrite Hsub, Hfree.
  destruct (txn h); [|congruence]. cbn [negb].
  rewrite abortTransaction_loop_stabilize.
  match goal with
  | |- context [stabilize c false (k + S fuel) ?s0] =>
      destruct (stabilize_after_retries c (S fuel) k s0 Hpending)
        as (sk & Heq & Hhk & Htidk & prek & Hlogk & Hprek)
  end.
  rewrite Heq. logs. rewrite <- Hhk in Hreopen, Hslot, Hstable.
  destruct (stabilize_leaves_on_stable_pass c fuel sk Hreopen Hstable)
    as (s1 & Hs1 & Hh1 & Htid1 & Hlog1).
  rewrite Hs1. rewrite <- Hh1 in Hslot.
  destruct (abortTransaction_discard_returns c s1 t1 Hslot)
    as (s' & Hret & Hh' & Htid' & Hlog').
  exists s', (log s1). rewrite Hret, <- Hhk, <- Hh1.
  split; [reflexivity|]. split; [exact Hh'|]. split; [congruence|].
  split; [exact Hlog'|].
  rewrite Hlog', Hlog1, Hlogk. cbn [app].
  constructor; [reflexivity|].
  rewrite !Forall_app. repeat split.
  - eapply Forall_impl; [|exact Hprek]. intros e. apply retry_event_no_query.
  - repeat constructor.
  - repeat constructor.
Qed.

(** Every successful [abortTransaction] is of that kind. *)
Lemma abortTransaction_success_inv (c : Collaborators) (fuel : nat) (tid : Z)
  (fhandle : option FdbFileHandle) (s' : St) :
  abortTransaction c fuel tid fhandle = Returned FDB_RESULT_SUCCESS s' ->
  exists h k t1 pre,
    fhandle = fhandle_of h /\
    txn h <> None /\ on_sub_handle h = false /\ handle_busy h = false /\
    (k < fuel)%nat /\
    retries_pending c k (set_handle_busy h true) = true /\
    fst (fdb_check_file_reopen (after_retries c k (set_handle_busy h true)))
    = FDB_RESULT_SUCCESS /\
    txn (synced c (after_retries c k (set_handle_busy h true))) = Some t1 /\
    is_removed_pending
      (fstatus (file (synced c (after_retries c k (set_handle_busy h true)))))
    = false /\
    hnd s' = aborted_handle
               (synced c (after_retries c k (set_handle_busy h true))) t1 /\
    transaction_id s' = tid /\
    log s' = pre ++ [EvWalDiscard (txn_id t1); EvWalRemove (txn_id t1);
                     EvFreeWrapper (txn_id t1); EvDeleteTxn (txn_id t1);
                     EvClearTxn; EvMutexUnlock; EvEndBusy].
Proof.
  unfold abortTransaction.
  destruct fhandle as [[[h|]]|]; try discriminate. cbn [getRootHandle].
  destruct (txn h) as [t|] eqn:Ht; [|discriminate].
  destruct (on_sub_handle h) eqn:Hsub; [discriminate|].
  unfold BEGIN_HANDLE_BUSY. cbn [hnd].
  destruct (handle_busy h) eqn:Hfree; cbn [negb]; [discriminate|].
  rewrite abortTransaction_loop_stabilize.
  match goal with
  | |- context [stabilize c false fuel ?s0] =>
      pose proof (stabilize_stable_inv c fuel s0) as Hinv;
      pose proof (stabilize_spec false fuel s0) as Hspec;
      destruct (stabilize c false fuel s0) as [st1 s1|s1|st1 s1|s1]
  end.
  - destruct Hspec as (Hfail & _). intros Hret. injection Hret as -> _.
    discriminate.
  - discriminate.
  - destruct (Hinv st1 s1 eq_refl)
      as (k & Hk & Hpending & Hreopen & Hh1 & Hnp & -> & Htid).
    logs.
    destruct (txn (hnd s1)) as [t1|] eqn:Ht1.
    2: { unfold abortTransaction_discard. rewrite Ht1. discriminate. }
    destruct (abortTransaction_discard_returns c s1 t1 Ht1)
      as (s2 & Hret2 & Hh2 & Htid2 & Hlog2).
    rewrite Hret2. intros Hret. injection Hret as <-.
    exists h, k, t1, (log s1). rewrite <- Hh1.
    repeat split; try assumption; congruence.
  - discriminate.
Qed.

(** The same for [endTransaction], from the state in which it enters its
    loop. *)
Lemma endTransaction_success_inv (c : Collaborators) (fuel : nat) (tid : Z)
  (fhandle : option FdbFileHandle) (opt : Z) (s' : St) :
  endTransaction c fuel tid fhandle opt = Returned FDB_RESULT_SUCCESS s' ->
  exists h t s0 k t1 pre,
    fhandle = fhandle_of h /\
    txn h = Some t /\ on_sub_handle h = false /\
    end_after_commit c tid h t opt = (FDB_RESULT_SUCCESS, s0) /\
    (k < fuel)%nat /\
    retries_pending c k (hnd s0) = true /\
    fst (fdb_check_file_reopen (after_retries c k (hnd s0)))
    = FDB_RESULT_SUCCESS /\
    txn (synced c (after_retries c k (hnd s0))) = Some t1 /\
    is_removed_pending
      (fstatus (file (synced c (after_retries c k (hnd s0))))) = false /\
    hnd s' = ended_handle (synced c (after_retries c k (hnd s0))) t1 /\
    transaction_id s' = tid /\
    log s' = pre ++ [EvWalRemove (txn_id t1); EvFreeWrapper (txn_id t1);
                     EvDeleteTxn (txn_id t1); EvClearTxn; EvMutexUnlock].
Proof.
  unfold endTransaction.
  destruct fhandle as [[[h|]]|]; try discriminate. cbn [getRootHandle].
  destruct (txn h) as [t|] eqn:Ht; [|discriminate].
  destruct (on_sub_handle h) eqn:Hsub; [discriminate|].
  fold (entry tid h). fold (end_after_commit c tid h t opt).
  assert (Htid0 : transaction_id (snd (end_after_commit c tid h t opt)) = tid).
  { unfold end_after_commit.
    destruct (negb (getItemCount t =? 0)); [|reflexivity].
    unfold commit. destruct (commitWithKVHandle _ _ _). reflexivity. }
  destruct (end_after_commit c tid h t opt) as [fs s0] eqn:Hcommit.
  cbn [snd] in Htid0.
  destruct (is_success fs) eqn:Hfs.
  2: { intros Hret. injection Hret as -> _. discriminate. }
  apply is_success_true in Hfs. subst fs.
  rewrite endTransaction_loop_stabilize.
  pose proof (stabilize_stable_inv c fuel s0) as Hinv.
  pose proof (stabilize_spec false fuel s0) as Hspec.
  destruct (stabilize c false fuel s0) as [st1 s1|s1|st1 s1|s1].
  - destruct Hspec as (Hfail & _). intros Hret. injection Hret as -> _.
    discriminate.
  - discriminate.
  - destruct (Hinv st1 s1 eq_refl)
      as (k & Hk & Hpending & Hreopen & Hh1 & Hnp & -> & Htid).
    destruct (txn (hnd s1)) as [t1|] eqn:Ht1.
    2: { unfold endTransaction_remove. rewrite Ht1. discriminate. }
    destruct (endTransaction_remove_returns c s1 t1 Ht1)
      as (s2 & Hret2 & Hh2 & Htid2 & Hlog2).
    rewrite Hret2. intros Hret. injection Hret as <-.
    exists h, t, s0, k, t1, (log s1). rewrite <- Hh1.
    repeat split; try assumption; congruence.
  - discriminate.
Qed.

(** C8: [abortTransaction] never returns [FDB_RESULT_FAIL_BY_ROLLBACK] (the
    reopen delegate being taken not to report it) and makes no rollback query
    at all.  With an active transaction on a root handle whose guard is free,
    once the reopen succeeds and the synchronized status is not
    removal-pending, at the first pass or after any number of passes that
    found the file removal-pending, it discards the transaction's WAL
    entries, deregisters it, clears the slot and returns success, whatever
    the rollback flag of the file, which it leaves as it is.  Conversely every
    successful return is of that kind: the file was not removal-pending, and
    the transaction discarded and deregistered is the one in the handle's
    slot (the one the handle had when called, if the delegates leave the slot
    alone). *)
Theorem abort_ignores_rollback (c : Collaborators)
  (fuel : nat) (tid : Z) (fhandle : option FdbFileHandle) :
  (forall h, fst (fdb_check_file_reopen h) <> FDB_RESULT_FAIL_BY_ROLLBACK) ->
  let o := abortTransaction c fuel tid fhandle in
  returned_status o <> Some FDB_RESULT_FAIL_BY_ROLLBACK /\
  Forall (fun e => is_rollback_query e = false) (actions o) /\
  (forall h t h1 t1,
     txn h = Some t ->
     on_sub_handle h = false ->
     handle_busy h = false ->
     fdb_check_file_reopen (set_handle_busy h true)
     = (FDB_RESULT_SUCCESS, h1) ->
     let h2 :=
       fdb_sync_db_header (set_file h1 (set_mutex_held (file h1) true)) in
     txn h2 = Some t1 ->
     is_removed_pending (fstatus (file h2)) = false ->
     exists s',
       abortTransaction c (S fuel) tid (fhandle_of h)
       = Returned FDB_RESULT_SUCCESS s' /\
       txn (hnd s') = None /\
       handle_busy (hnd s') = false /\
       mutex_held (file (hnd s')) = false /\
       rollback_on (file (hnd s')) = rollback_on (file h2) /\
       wal_txns (wal (file (hnd s')))
       = remove Z.eq_dec (txn_id t1) (wal_txns (wal (file h2))) /\
       wal_entries (wal (file (hnd s')))
       = filter (fun e => negb (fst e =? txn_id t1))
           (wal_entries (wal (file h2))) /\
       log s' = [EvBeginBusy true; EvReopen FDB_RESULT_SUCCESS; EvMutexLock;
                 EvSyncHeader; EvGetFileStatus (fstatus (file h2));
                 EvWalDiscard (txn_id t1); EvWalRemove (txn_id t1);
                 EvFreeWrapper (txn_id t1); EvDeleteTxn (txn_id t1);
                 EvClearTxn; EvMutexUnlock; EvEndBusy]) /\
  (forall k h t1,
     txn h <> None ->
     on_sub_handle h = false ->
     handle_busy h = false ->
     retries_pending c k (set_handle_busy h true) = true ->
     fst (fdb_check_file_reopen (after_retries c k (set_handle_busy h true)))
     = FDB_RESULT_SUCCESS ->
     txn (synced c (after_retries c k (set_handle_busy h true))) = Some t1 ->
     is_removed_pending
       (fstatus (file (synced c (after_retries c k (set_handle_busy h true)))))
     = false ->
     exists s' pre,
       abortTransaction c (k + S fuel) tid (fhandle_of h)
       = Returned FDB_RESULT_SUCCESS s' /\
       hnd s' = aborted_handle
                  (synced c (after_retries c k (set_handle_busy h true))) t1 /\
       transaction_id s' = tid /\
       log s' = pre ++ [EvWalDiscard (txn_id t1); EvWalRemove (txn_id t1);
                        EvFreeWrapper (txn_id t1); EvDeleteTxn (txn_id t1);
                        EvClearTxn; EvMutexUnlock; EvEndBusy] /\
       Forall (fun e => is_rollback_query e = false) (log s')) /\
  (forall s',
     o = Returned FDB_RESULT_SUCCESS s' ->
     exists h k t1 pre,
       fhandle = fhandle_of h /\
       txn h <> None /\ on_sub_handle h = false /\ handle_busy h = false /\
       (k < fuel)%nat /\
       retries_pending c k (set_handle_busy h true) = true /\
       fst (fdb_check_file_reopen
              (after_retries c k (set_handle_busy h true)))
       = FDB_RESULT_SUCCESS /\
       txn (synced c (after_retries c k (set_handle_busy h true))) = Some t1 /\
       is_removed_pending
         (fstatus (file (synced c
                           (after_retries c k (set_handle_busy h true)))))
       = false /\
       hnd s' = aborted_handle
                  (synced c (after_retries c k (set_handle_busy h true))) t1 /\
       transaction_id s' = tid /\
       log s' = pre ++ [EvWalDiscard (txn_id t1); EvWalRemove (txn_id t1);
                        EvFreeWrapper (txn_id t1); EvDeleteTxn (txn_id t1);
                        EvClearTxn; EvMutexUnlock; EvEndBusy] /\
       ((forall x, txn (snd (fdb_check_file_reopen x)) = txn x) ->
        (forall x, txn (fdb_sync_db_header x) = txn x) ->
        txn h = Some t1)).
Proof.
  intros Hreopen o. split; [|split; [|split; [|split]]].
  - destruct (abortTransaction_cases fuel tid fhandle)
      as [H|[(h & st & _ & H & Hst)|[(h & _ & H)|[(st & s' & pre & H & Hfail
            & (h0 & Horigin) & _)|[(s' & pre & id & H & _)|(s' & pre & H
            & _)]]]]];
      fold o in H; try (rewrite H; cbn [returned_status]).
    + discriminate.
    + destruct Hst; subst st; discriminate.
    + discriminate.
    + assert (Hne : st <> FDB_RESULT_FAIL_BY_ROLLBACK)
        by (rewrite Horigin; apply Hreopen).
      congruence.
    + discriminate.
    + destruct H as [H|H]; rewrite H; discriminate.
  - assert (Hquiet : forall pre,
              Forall (fun e => retry_event false e = true) pre ->
              Forall (fun e => is_rollback_query e = false) pre).
    { intros pre Hpre. eapply Forall_impl; [|exact Hpre].
      intros e. apply retry_event_no_query. }
    destruct (abortTransaction_cases fuel tid fhandle)
      as [H|[(h & st & _ & H & Hst)|[(h & _ & H)|[(st & s' & pre & H & Hfail
            & _ & Hpre & Hlog & _)|[(s' & pre & id & H & Hpre & Hlog & _)
            |(s' & pre & H & Hpre & Hlog & _)]]]]];
      fold o in H; try (rewrite H; cbn [actions entry log]).
    + constructor.
    + constructor.
    + repeat constructor.
    + rewrite Hlog. constructor; [reflexivity|].
      apply Forall_app. split; [auto|repeat constructor].
    + rewrite Hlog. constructor; [reflexivity|].
      apply Forall_app. split; [auto|repeat constructor].
    + assert (Hact : actions o = log s')
        by (destruct H as [H|H]; rewrite H; reflexivity).
      rewrite Hact, Hlog. constructor; [reflexivity|]. auto.
  - intros h t h1 t1 Ht Hsub Hfree Hre h2 Ht1 Hstable.
    unfold abortTransaction, fhandle_of. cbn [getRootHandle].
    rewrite Ht, Hsub. unfold BEGIN_HANDLE_BUSY. cbn [hnd].
    rewrite Hfree. cbn [negb abortTransaction_loop].
    unfold check_file_reopen. logs. rewrite Hre. cbn [is_success negb].
    unfold getFileStatus, sync_db_header, mutexLock. logs.
    fold h2. rewrite Hstable.
    unfold abortTransaction_discard. logs. rewrite Ht1.
    eexists. split; [reflexivity|].
    unfold END_HANDLE_BUSY, mutexUnlock, release_transaction,
      wal_removeTransaction, wal_discardTxnEntries.
    logs. repeat split; reflexivity.
  - intros k h t1 Hactive Hsub Hfree Hpending Hok Hslot Hstable.
    exact (abortTransaction_after_retries c fuel k tid h t1 Hactive Hsub Hfree
             Hpending Hok Hslot Hstable).
  - intros s' Hret.
    destruct (abortTransaction_success_inv c fuel tid fhandle s' Hret)
      as (h & k & t1 & pre & Hfh & Hactive & Hsub & Hfree & Hk & Hpending
          & Hok & Hslot & Hstable & Hhnd & Htid & Hlog).
    exists h, k, t1, pre.
    repeat (split; [assumption|]).
    intros Hkeep_reopen Hkeep_sync. rewrite <- Hslot.
    symmetry.
    apply (after_retries_preserves c (fun x => txn x = txn h)).
    + intros x Hx. rewrite Hkeep_reopen. exact Hx.
    + intros x Hx. rewrite Hkeep_sync. exact Hx.
    + intros x b Hx. exact Hx.
    + reflexivity.
Qed.

Lemma abort_ignores_rollback_witness :
  rollback_on (file rolling_back_active_handle) = true /\
  (exists s',
     abortTransaction quiet_collaborators 1 9
       (fhandle_of rolling_back_active_handle)
     = Returned FDB_RESULT_SUCCESS s' /\
     txn (hnd s') = None /\
     rollback_on (file (hnd s')) = true /\
     wal_txns (wal (file (hnd s'))) = [] /\
     wal_entries (wal (file (hnd s'))) = [(40, 8192)]) /\
  (exists s' pre,
     abortTransaction compacting_collaborators (1 + 1) 5
       (fhandle_of rolling_back_active_handle)
     = Returned FDB_RESULT_SUCCESS s' /\
     hnd s' = aborted_handle
                (synced compacting_collaborators
                   (after_retries compacting_collaborators 1
                      (set_handle_busy rolling_back_active_handle true)))
                one_item_txn /\
     transaction_id s' = 5 /\
     log s' = pre ++ [EvWalDiscard 41; EvWalRemove 41; EvFreeWrapper 41;
                      EvDeleteTxn 41; EvClearTxn; EvMutexUnlock; EvEndBusy] /\
     Forall (fun e => is_rollback_query e = false) (log s')).
Proof.
  split; [reflexivity|]. split.
  - destruct (proj1 (proj2 (proj2 (@abort_ignores_rollback quiet_collaborators
                                     0 9
                                     (fhandle_of rolling_back_active_handle)
                                     ltac:(intros h; simpl; discriminate))))
                rolling_back_active_handle one_item_txn
                (set_handle_busy rolling_back_active_handle true) one_item_txn
                eq_refl eq_refl eq_refl eq_refl eq_refl eq_refl)
      as (s' & Hret & Htxn & _ & _ & Hrb & Hreg & Hent & _).
    exists s'. repeat split; assumption.
  - apply (proj1 (proj2 (proj2 (proj2
             (@abort_ignores_rollback compacting_collaborators 0 5
                (fhandle_of rolling_back_active_handle)
                ltac:(intros h; simpl;
                      destruct (is_removed_pending (fstatus (file h)));
                      discriminate)))))
             1%nat rolling_back_active_handle one_item_txn).
    + simpl. discriminate.
    + reflexivity.
    + reflexivity.
    + vm_compute. reflexivity.
    + vm_compute. reflexivity.
    + vm_compute. reflexivity.
    + vm_compute. reflexivity.
Defined.

(** ** The busy guard *)

Lemma guard_bracketed_needs_acquisition (tr : list event) :
  guard_bracketed tr -> In (EvBeginBusy true) tr.
Proof. intros (mid & -> & _). left. reflexivity. Qed.

(** C2, as stated, fails for [endTransaction]: it never touches the busy
    guard.  On a handle whose guard is held by another operation it still
    commits, deregisters the transaction and clears the slot, where
    [abortTransaction] on the same handle returns [FDB_RESULT_HANDLE_BUSY]. *)
Lemma end_mutates_without_busy_guard :
  handle_busy busy_active_handle = true /\
  returned_status
    (abortTransaction quiet_collaborators 1 0 (fhandle_of busy_active_handle))
  = Some FDB_RESULT_HANDLE_BUSY /\
  exists s',
    endTransaction quiet_collaborators 1 0 (fhandle_of busy_active_handle) 1
    = Returned FDB_RESULT_SUCCESS s' /\
    txn busy_active_handle <> None /\
    txn (hnd s') = None /\
    In EvClearTxn (log s') /\
    ~ guard_bracketed (log s').
Proof.
  split; [reflexivity|]. split; [reflexivity|].
  eexists. split; [vm_compute; reflexivity|].
  split; [discriminate|]. split; [reflexivity|].
  split; [simpl; auto 10|].
  intros Hbr. apply guard_bracketed_needs_acquisition in Hbr.
  simpl in Hbr.
  repeat (destruct Hbr as [Habs|Hbr]; [discriminate|]). exact Hbr.
Qed.

(** C2, amended: [beginTransaction] and [abortTransaction] take the busy
    guard before they touch the transaction slot and release it on every
    return that follows: a call that returns has either done nothing (a
    precondition failed, or the guard was not free and the status is
    [FDB_RESULT_HANDLE_BUSY]), or its actions start with the acquisition and
    end with the release, with the guard untouched in between and free at the
    end.  [endTransaction] performs no guard action, however it ends. *)
Theorem busy_guard_brackets_begin_and_abort (c : Collaborators)
  (fuel : nat) (tid : Z) (fhandle : option FdbFileHandle) (iso opt : Z) :
  guarded_return tid fhandle (beginTransaction c fuel tid fhandle iso) /\
  guarded_return tid fhandle (abortTransaction c fuel tid fhandle) /\
  Forall (fun e => is_busy_event e = false)
    (actions (endTransaction c fuel tid fhandle opt)).
Proof.
  unfold guarded_return.
  assert (Hmid : forall rb pre tl,
            Forall (fun e => retry_event rb e = true) pre ->
            Forall (fun e => is_busy_event e = false) tl ->
            Forall (fun e => is_busy_event e = false) (pre ++ tl)).
  { intros rb pre tl Hpre Htl. apply Forall_app. split; [|exact Htl].
    eapply Forall_impl; [|exact Hpre]. intros e. apply retry_event_not_busy. }
  cbv zeta. split; [|split].
  - intros st s' Hret.
    destruct (beginTransaction_cases fuel tid fhandle iso)
      as [H|[(h & st0 & Hfh & H & _)|[(h & Hfh & H)|[(st0 & s0 & pre & H & _
            & _ & Hpre & Hlog & Hbusy & _)|[(s0 & pre & H & _ & Hpre & Hlog
            & Hbusy & _)|[(s0 & pre & fs & H & Hpre & Hlog & Hbusy & _)|(s0 & pre
            & H & _)]]]]]];
      rewrite H in Hret; try discriminate; injection Hret as <- <-.
    + left. exists h. auto.
    + right; left. exists h. auto.
    + right; right. split; [|exact Hbusy]. rewrite Hlog.
      exists (pre ++ [EvReopen st0]). rewrite <- app_assoc.
      split; [reflexivity|]. apply (Hmid true); [exact Hpre|repeat constructor].
    + right; right. split; [|exact Hbusy]. rewrite Hlog.
      exists (pre ++ [EvMutexLock; EvSyncHeader; EvIsRollbackOn true;
                      EvMutexUnlock]).
      rewrite <- app_assoc. split; [reflexivity|].
      apply (Hmid true); [exact Hpre|repeat constructor].
    + right; right. split; [|exact Hbusy]. rewrite Hlog.
      exists (pre ++ [EvMallocWrapper; EvGetFileStatus fs; EvNewTxn tid;
                      EvWalAdd tid; EvMutexUnlock]).
      rewrite <- app_assoc. split; [reflexivity|].
      apply (Hmid true); [exact Hpre|repeat constructor].
  - intros st s' Hret.
    destruct (abortTransaction_cases fuel tid fhandle)
      as [H|[(h & st0 & Hfh & H & _)|[(h & Hfh & H)|[(st0 & s0 & pre & H & _
            & _ & Hpre & Hlog & Hbusy & _)|[(s0 & pre & id & H & Hpre & Hlog
            & Hbusy & _)|(s0 & pre & [H|H] & _)]]]]];
      rewrite H in Hret; try discriminate; injection Hret as <- <-.
    + left. exists h. auto.
    + right; left. exists h. auto.
    + right; right. split; [|exact Hbusy]. rewrite Hlog.
      exists (pre ++ [EvReopen st0]). rewrite <- app_assoc.
      split; [reflexivity|]. apply (Hmid false); [exact Hpre|repeat constructor].
    + right; right. split; [|exact Hbusy]. rewrite Hlog.
      exists (pre ++ [EvWalDiscard id; EvWalRemove id; EvFreeWrapper id;
                      EvDeleteTxn id; EvClearTxn; EvMutexUnlock]).
      rewrite <- app_assoc. split; [reflexivity|].
      apply (Hmid false); [exact Hpre|repeat constructor].
  - destruct (endTransaction_cases fuel tid fhandle opt)
      as [H|[(h & st0 & _ & H & _)|[(fs & s0 & sync & H & _ & Hlog & _)
            |(committed & s0 & pre & tl & Hcommitted & Hpre & Hlog & _
              & Hcases)]]];
      try (rewrite H; cbn [actions entry log]).
    + constructor.
    + constructor.
    + rewrite Hlog. repeat constructor.
    + assert (Hact : actions (endTransaction c fuel tid fhandle opt) = log s0).
      { destruct Hcases as [(st0 & H & _)|[(id & H & _)|([H|H] & _)]];
          rewrite H; reflexivity. }
      rewrite Hact, Hlog. apply Forall_app. split.
      * destruct Hcommitted as [->|(sync & ->)]; repeat constructor.
      * apply (Hmid false); [exact Hpre|].
        destruct Hcases as [(st0 & _ & _ & ->)|[(id & _ & _ & ->)|(_ & ->)]];
          repeat constructor.
Qed.


Lemma busy_guard_brackets_begin_and_abort_witness :
  guard_bracketed (log begun_after_compaction) /\
  guard_bracketed
    (log (final_state (abortTransaction quiet_collaborators 1 0
                         (fhandle_of active_root_handle)))).
Proof.
  split.
  - destruct (proj1 (busy_guard_brackets_begin_and_abort
                       compacting_collaborators 3 0
                       (fhandle_of idle_root_handle) 2 1)
                FDB_RESULT_SUCCESS begun_after_compaction)
      as [(h & _ & Habs)|[(h & _ & _ & Habs)|[Hbr _]]].
    + vm_compute. reflexivity.
    + apply (f_equal log) in Habs. vm_compute in Habs. discriminate.
    + apply (f_equal log) in Habs. vm_compute in Habs. discriminate.
    + exact Hbr.
  - destruct (proj1 (proj2 (busy_guard_brackets_begin_and_abort
                              quiet_collaborators 1 0
                              (fhandle_of active_root_handle) 2 1))
                FDB_RESULT_SUCCESS
                (final_state (abortTransaction quiet_collaborators 1 0
                                (fhandle_of active_root_handle))))
      as [(h & _ & Habs)|[(h & _ & _ & Habs)|[Hbr _]]].
    + vm_compute. reflexivity.
    + apply (f_equal log) in Habs. vm_compute in Habs. discriminate.
    + apply (f_equal log) in Habs. vm_compute in Habs. discriminate.
    + exact Hbr.
Defined.

(** ** Transaction ids *)

(** A call either creates the transaction whose id is the counter's value and
    advances the counter by one modulo 2^64, or creates nothing and leaves the
    counter alone. *)
Lemma perform_counter (c : Collaborators) (tid : Z) (call : lifecycle_call) :
  let o := perform c tid call in
  (created_id call o = Some tid /\ counter_after tid o = wrap64 (tid + 1)) \/
  (created_id call o = None /\ counter_after tid o = tid).
Proof.
  destruct call as [fuel fhandle iso|fuel fhandle|fuel fhandle opt];
    cbn [perform].
  - destruct (beginTransaction_cases fuel tid fhandle iso)
      as [H|[(h & st & _ & H & Hst)|[(h & _ & H)|[(st & s' & pre & H & Hfail
            & _ & _ & _ & _ & Htid)|[(s' & pre & H & _ & _ & _ & _ & Htid)
            |[(s' & pre & fs & H & _ & _ & _ & Htid & Hid)|(s' & pre & H & _
            & _ & Htid)]]]]]];
      rewrite H; cbn [created_id counter_after entry transaction_id].
    + right. auto.
    + right. destruct Hst; subst st; auto.
    + right. auto.
    + right. destruct st; try discriminate; auto.
    + right. auto.
    + left. auto.
    + right. auto.
  - right.
    destruct (abortTransaction_cases fuel tid fhandle)
      as [H|[(h & st & _ & H & _)|[(h & _ & H)|[(st & s' & pre & H & _ & _
            & _ & _ & _ & Htid)|[(s' & pre & id & H & _ & _ & _ & _ & Htid)
            |(s' & pre & [H|H] & _ & _ & Htid)]]]]];
      rewrite H; cbn [created_id counter_after entry transaction_id]; auto.
  - right.
    destruct (endTransaction_cases fuel tid fhandle opt)
      as [H|[(h & st & _ & H & _)|[(fs & s' & sync & H & _ & _ & Htid)
            |(committed & s' & pre & tl & _ & _ & _ & Htid
              & [(st & H & _)|[(id & H & _)|([H|H] & _)]])]]];
      rewrite H; cbn [created_id counter_after entry transaction_id]; auto.
Qed.

Lemma assigned_ids_increasing (c : Collaborators) :
  forall calls tid,
    0 <= tid ->
    tid + Z.of_nat (length calls) <= UINT64_MOD ->
    StronglySorted Z.lt (assigned_ids c tid calls) /\
    Forall (fun id => tid <= id) (assigned_ids c tid calls).
Proof.
  induction calls as [|call rest IH]; intros tid Hlo Hhi.
  - split; constructor.
  - cbn [assigned_ids]. cbn [length] in Hhi.
    rewrite Nat2Z.inj_succ in Hhi.
    destruct (perform_counter c tid call) as [[-> ->]|[-> ->]].
    + destruct rest as [|call' rest'].
      * split; repeat constructor. lia.
      * cbn [length] in Hhi. rewrite Nat2Z.inj_succ in Hhi.
        assert (Hnext : wrap64 (tid + 1) = tid + 1).
        { unfold wrap64. apply Z.mod_small. lia. }
        rewrite Hnext.
        destruct (IH (tid + 1)) as [Hsorted Hbound].
        { lia. }
        { cbn [length]. rewrite Nat2Z.inj_succ. lia. }
        split.
        -- constructor; [exact Hsorted|].
           eapply Forall_impl; [|exact Hbound]. cbv beta. intros id Hid. lia.
        -- constructor; [lia|].
           eapply Forall_impl; [|exact Hbound]. cbv beta. intros id Hid. lia.
    + apply IH; lia.
Qed.

(** C5: along any sequence of lifecycle calls of a process, on any handles,
    the ids given to the transactions that successful [beginTransaction]
    calls create are strictly increasing: each is greater than every id
    assigned before it.  The counter starts at 0 and the sequence is short
    enough for the 64-bit counter not to wrap (at most 2^64 calls). *)
Theorem transaction_ids_strictly_increasing (c : Collaborators)
  (calls : list lifecycle_call) :
  Z.of_nat (length calls) <= UINT64_MOD ->
  StronglySorted Z.lt (assigned_ids c initial_transaction_id calls).
Proof.
  intros Hlen.
  apply (assigned_ids_increasing c calls initial_transaction_id).
  - unfold initial_transaction_id. lia.
  - unfold initial_transaction_id. lia.
Qed.

Lemma transaction_ids_strictly_increasing_witness :
  assigned_ids compacting_collaborators initial_transaction_id sample_calls
  = [0; 1; 2] /\
  StronglySorted Z.lt
    (assigned_ids compacting_collaborators initial_transaction_id sample_calls).
Proof.
  split; [vm_compute; reflexivity|].
  apply (transaction_ids_strictly_increasing compacting_collaborators
           sample_calls).
  vm_compute. discriminate.
Defined.

(** ** Item bookkeeping *)

Lemma vector_in_range_spec {A : Type} (v : list A) (n : Z) :
  vector_in_range v n = true <-> 0 <= n < Z.of_nat (length v).
Proof.
  unfold vector_in_range. rewrite andb_true_iff, Z.leb_le, Z.ltb_lt.
  reflexivity.
Qed.

Lemma vector_store_length {A : Type} (x : A) : forall v n,
  length (vector_store v n x) = length v.
Proof.
  induction v as [|hd tl IH]; intros [|m]; simpl; auto.
Qed.

Lemma vector_store_same {A : Type} (x : A) : forall v n,
  (n < length v)%nat -> nth_error (vector_store v n x) n = Some x.
Proof.
  induction v as [|hd tl IH]; intros [|m] Hlt; simpl in *.
  - lia.
  - lia.
  - reflexivity.
  - apply IH. lia.
Qed.

Lemma vector_store_other {A : Type} (x : A) : forall v n m,
  m <> n -> nth_error (vector_store v n x) m = nth_error v m.
Proof.
  induction v as [|hd tl IH]; intros [|n] [|m] Hne; simpl;
    try reflexivity; try congruence.
  apply IH. congruence.
Qed.

Lemma UINT64_MINUS_ONE_value : UINT64_MINUS_ONE = 18446744073709551615.
Proof. reflexivity. Qed.

(** C9, as stated, fails: [resetTxnItem] does not return for every item.  An
    index that is not below the size of the list (one past the end; or the
    sentinel a previous [resetTxnItem] left in the item) makes [at] throw
    [std::out_of_range], which leaves the function; and with the list absent
    the null [txn_items] is dereferenced. *)
Lemma resetTxnItem_does_not_always_return :
  resetTxnItem one_item_txn {| item_addr := 4096; dwq_index := 1 |}
  = Throws std_out_of_range /\
  (exists t' item',
     resetTxnItem one_item_txn {| item_addr := 4096; dwq_index := 0 |}
     = Normal (t', item') /\
     resetTxnItem t' item' = Throws std_out_of_range) /\
  resetTxnItem (resetTxnItems one_item_txn)
    {| item_addr := 4096; dwq_index := 0 |}
  = Undefined.
Proof.
  split; [reflexivity|]. split; [|reflexivity].
  eexists _, _. split; reflexivity.
Qed.

(** C9, amended: when the transaction's item list exists and the item's
    recorded index is below the size of the list, [resetTxnItem] returns: it
    has emptied that slot, left every other slot and the size as they were,
    and set the item's index to 2^64-1.  When the list exists and the index is
    not below its size, [std::out_of_range] leaves the function. *)
Theorem resetTxnItem_returns_in_range (t : FdbTransaction) (item : wal_item)
  (l : TxnItemList) :
  txn_items t = Some l ->
  (0 <= dwq_index item < Z.of_nat (length (items l)) ->
   exists l',
     resetTxnItem t item
     = Normal (set_txn_items t (Some l'),
               {| item_addr := item_addr item;
                  dwq_index := 18446744073709551615 |}) /\
     length (items l') = length (items l) /\
     old_items l' = old_items l /\
     nth_error (items l') (Z.to_nat (dwq_index item)) = Some None /\
     forall m, m <> Z.to_nat (dwq_index item) ->
               nth_error (items l') m = nth_error (items l) m) /\
  (~ (0 <= dwq_index item < Z.of_nat (length (items l))) ->
   resetTxnItem t item = Throws std_out_of_range).
Proof.
  intros Hl. unfold resetTxnItem. rewrite Hl. split.
  - intros Hrange.
    pose proof (proj2 (vector_in_range_spec (items l) (dwq_index item)) Hrange)
      as Hin.
    rewrite Hin. eexists. split; [reflexivity|]. cbn [items old_items].
    split; [apply vector_store_length|]. split; [reflexivity|].
    split.
    + apply vector_store_same. lia.
    + intros m Hm. apply vector_store_other. exact Hm.
  - intros Hrange.
    destruct (vector_in_range (items l) (dwq_index item)) eqn:Hin;
      [|reflexivity].
    apply vector_in_range_spec in Hin. contradiction.
Qed.

Lemma resetTxnItem_returns_in_range_witness :
  (exists l',
     resetTxnItem one_item_txn {| item_addr := 4096; dwq_index := 0 |}
     = Normal (set_txn_items one_item_txn (Some l'),
               {| item_addr := 4096; dwq_index := 18446744073709551615 |}) /\
     nth_error (items l') 0 = Some None) /\
  resetTxnItem one_item_txn {| item_addr := 4096; dwq_index := 5 |}
  = Throws std_out_of_range.
Proof.
  split.
  - destruct (proj1 (resetTxnItem_returns_in_range one_item_txn
                       {| item_addr := 4096; dwq_index := 0 |}
                       {| items := [Some 4096]; old_items := [None] |}
                       eq_refl))
      as (l' & Hret & _ & _ & Hslot & _).
    + simpl. lia.
    + exists l'. split; assumption.
  - apply (proj2 (resetTxnItem_returns_in_range one_item_txn
                    {| item_addr := 4096; dwq_index := 5 |}
                    {| items := [Some 4096]; old_items := [None] |}
                    eq_refl)).
    simpl. lia.
Defined.

(** * Further properties of the lifecycle code *)

(** ** Statuses *)

(** X1: the statuses the three methods return.  [beginTransaction] returns
    success, invalid-handle, transaction-fail, handle-busy or
    fail-by-rollback; [abortTransaction] the same without fail-by-rollback;
    [endTransaction] success, invalid-handle or transaction-fail.  Any other
    status is a failure status that a delegate reported during the call: the
    reopen for all three, the commit for [endTransaction]. *)
Theorem lifecycle_statuses (c : Collaborators) (fuel : nat) (tid : Z)
  (fhandle : option FdbFileHandle) (iso opt : Z) (st : fdb_status) :
  (returned_status (beginTransaction c fuel tid fhandle iso) = Some st ->
   In st [FDB_RESULT_SUCCESS; FDB_RESULT_INVALID_HANDLE;
          FDB_RESULT_TRANSACTION_FAIL; FDB_RESULT_HANDLE_BUSY;
          FDB_RESULT_FAIL_BY_ROLLBACK] \/
   (is_success st = false /\
    In (EvReopen st) (actions (beginTransaction c fuel tid fhandle iso)))) /\
  (returned_status (abortTransaction c fuel tid fhandle) = Some st ->
   In st [FDB_RESULT_SUCCESS; FDB_RESULT_INVALID_HANDLE;
          FDB_RESULT_TRANSACTION_FAIL; FDB_RESULT_HANDLE_BUSY] \/
   (is_success st = false /\
    In (EvReopen st) (actions (abortTransaction c fuel tid fhandle)))) /\
  (returned_status (endTransaction c fuel tid fhandle opt) = Some st ->
   In st [FDB_RESULT_SUCCESS; FDB_RESULT_INVALID_HANDLE;
          FDB_RESULT_TRANSACTION_FAIL] \/
   (is_success st = false /\
    (In (EvReopen st) (actions (endTransaction c fuel tid fhandle opt)) \/
     exists sync,
       In (EvCommit opt sync st)
          (actions (endTransaction c fuel tid fhandle opt))))).
Proof.
  split; [|split].
  - destruct (beginTransaction_cases fuel tid fhandle iso)
      as [H|[(h & st0 & _ & H & Hst)|[(h & _ & H)|[(st0 & s' & pre & H & Hfail
            & _ & _ & Hlog & _)|[(s' & pre & H & _)|[(s' & pre & fs & H & _)
            |(s' & pre & H & _)]]]]]];
      rewrite H; cbn [returned_status actions]; intros Hret;
      try discriminate; injection Hret as <-.
    + left. simpl. auto.
    + left. destruct Hst; subst st0; simpl; auto.
    + left. simpl. auto.
    + right. split; [exact Hfail|]. rewrite Hlog. right.
      apply in_or_app. right. left. reflexivity.
    + left. simpl. auto 10.
    + left. simpl. auto.
  - destruct (abortTransaction_cases fuel tid fhandle)
      as [H|[(h & st0 & _ & H & Hst)|[(h & _ & H)|[(st0 & s' & pre & H & Hfail
            & _ & _ & Hlog & _)|[(s' & pre & id & H & _)|(s' & pre & [H|H]
            & _)]]]]];
      rewrite H; cbn [returned_status actions]; intros Hret;
      try discriminate; injection Hret as <-.
    + left. simpl. auto.
    + left. destruct Hst; subst st0; simpl; auto.
    + left. simpl. auto.
    + right. split; [exact Hfail|]. rewrite Hlog. right.
      apply in_or_app. right. left. reflexivity.
    + left. simpl. auto.
  - destruct (endTransaction_cases fuel tid fhandle opt)
      as [H|[(h & st0 & _ & H & Hst)|[(fs & s' & sync & H & Hfail & Hlog & _)
            |(committed & s' & pre & tl & _ & _ & Hlog & _
              & [(st0 & H & Hfail & ->)|[(id & H & _)|([H|H] & _)]])]]];
      rewrite H; cbn [returned_status actions]; intros Hret;
      try discriminate; injection Hret as <-.
    + left. simpl. auto.
    + left. destruct Hst; subst st0; simpl; auto.
    + right. split; [exact Hfail|]. right. exists sync. rewrite Hlog.
      left. reflexivity.
    + right. split; [exact Hfail|]. left. rewrite Hlog.
      apply in_or_app. right. apply in_or_app. right. left. reflexivity.
    + left. simpl. auto.
Qed.

Lemma lifecycle_statuses_witness :
  In (FDB_RESULT_OTHER (-9))
     [FDB_RESULT_SUCCESS; FDB_RESULT_INVALID_HANDLE;
      FDB_RESULT_TRANSACTION_FAIL; FDB_RESULT_HANDLE_BUSY;
      FDB_RESULT_FAIL_BY_ROLLBACK] \/
  (is_success (FDB_RESULT_OTHER (-9)) = false /\
   In (EvReopen (FDB_RESULT_OTHER (-9)))
      (actions (beginTransaction failing_reopen_collaborators 1 0
                  (fhandle_of idle_root_handle) 2))).
Proof.
  apply (proj1 (lifecycle_statuses failing_reopen_collaborators 1 0
                  (fhandle_of idle_root_handle) 2 1 (FDB_RESULT_OTHER (-9)))).
  reflexivity.
Defined.

(** X2: on a root handle whose busy guard is taken, [beginTransaction]
    (no transaction yet) and [abortTransaction] (transaction present) return
    handle-busy.  The handle is untouched, so the guard stays with its holder;
    the counter is unchanged and the failed acquisition is the only action. *)
Theorem busy_handle_is_refused (c : Collaborators) (fuel : nat) (tid : Z)
  (h : FdbKvsHandle) (iso : Z) :
  on_sub_handle h = false ->
  handle_busy h = true ->
  (txn h = None ->
   beginTransaction c fuel tid (fhandle_of h) iso
   = Returned FDB_RESULT_HANDLE_BUSY
       {| transaction_id := tid; hnd := h; log := [EvBeginBusy false] |}) /\
  (txn h <> None ->
   abortTransaction c fuel tid (fhandle_of h)
   = Returned FDB_RESULT_HANDLE_BUSY
       {| transaction_id := tid; hnd := h; log := [EvBeginBusy false] |}).
Proof.
  intros Hsub Hbusy.
  unfold beginTransaction, abortTransaction, fhandle_of, BEGIN_HANDLE_BUSY.
  cbn [getRootHandle hnd]. rewrite Hsub, Hbusy. split.
  - intros ->. reflexivity.
  - intros Hactive. destruct (txn h); [reflexivity|congruence].
Qed.

Lemma busy_handle_is_refused_witness :
  abortTransaction quiet_collaborators 3 5 (fhandle_of busy_active_handle)
  = Returned FDB_RESULT_HANDLE_BUSY
      {| transaction_id := 5; hnd := busy_active_handle;
         log := [EvBeginBusy false] |} /\
  beginTransaction quiet_collaborators 3 5
    (fhandle_of (set_handle_busy idle_root_handle true)) 2
  = Returned FDB_RESULT_HANDLE_BUSY
      {| transaction_id := 5; hnd := set_handle_busy idle_root_handle true;
         log := [EvBeginBusy false] |}.
Proof.
  split.
  - apply (proj2 (busy_handle_is_refused quiet_collaborators 3 5
                    busy_active_handle 2 eq_refl eq_refl)).
    simpl. discriminate.
  - apply (proj1 (busy_handle_is_refused quiet_collaborators 3 5
                    (set_handle_busy idle_root_handle true) 2
                    eq_refl eq_refl)).
    reflexivity.
Defined.

(** X3: a [beginTransaction] that does not return success has created
    nothing: the id counter is where it was, and none of its actions
    allocates a transaction, registers one with the WAL or changes the
    handle's slot.  This holds for every failure status and for a call still
    retrying. *)
Theorem failed_begin_creates_nothing (c : Collaborators) (fuel : nat)
  (tid : Z) (fhandle : option FdbFileHandle) (iso : Z) :
  returned_status (beginTransaction c fuel tid fhandle iso)
  <> Some FDB_RESULT_SUCCESS ->
  counter_after tid (beginTransaction c fuel tid fhandle iso) = tid /\
  Forall (fun e => is_txn_mutation e = false)
    (actions (beginTransaction c fuel tid fhandle iso)).
Proof.
  assert (Hquiet : forall pre tl,
            Forall (fun e => retry_event true e = true) pre ->
            Forall (fun e => is_txn_mutation e = false) tl ->
            Forall (fun e => is_txn_mutation e = false)
              (EvBeginBusy true :: pre ++ tl)).
  { intros pre tl Hpre Htl. constructor; [reflexivity|].
    apply Forall_app. split; [|exact Htl].
    eapply Forall_impl; [|exact Hpre].
    intros e. apply retry_event_not_mutation. }
  destruct (beginTransaction_cases fuel tid fhandle iso)
    as [H|[(h & st0 & _ & H & Hst)|[(h & _ & H)|[(st0 & s' & pre & H & Hfail
          & _ & Hpre & Hlog & _ & Htid)|[(s' & pre & H & _ & Hpre & Hlog & _
          & Htid)|[(s' & pre & fs & H & _)|(s' & pre & H & Hpre & Hlog
          & Htid)]]]]]];
    rewrite H; cbn [returned_status actions counter_after entry log
                    transaction_id]; intros Hne.
  - split; [reflexivity|constructor].
  - split; [reflexivity|constructor].
  - split; [reflexivity|repeat constructor].
  - split; [exact Htid|]. rewrite Hlog. apply Hquiet; [exact Hpre|].
    repeat constructor.
  - split; [exact Htid|]. rewrite Hlog. apply Hquiet; [exact Hpre|].
    repeat constructor.
  - congruence.
  - split; [exact Htid|]. rewrite Hlog.
    rewrite <- (app_nil_r pre). apply Hquiet; [exact Hpre|constructor].
Qed.

Lemma failed_begin_creates_nothing_witness :
  counter_after 5
    (beginTransaction quiet_collaborators 4 5
       (fhandle_of rolling_back_idle_handle) 2) = 5 /\
  Forall (fun e => is_txn_mutation e = false)
    (actions (beginTransaction quiet_collaborators 4 5
                (fhandle_of rolling_back_idle_handle) 2)).
Proof.
  apply (failed_begin_creates_nothing quiet_collaborators 4 5
           (fhandle_of rolling_back_idle_handle) 2).
  vm_compute. discriminate.
Defined.

(** ** What a successful call leaves, and what may follow it *)

(** X4: after a successful [beginTransaction] the handle's busy guard and
    the file mutex are free and the slot is taken, so that a second
    [beginTransaction] on that handle, with whatever fuel and isolation
    level, returns transaction-fail and changes nothing. *)
Theorem begin_twice_is_refused (c : Collaborators) (fuel fuel' : nat)
  (tid : Z) (fhandle : option FdbFileHandle) (iso iso' : Z) (s' : St) :
  beginTransaction c fuel tid fhandle iso = Returned FDB_RESULT_SUCCESS s' ->
  txn (hnd s') <> None /\
  handle_busy (hnd s') = false /\
  mutex_held (file (hnd s')) = false /\
  beginTransaction c fuel' (transaction_id s') (fhandle_of (hnd s')) iso'
  = Returned FDB_RESULT_TRANSACTION_FAIL (entry (transaction_id s') (hnd s')).
Proof.
  unfold beginTransaction at 1.
  destruct fhandle as [[[h|]]|]; try discriminate. cbn [getRootHandle].
  destruct (txn h); [discriminate|].
  destruct (on_sub_handle h); [discriminate|].
  destruct (BEGIN_HANDLE_BUSY _) as [acquired s0].
  destruct acquired; cbn [negb]; [|discriminate].
  rewrite beginTransaction_loop_stabilize.
  pose proof (stabilize_spec true fuel s0) as Hspec.
  destruct (stabilize c true fuel s0) as [st1 s1|s1|st1 s1|s1].
  - destruct Hspec as (Hfail & _). intros Hret. injection Hret as -> _.
    discriminate.
  - discriminate.
  - unfold beginTransaction_create, getFileStatus, new_FdbTransaction,
      FdbTransaction_new, wal_addTransaction, mutexUnlock, END_HANDLE_BUSY.
    logs. intros Hret. injection Hret as _ <-.
    unfold beginTransaction, fhandle_of.
    cbn [hnd txn set_handle_busy set_file set_txn file mutex_held
         set_mutex_held handle_busy getRootHandle].
    repeat split; try reflexivity. discriminate.
  - discriminate.
Qed.

Lemma begin_twice_is_refused_witness :
  txn (hnd begun_quietly) <> None /\
  handle_busy (hnd begun_quietly) = false /\
  mutex_held (file (hnd begun_quietly)) = false /\
  beginTransaction quiet_collaborators 7 (transaction_id begun_quietly)
    (fhandle_of (hnd begun_quietly)) 1
  = Returned FDB_RESULT_TRANSACTION_FAIL
      (entry (transaction_id begun_quietly) (hnd begun_quietly)).
Proof.
  apply (begin_twice_is_refused quiet_collaborators 1 7 5
           (fhandle_of idle_root_handle) 2 1 begun_quietly).
  vm_compute. reflexivity.
Defined.

(** X5: a transaction is finished once.  After a successful
    [abortTransaction] or [endTransaction] the slot is empty, and a further
    [abortTransaction] or [endTransaction] on that handle returns
    transaction-fail without performing any action: nothing is deregistered
    or freed a second time. *)
Theorem finished_transaction_is_gone (c : Collaborators) (fuel fuel' : nat)
  (tid : Z) (fhandle : option FdbFileHandle) (opt opt' : Z) (s' : St) :
  abortTransaction c fuel tid fhandle = Returned FDB_RESULT_SUCCESS s' \/
  endTransaction c fuel tid fhandle opt = Returned FDB_RESULT_SUCCESS s' ->
  txn (hnd s') = None /\
  abortTransaction c fuel' (transaction_id s') (fhandle_of (hnd s'))
  = Returned FDB_RESULT_TRANSACTION_FAIL (entry (transaction_id s') (hnd s')) /\
  endTransaction c fuel' (transaction_id s') (fhandle_of (hnd s')) opt'
  = Returned FDB_RESULT_TRANSACTION_FAIL (entry (transaction_id s') (hnd s')).
Proof.
  intros Hdone.
  assert (Hnone : txn (hnd s') = None).
  { destruct Hdone as [Hret|Hret].
    - destruct (abortTransaction_cases fuel tid fhandle)
        as [H|[(h & st0 & _ & H & Hst)|[(h & _ & H)|[(st0 & s0 & pre & H
              & Hfail & _)|[(s0 & pre & id & H & _ & _ & _ & Hnone & _)
              |(s0 & pre & [H|H] & _)]]]]];
        rewrite H in Hret; try discriminate.
      + injection Hret as -> _. destruct Hst; discriminate.
      + injection Hret as -> _. discriminate.
      + injection Hret as <-. exact Hnone.
    - destruct (endTransaction_cases fuel tid fhandle opt)
        as [H|[(h & st0 & _ & H & Hst)|[(fs & s0 & sync & H & Hfail & _)
              |(committed & s0 & pre & tl & _ & _ & _ & _
                & [(st0 & H & Hfail & _)|[(id & H & Hnone & _)
                                          |([H|H] & _)]])]]];
        rewrite H in Hret; try discriminate.
      + injection Hret as -> _. destruct Hst; discriminate.
      + injection Hret as -> _. discriminate.
      + injection Hret as -> _. discriminate.
      + injection Hret as <-. exact Hnone. }
  split; [exact Hnone|].
  unfold abortTransaction, endTransaction, fhandle_of. cbn [getRootHandle].
  rewrite Hnone. split; reflexivity.
Qed.

Lemma finished_transaction_is_gone_witness :
  txn (hnd ended_quietly) = None /\
  abortTransaction quiet_collaborators 2 (transaction_id ended_quietly)
    (fhandle_of (hnd ended_quietly))
  = Returned FDB_RESULT_TRANSACTION_FAIL
      (entry (transaction_id ended_quietly) (hnd ended_quietly)) /\
  endTransaction quiet_collaborators 2 (transaction_id ended_quietly)
    (fhandle_of (hnd ended_quietly)) 0
  = Returned FDB_RESULT_TRANSACTION_FAIL
      (entry (transaction_id ended_quietly) (hnd ended_quietly)).
Proof.
  apply (finished_transaction_is_gone quiet_collaborators 1 2 5
           (fhandle_of active_root_handle) 1 0 ended_quietly).
  right. vm_compute. reflexivity.
Defined.

Lemma discarded_entries_are_gone (id : Z) (l : list (Z * Z)) :
  Forall (fun e => fst e <> id) (filter (fun e => negb (fst e =? id)) l).
Proof.
  apply Forall_forall. intros e He. apply filter_In in He.
  destruct He as [_ He]. apply negb_true_iff, Z.eqb_neq in He. exact He.
Qed.

(** X6: whenever [abortTransaction] returns success, after any number of
    retries, it has aborted the transaction that was in the handle's slot
    when the loop was left on a file that was not removal-pending: the
    handle it leaves is that handle with the entries of that transaction
    discarded, the transaction deregistered, the slot cleared and the mutex
    and the guard released, so the transaction is neither registered nor
    owner of any WAL entry; the call ended with discard, deregister, free,
    delete, clear, unlock and guard release for that transaction's id, in
    that order.  When the delegates leave the slot and the WAL alone, it is
    the transaction the handle had when called, and the WAL is the one of
    the call with that transaction's registration and entries removed. *)
Theorem abort_success_discards_everything (c : Collaborators) (fuel : nat)
  (tid : Z) (fhandle : option FdbFileHandle) (s' : St) :
  abortTransaction c fuel tid fhandle = Returned FDB_RESULT_SUCCESS s' ->
  exists h k t1 pre,
    fhandle = fhandle_of h /\
    txn (synced c (after_retries c k (set_handle_busy h true))) = Some t1 /\
    is_removed_pending
      (fstatus (file (synced c (after_retries c k (set_handle_busy h true)))))
    = false /\
    hnd s' = aborted_handle
               (synced c (after_retries c k (set_handle_busy h true))) t1 /\
    txn (hnd s') = None /\
    handle_busy (hnd s') = false /\
    mutex_held (file (hnd s')) = false /\
    ~ In (txn_id t1) (wal_txns (wal (file (hnd s')))) /\
    Forall (fun e => fst e <> txn_id t1)
      (wal_entries (wal (file (hnd s')))) /\
    log s' = pre ++ [EvWalDiscard (txn_id t1); EvWalRemove (txn_id t1);
                     EvFreeWrapper (txn_id t1); EvDeleteTxn (txn_id t1);
                     EvClearTxn; EvMutexUnlock; EvEndBusy] /\
    transaction_id s' = tid /\
    ((forall x, txn (snd (fdb_check_file_reopen x)) = txn x /\
                wal (file (snd (fdb_check_file_reopen x))) = wal (file x)) ->
     (forall x, txn (fdb_sync_db_header x) = txn x /\
                wal (file (fdb_sync_db_header x)) = wal (file x)) ->
     txn h = Some t1 /\
     wal_txns (wal (file (hnd s')))
     = remove Z.eq_dec (txn_id t1) (wal_txns (wal (file h))) /\
     wal_entries (wal (file (hnd s')))
     = filter (fun e => negb (fst e =? txn_id t1))
         (wal_entries (wal (file h)))).
Proof.
  intros Hret.
  destruct (abortTransaction_success_inv c fuel tid fhandle s' Hret)
    as (h & k & t1 & pre & Hfh & Hactive & Hsub & Hfree & Hk & Hpending
        & Hok & Hslot & Hstable & Hhnd & Htid & Hlog).
  exists h, k, t1, pre.
  split; [exact Hfh|]. split; [exact Hslot|]. split; [exact Hstable|].
  split; [exact Hhnd|]. rewrite Hhnd.
  cbn [aborted_handle txn handle_busy file mutex_held wal wal_txns
       wal_entries].
  split; [reflexivity|]. split; [reflexivity|]. split; [reflexivity|].
  split; [apply remove_In|].
  split; [apply discarded_entries_are_gone|].
  split; [exact Hlog|]. split; [exact Htid|].
  intros Hkeep_reopen Hkeep_sync.
  assert (Hkept : txn (synced c (after_retries c k (set_handle_busy h true)))
                  = txn h /\
                  wal (file (synced c (after_retries c k
                                         (set_handle_busy h true))))
                  = wal (file h)).
  { apply (after_retries_preserves c
             (fun x => txn x = txn h /\ wal (file x) = wal (file h))).
    - intros x [Hx Hw]. destruct (Hkeep_reopen x) as [-> ->]. auto.
    - intros x [Hx Hw]. destruct (Hkeep_sync x) as [-> ->]. auto.
    - intros x b Hx. exact Hx.
    - split; reflexivity. }
  destruct Hkept as [Htxn Hwal]. rewrite Hwal.
  split; [congruence|]. split; reflexivity.
Qed.

Lemma abort_success_discards_everything_witness :
  exists h k t1 pre,
    fhandle_of rolling_back_active_handle = fhandle_of h /\
    txn (synced compacting_collaborators
           (after_retries compacting_collaborators k
              (set_handle_busy h true))) = Some t1 /\
    is_removed_pending
      (fstatus (file (synced compacting_collaborators
                        (after_retries compacting_collaborators k
                           (set_handle_busy h true)))))
    = false /\
    hnd aborted_after_retry
    = aborted_handle
        (synced compacting_collaborators
           (after_retries compacting_collaborators k
              (set_handle_busy h true))) t1 /\
    txn (hnd aborted_after_retry) = None /\
    handle_busy (hnd aborted_after_retry) = false /\
    mutex_held (file (hnd aborted_after_retry)) = false /\
    ~ In (txn_id t1) (wal_txns (wal (file (hnd aborted_after_retry)))) /\
    Forall (fun e => fst e <> txn_id t1)
      (wal_entries (wal (file (hnd aborted_after_retry)))) /\
    log aborted_after_retry
    = pre ++ [EvWalDiscard (txn_id t1); EvWalRemove (txn_id t1);
              EvFreeWrapper (txn_id t1); EvDeleteTxn (txn_id t1);
              EvClearTxn; EvMutexUnlock; EvEndBusy] /\
    transaction_id aborted_after_retry = 5 /\
    ((forall x,
        txn (snd (@fdb_check_file_reopen compacting_collaborators x)) = txn x /\
        wal (file (snd (@fdb_check_file_reopen compacting_collaborators x)))
        = wal (file x)) ->
     (forall x,
        txn (@fdb_sync_db_header compacting_collaborators x) = txn x /\
        wal (file (@fdb_sync_db_header compacting_collaborators x))
        = wal (file x)) ->
     txn h = Some t1 /\
     wal_txns (wal (file (hnd aborted_after_retry)))
     = remove Z.eq_dec (txn_id t1) (wal_txns (wal (file h))) /\
     wal_entries (wal (file (hnd aborted_after_retry)))
     = filter (fun e => negb (fst e =? txn_id t1))
         (wal_entries (wal (file h)))).
Proof.
  apply (abort_success_discards_everything compacting_collaborators 2 5
           (fhandle_of rolling_back_active_handle) aborted_after_retry).
  vm_compute. reflexivity.
Defined.

(** X7: whenever [endTransaction] returns success, after any number of
    retries, it has ended the transaction that was in the handle's slot when
    the loop was left on a file that was not removal-pending: the handle it
    leaves is that handle with the transaction deregistered, the slot
    cleared and the mutex released, the WAL entries and the busy guard being
    as they were; the call ended with deregister, free, delete, clear and
    unlock for that transaction's id, in that order, and the id counter is
    unchanged.  When the delegates, the commit included, leave the slot and
    the WAL's registrations alone, it is the transaction the handle had when
    called, and the registrations are those of the call without it. *)
Theorem end_success_deregisters (c : Collaborators) (fuel : nat)
  (tid : Z) (fhandle : option FdbFileHandle) (opt : Z) (s' : St) :
  endTransaction c fuel tid fhandle opt = Returned FDB_RESULT_SUCCESS s' ->
  exists h t s0 k t1 pre,
    fhandle = fhandle_of h /\
    txn h = Some t /\
    end_after_commit c tid h t opt = (FDB_RESULT_SUCCESS, s0) /\
    txn (synced c (after_retries c k (hnd s0))) = Some t1 /\
    is_removed_pending
      (fstatus (file (synced c (after_retries c k (hnd s0))))) = false /\
    hnd s' = ended_handle (synced c (after_retries c k (hnd s0))) t1 /\
    txn (hnd s') = None /\
    mutex_held (file (hnd s')) = false /\
    ~ In (txn_id t1) (wal_txns (wal (file (hnd s')))) /\
    log s' = pre ++ [EvWalRemove (txn_id t1); EvFreeWrapper (txn_id t1);
                     EvDeleteTxn (txn_id t1); EvClearTxn; EvMutexUnlock] /\
    transaction_id s' = tid /\
    ((forall x, txn (snd (fdb_check_file_reopen x)) = txn x /\
                wal_txns (wal (file (snd (fdb_check_file_reopen x))))
                = wal_txns (wal (file x))) ->
     (forall x, txn (fdb_sync_db_header x) = txn x /\
                wal_txns (wal (file (fdb_sync_db_header x)))
                = wal_txns (wal (file x))) ->
     (forall x o sync,
        txn (snd (commitWithKVHandle x o sync)) = txn x /\
        wal_txns (wal (file (snd (commitWithKVHandle x o sync))))
        = wal_txns (wal (file x))) ->
     t1 = t /\
     wal_txns (wal (file (hnd s')))
     = remove Z.eq_dec (txn_id t) (wal_txns (wal (file h)))).
Proof.
  intros Hret.
  destruct (endTransaction_success_inv c fuel tid fhandle opt s' Hret)
    as (h & t & s0 & k & t1 & pre & Hfh & Ht & Hsub & Hcommit & Hk & Hpending
        & Hok & Hslot & Hstable & Hhnd & Htid & Hlog).
  exists h, t, s0, k, t1, pre.
  split; [exact Hfh|]. split; [exact Ht|]. split; [exact Hcommit|].
  split; [exact Hslot|]. split; [exact Hstable|].
  split; [exact Hhnd|]. rewrite Hhnd.
  cbn [ended_handle txn file mutex_held wal wal_txns].
  split; [reflexivity|]. split; [reflexivity|].
  split; [apply remove_In|].
  split; [exact Hlog|]. split; [exact Htid|].
  intros Hkeep_reopen Hkeep_sync Hkeep_commit.
  assert (Hentry : txn (hnd s0) = txn h /\
                   wal_txns (wal (file (hnd s0))) = wal_txns (wal (file h))).
  { unfold end_after_commit in Hcommit.
    destruct (negb (getItemCount t =? 0)).
    - unfold commit in Hcommit. cbn [hnd entry] in Hcommit.
      pose proof (Hkeep_commit h opt (durability_sync h)) as Hkc.
      destruct (commitWithKVHandle h opt (durability_sync h)) as [fs h1].
      injection Hcommit as _ <-. exact Hkc.
    - injection Hcommit as <-. split; reflexivity. }
  assert (Hkept : txn (synced c (after_retries c k (hnd s0))) = txn h /\
                  wal_txns (wal (file (synced c (after_retries c k (hnd s0)))))
                  = wal_txns (wal (file h))).
  { apply (after_retries_preserves c
             (fun x => txn x = txn h /\
                       wal_txns (wal (file x)) = wal_txns (wal (file h)))).
    - intros x [Hx Hw]. destruct (Hkeep_reopen x) as [-> ->]. auto.
    - intros x [Hx Hw]. destruct (Hkeep_sync x) as [-> ->]. auto.
    - intros x b Hx. exact Hx.
    - exact Hentry. }
  destruct Hkept as [Htxn Hwal]. rewrite Hwal.
  assert (Heq : t1 = t) by congruence.
  subst t1. split; reflexivity.
Qed.

Lemma end_success_deregisters_witness :
  exists h t s0 k t1 pre,
    fhandle_of rolling_back_active_handle = fhandle_of h /\
    txn h = Some t /\
    end_after_commit compacting_collaborators 5 h t 1
    = (FDB_RESULT_SUCCESS, s0) /\
    txn (synced compacting_collaborators
           (after_retries compacting_collaborators k (hnd s0))) = Some t1 /\
    is_removed_pending
      (fstatus (file (synced compacting_collaborators
                        (after_retries compacting_collaborators k (hnd s0)))))
    = false /\
    hnd ended_after_retry
    = ended_handle
        (synced compacting_collaborators
           (after_retries compacting_collaborators k (hnd s0))) t1 /\
    txn (hnd ended_after_retry) = None /\
    mutex_held (file (hnd ended_after_retry)) = false /\
    ~ In (txn_id t1) (wal_txns (wal (file (hnd ended_after_retry)))) /\
    log ended_after_retry
    = pre ++ [EvWalRemove (txn_id t1); EvFreeWrapper (txn_id t1);
              EvDeleteTxn (txn_id t1); EvClearTxn; EvMutexUnlock] /\
    transaction_id ended_after_retry = 5 /\
    ((forall x,
        txn (snd (@fdb_check_file_reopen compacting_collaborators x)) = txn x /\
        wal_txns
          (wal (file (snd (@fdb_check_file_reopen compacting_collaborators x))))
        = wal_txns (wal (file x))) ->
     (forall x,
        txn (@fdb_sync_db_header compacting_collaborators x) = txn x /\
        wal_txns (wal (file (@fdb_sync_db_header compacting_collaborators x)))
        = wal_txns (wal (file x))) ->
     (forall x o sync,
        txn (snd (@commitWithKVHandle compacting_collaborators x o sync))
        = txn x /\
        wal_txns
          (wal (file (snd (@commitWithKVHandle compacting_collaborators
                             x o sync))))
        = wal_txns (wal (file x))) ->
     t1 = t /\
     wal_txns (wal (file (hnd ended_after_retry)))
     = remove Z.eq_dec (txn_id t) (wal_txns (wal (file h)))).
Proof.
  apply (end_success_deregisters compacting_collaborators 2 5
           (fhandle_of rolling_back_active_handle) 1 ended_after_retry).
  vm_compute. reflexivity.
Defined.

(** ** What [endTransaction] does and does not do *)

Lemma retry_event_common (e : event) :
  retry_event false e = true ->
  is_commit_event e = false /\ is_begin_or_abort_only e = false.
Proof. destruct e; simpl; try congruence; auto. Qed.

(** The loop of [endTransaction] and what follows it add neither a commit
    nor anything only the other two methods do. *)
Lemma endTransaction_loop_actions (c : Collaborators) (fuel : nat) (s0 : St) :
  exists rest,
    actions (endTransaction_loop fuel s0) = log s0 ++ rest /\
    Forall (fun e => is_commit_event e = false /\
                     is_begin_or_abort_only e = false) rest.
Proof.
  rewrite endTransaction_loop_stabilize.
  pose proof (stabilize_spec false fuel s0) as Hspec.
  assert (Hpre : forall pre,
            Forall (fun e => retry_event false e = true) pre ->
            Forall (fun e => is_commit_event e = false /\
                             is_begin_or_abort_only e = false) pre).
  { intros pre H. eapply Forall_impl; [|exact H].
    intros e. apply retry_event_common. }
  destruct (stabilize c false fuel s0) as [st1 s1|s1|st1 s1|s1].
  - destruct Hspec as (_ & _ & _ & pre & Hretry & Hlog).
    exists (pre ++ [EvReopen st1]). cbn [actions]. split; [exact Hlog|].
    apply Forall_app. split; [auto|repeat constructor].
  - destruct Hspec as (Hrb & _). discriminate.
  - destruct Hspec as (_ & _ & _ & _ & pre & Hretry & Hlog).
    unfold endTransaction_remove.
    destruct (txn (hnd s1)) as [t1|]; cbn [actions].
    + unfold wal_removeTransaction, release_transaction, mutexUnlock.
      logs. rewrite Hlog.
      exists (pre ++ [EvWalRemove (txn_id t1); EvFreeWrapper (txn_id t1);
                      EvDeleteTxn (txn_id t1); EvClearTxn; EvMutexUnlock]).
      rewrite <- app_assoc. split; [reflexivity|].
      apply Forall_app. split; [auto|repeat constructor].
    + exists pre. auto.
  - destruct Hspec as (_ & pre & Hretry & Hlog).
    exists pre. cbn [actions]. auto.
Qed.

(** X8: [endTransaction] commits exactly when the transaction has items.
    With an item count of zero no commit is requested, however the call ends;
    otherwise the commit is the first action of the call, before the file
    mutex is ever taken, it is requested once, with the caller's option and
    with the synchronous flag computed from the handle's durability option,
    and its status is the one the delegate gave. *)
Theorem end_commits_iff_items (c : Collaborators) (fuel : nat) (tid : Z)
  (h : FdbKvsHandle) (t : FdbTransaction) (opt : Z) :
  txn h = Some t ->
  on_sub_handle h = false ->
  (getItemCount t = 0 ->
   Forall (fun e => is_commit_event e = false)
     (actions (endTransaction c fuel tid (fhandle_of h) opt))) /\
  (getItemCount t <> 0 ->
   exists rest,
     actions (endTransaction c fuel tid (fhandle_of h) opt)
     = EvCommit opt (durability_sync h)
         (fst (commitWithKVHandle h opt (durability_sync h))) :: rest /\
     Forall (fun e => is_commit_event e = false) rest).
Proof.
  intros Ht Hsub.
  assert (Hweaken : forall rest,
            Forall (fun e => is_commit_event e = false /\
                             is_begin_or_abort_only e = false) rest ->
            Forall (fun e => is_commit_event e = false) rest).
  { intros rest H. eapply Forall_impl; [|exact H]. intros e [He _]. exact He. }
  unfold endTransaction, fhandle_of. cbn [getRootHandle].
  rewrite Ht, Hsub. split.
  - intros Hzero. rewrite Hzero. cbn [Z.eqb negb is_success].
    destruct (endTransaction_loop_actions c fuel
                {| transaction_id := tid; hnd := h; log := [] |})
      as (rest & -> & Hrest).
    cbn [log app]. auto.
  - intros Hcount. apply Z.eqb_neq in Hcount. rewrite Hcount. cbn [negb].
    unfold commit. cbn [hnd].
    destruct (commitWithKVHandle h opt (durability_sync h)) as [fs h1].
    cbn [fst]. destruct (is_success fs).
    + match goal with
      | |- context [endTransaction_loop fuel ?s0] =>
          destruct (endTransaction_loop_actions c fuel s0)
            as (rest & -> & Hrest)
      end.
      logs. exists rest. auto.
    + cbn [actions]. logs. exists []. split; [reflexivity|constructor].
Qed.

Lemma end_commits_iff_items_witness :
  (exists rest,
     actions (endTransaction quiet_collaborators 1 5
                (fhandle_of active_root_handle) 1)
     = EvCommit 1 true FDB_RESULT_SUCCESS :: rest /\
     Forall (fun e => is_commit_event e = false) rest) /\
  Forall (fun e => is_commit_event e = false)
    (actions (endTransaction quiet_collaborators 1 6
                (fhandle_of (hnd begun_quietly)) 1)).
Proof.
  split.
  - apply (proj2 (end_commits_iff_items quiet_collaborators 1 5
                    active_root_handle one_item_txn 1 eq_refl eq_refl)).
    vm_compute. discriminate.
  - apply (proj1 (end_commits_iff_items quiet_collaborators 1 6
                    (hnd begun_quietly)
                    {| isolation := 2; txn_id := 5; prev_hdr_bid := 0;
                       prev_revnum := 3; txn_items := None |}
                    1 eq_refl eq_refl)).
    reflexivity.
Defined.

(** X9: [endTransaction] never takes or releases the busy guard, never asks
    whether a rollback is in progress, never discards WAL entries and never
    creates or registers a transaction, however it ends. *)
Theorem end_leaves_guard_rollback_and_entries_alone (c : Collaborators)
  (fuel : nat) (tid : Z) (fhandle : option FdbFileHandle) (opt : Z) :
  Forall (fun e => is_begin_or_abort_only e = false)
    (actions (endTransaction c fuel tid fhandle opt)).
Proof.
  assert (Hweaken : forall rest,
            Forall (fun e => is_commit_event e = false /\
                             is_begin_or_abort_only e = false) rest ->
            Forall (fun e => is_begin_or_abort_only e = false) rest).
  { intros rest H. eapply Forall_impl; [|exact H]. intros e [_ He]. exact He. }
  unfold endTransaction.
  destruct fhandle as [[[h|]]|]; try constructor. cbn [getRootHandle].
  destruct (txn h) as [t|]; [|constructor].
  destruct (on_sub_handle h); [constructor|].
  destruct (negb (getItemCount t =? 0)).
  - unfold commit. cbn [hnd].
    destruct (commitWithKVHandle h opt (durability_sync h)) as [fs h1].
    destruct (is_success fs).
    + match goal with
      | |- context [endTransaction_loop fuel ?s0] =>
          destruct (endTransaction_loop_actions c fuel s0)
            as (rest & -> & Hrest)
      end.
      logs. constructor; [reflexivity|auto].
    + cbn [actions]. logs. repeat constructor.
  - cbn [is_success].
    match goal with
    | |- context [endTransaction_loop fuel ?s0] =>
        destruct (endTransaction_loop_actions c fuel s0)
          as (rest & -> & Hrest)
    end.
    logs. auto.
Qed.

(** ** The file mutex *)

Lemma mutex_after_app (tr1 tr2 : list event) : forall held,
  mutex_after held (tr1 ++ tr2)
  = match mutex_after held tr1 with
    | Some held' => mutex_after held' tr2
    | None => None
    end.
Proof.
  induction tr1 as [|e tr1 IH]; intros held; [reflexivity|].
  destruct e; cbn [app mutex_after]; try apply IH; destruct held;
    try reflexivity; apply IH.
Qed.

(** The mutex is held exactly when the loop is left towards the code that
    follows it or towards the rollback exit. *)
Lemma stabilize_mutex (c : Collaborators) (rb : bool) (fuel : nat) :
  forall s,
    mutex_after false (log s) = Some false ->
    match stabilize c rb fuel s with
    | ReopenFailed _ s1 | Spinning s1 =>
        mutex_after false (log s1) = Some false
    | RollbackSeen s1 | Stable _ s1 =>
        mutex_after false (log s1) = Some true
    end.
Proof.
  induction fuel as [|fuel IH]; intros s Hfree; [exact Hfree|].
  cbn [stabilize]. unfold check_file_reopen.
  destruct (fdb_check_file_reopen (hnd s)) as [st h].
  destruct (is_success st); cbn [negb].
  2: { logs. rewrite mutex_after_app, Hfree. reflexivity. }
  destruct rb.
  - unfold isRollbackOn. destruct (rollback_on _).
    + unfold sync_db_header, mutexLock. logs.
      rewrite mutex_after_app, Hfree. reflexivity.
    + unfold getFileStatus.
      match goal with
      | |- context [is_removed_pending ?x] => destruct (is_removed_pending x)
      end.
      * apply IH. unfold sync_db_header, mutexLock, mutexUnlock. logs.
        rewrite mutex_after_app, Hfree. reflexivity.
      * unfold sync_db_header, mutexLock. logs.
        rewrite mutex_after_app, Hfree. reflexivity.
  - unfold getFileStatus.
    match goal with
    | |- context [is_removed_pending ?x] => destruct (is_removed_pending x)
    end.
    + apply IH. unfold sync_db_header, mutexLock, mutexUnlock. logs.
      rewrite mutex_after_app, Hfree. reflexivity.
    + unfold sync_db_header, mutexLock. logs.
      rewrite mutex_after_app, Hfree. reflexivity.
Qed.

(** X10: the file mutex is used as a lock should be.  Along the actions of
    any of the three methods it is never locked while held nor unlocked while
    free, and it is free whenever the method returns or goes round its loop
    again: no return path, failure paths included, keeps the file locked.
    (The one way to stop with the mutex held is the dereference of a slot
    that a delegate emptied during the call.) *)
Theorem file_mutex_is_released (c : Collaborators) (fuel : nat) (tid : Z)
  (fhandle : option FdbFileHandle) (iso opt : Z) :
  mutex_after false (actions (beginTransaction c fuel tid fhandle iso))
  = Some false /\
  ((forall s, abortTransaction c fuel tid fhandle <> NullDereference s) ->
   mutex_after false (actions (abortTransaction c fuel tid fhandle))
   = Some false) /\
  ((forall s, endTransaction c fuel tid fhandle opt <> NullDereference s) ->
   mutex_after false (actions (endTransaction c fuel tid fhandle opt))
   = Some false).
Proof.
  split; [|split].
  - unfold beginTransaction.
    destruct fhandle as [[[h|]]|]; try reflexivity. cbn [getRootHandle].
    destruct (txn h); [reflexivity|].
    destruct (on_sub_handle h); [reflexivity|].
    unfold BEGIN_HANDLE_BUSY. cbn [hnd].
    destruct (handle_busy h); cbn [negb]; [reflexivity|].
    rewrite beginTransaction_loop_stabilize.
    match goal with
    | |- context [stabilize c true fuel ?s0] =>
        pose proof (stabilize_mutex c true fuel s0 eq_refl) as Hm;
        destruct (stabilize c true fuel s0) as [st1 s1|s1|st1 s1|s1]
    end; cbn [actions].
    + unfold END_HANDLE_BUSY. logs. rewrite mutex_after_app, Hm. reflexivity.
    + unfold END_HANDLE_BUSY, mutexUnlock. logs.
      rewrite mutex_after_app, Hm. reflexivity.
    + unfold beginTransaction_create, getFileStatus, new_FdbTransaction,
        FdbTransaction_new, wal_addTransaction, mutexUnlock, END_HANDLE_BUSY.
      logs. cbn [actions]. logs. rewrite mutex_after_app, Hm. reflexivity.
    + exact Hm.
  - unfold abortTransaction.
    destruct fhandle as [[[h|]]|]; try reflexivity. cbn [getRootHandle].
    destruct (txn h); [|reflexivity].
    destruct (on_sub_handle h); [reflexivity|].
    unfold BEGIN_HANDLE_BUSY. cbn [hnd].
    destruct (handle_busy h); cbn [negb]; [reflexivity|].
    rewrite abortTransaction_loop_stabilize.
    match goal with
    | |- context [stabilize c false fuel ?s0] =>
        pose proof (stabilize_mutex c false fuel s0 eq_refl) as Hm;
        pose proof (stabilize_spec false fuel s0) as Hspec;
        destruct (stabilize c false fuel s0) as [st1 s1|s1|st1 s1|s1]
    end; cbn [actions]; intros Hlive.
    + unfold END_HANDLE_BUSY. logs. rewrite mutex_after_app, Hm. reflexivity.
    + destruct Hspec as (Hrb & _). discriminate.
    + unfold abortTransaction_discard in *.
      destruct (txn (hnd s1)) as [t1|].
      * unfold wal_discardTxnEntries, wal_removeTransaction,
          release_transaction, mutexUnlock, END_HANDLE_BUSY.
        logs. cbn [actions]. logs. rewrite mutex_after_app, Hm. reflexivity.
      * exfalso. apply (Hlive s1). reflexivity.
    + exact Hm.
  - unfold endTransaction.
    destruct fhandle as [[[h|]]|]; try reflexivity. cbn [getRootHandle].
    destruct (txn h) as [t|]; [|reflexivity].
    destruct (on_sub_handle h); [reflexivity|].
    match goal with
    | |- context [if negb (getItemCount t =? 0) then ?a else ?b] =>
        assert (Hfree0 : mutex_after false
                           (log (snd (if negb (getItemCount t =? 0)
                                      then a else b))) = Some false);
        [|destruct (if negb (getItemCount t =? 0) then a else b) as [fs s0]]
    end.
    { destruct (negb (getItemCount t =? 0)); [|reflexivity].
      unfold commit. destruct (commitWithKVHandle _ _ _). reflexivity. }
    cbn [snd] in Hfree0.
    destruct (is_success fs); [|intros _; exact Hfree0].
    rewrite endTransaction_loop_stabilize.
    pose proof (stabilize_mutex c false fuel s0 Hfree0) as Hm.
    pose proof (stabilize_spec false fuel s0) as Hspec.
    destruct (stabilize c false fuel s0) as [st1 s1|s1|st1 s1|s1];
      cbn [actions]; intros Hlive.
    + exact Hm.
    + destruct Hspec as (Hrb & _). discriminate.
    + unfold endTransaction_remove in *.
      destruct (txn (hnd s1)) as [t1|].
      * unfold wal_removeTransaction, release_transaction, mutexUnlock.
        logs. cbn [actions]. logs. rewrite mutex_after_app, Hm. reflexivity.
      * exfalso. apply (Hlive s1). reflexivity.
    + exact Hm.
Qed.

Lemma file_mutex_is_released_witness :
  mutex_after false
    (actions (abortTransaction compacting_collaborators 3 0
                (fhandle_of active_root_handle)))
  = Some false /\
  mutex_after false
    (actions (endTransaction failing_reopen_collaborators 3 0
                (fhandle_of active_root_handle) 1))
  = Some false.
Proof.
  split.
  - apply (proj1 (proj2 (file_mutex_is_released compacting_collaborators 3 0
                           (fhandle_of active_root_handle) 2 1))).
    intros s. vm_compute. discriminate.
  - apply (proj2 (proj2 (file_mutex_is_released failing_reopen_collaborators
                           3 0 (fhandle_of active_root_handle) 2 1))).
    intros s. vm_compute. discriminate.
Defined.

(** ** Leaving the retry loop, or not *)

Lemma stabilize_leaves_when_not_pending (c : Collaborators) (rb : bool) :
  (forall h,
     is_removed_pending (fstatus (file (fdb_sync_db_header h))) = false) ->
  forall fuel s s1, stabilize c rb (S fuel) s <> Spinning s1.
Proof.
  intros Hsync fuel s s1. cbn [stabilize]. unfold check_file_reopen.
  destruct (fdb_check_file_reopen (hnd s)) as [st h].
  destruct (is_success st); cbn [negb]; [|discriminate].
  destruct rb.
  - unfold isRollbackOn. destruct (rollback_on _); [discriminate|].
    unfold getFileStatus, sync_db_header. logs. rewrite Hsync. discriminate.
  - unfold getFileStatus, sync_db_header. logs. rewrite Hsync. discriminate.
Qed.

Lemma settling_never_pending (h : FdbKvsHandle) :
  is_removed_pending
    (fstatus (file (@fdb_sync_db_header settling_collaborators h))) = false.
Proof.
  cbn [fdb_sync_db_header settling_collaborators].
  destruct (is_removed_pending (fstatus (file h))) eqn:E; [reflexivity|exact E].
Qed.

(** X11: when header synchronization never leaves the file in the
    removal-pending state, one pass through the loop is enough: with any
    positive amount of fuel each of the three methods comes to an end, and
    it gives the same outcome with any larger amount. *)
Theorem one_pass_suffices_when_not_pending (c : Collaborators)
  (fuel extra : nat) (tid : Z) (fhandle : option FdbFileHandle)
  (iso opt : Z) :
  (forall h,
     is_removed_pending (fstatus (file (fdb_sync_db_header h))) = false) ->
  ((forall s, beginTransaction c 1 tid fhandle iso <> OutOfFuel s) /\
   beginTransaction c (1 + extra) tid fhandle iso
   = beginTransaction c 1 tid fhandle iso) /\
  ((forall s, abortTransaction c 1 tid fhandle <> OutOfFuel s) /\
   abortTransaction c (1 + extra) tid fhandle
   = abortTransaction c 1 tid fhandle) /\
  ((forall s, endTransaction c 1 tid fhandle opt <> OutOfFuel s) /\
   endTransaction c (1 + extra) tid fhandle opt
   = endTransaction c 1 tid fhandle opt).
Proof.
  intros Hsync.
  assert (Hbegin : forall s, beginTransaction c 1 tid fhandle iso
                             <> OutOfFuel s).
  { intros s. unfold beginTransaction.
    destruct fhandle as [[[h|]]|]; try discriminate. cbn [getRootHandle].
    destruct (txn h); [discriminate|].
    destruct (on_sub_handle h); [discriminate|].
    destruct (BEGIN_HANDLE_BUSY _) as [acquired s0].
    destruct acquired; cbn [negb]; [|discriminate].
    rewrite beginTransaction_loop_stabilize.
    pose proof (stabilize_leaves_when_not_pending c true Hsync 0 s0) as Hl.
    destruct (stabilize c true 1 s0) as [st1 s1|s1|st1 s1|s1].
    - discriminate.
    - discriminate.
    - unfold beginTransaction_create, getFileStatus, new_FdbTransaction,
        FdbTransaction_new.
      discriminate.
    - destruct (Hl s1 eq_refl). }
  assert (Habort : forall s, abortTransaction c 1 tid fhandle <> OutOfFuel s).
  { intros s. unfold abortTransaction.
    destruct fhandle as [[[h|]]|]; try discriminate. cbn [getRootHandle].
    destruct (txn h); [|discriminate].
    destruct (on_sub_handle h); [discriminate|].
    destruct (BEGIN_HANDLE_BUSY _) as [acquired s0].
    destruct acquired; cbn [negb]; [|discriminate].
    rewrite abortTransaction_loop_stabilize.
    pose proof (stabilize_leaves_when_not_pending c false Hsync 0 s0) as Hl.
    pose proof (stabilize_spec false 1 s0) as Hspec.
    destruct (stabilize c false 1 s0) as [st1 s1|s1|st1 s1|s1].
    - discriminate.
    - destruct Hspec as (Hrb & _). discriminate.
    - unfold abortTransaction_discard. destruct (txn (hnd s1)); discriminate.
    - destruct (Hl s1 eq_refl). }
  assert (Hend : forall s, endTransaction c 1 tid fhandle opt <> OutOfFuel s).
  { intros s. unfold endTransaction.
    destruct fhandle as [[[h|]]|]; try discriminate. cbn [getRootHandle].
    destruct (txn h) as [t|]; [|discriminate].
    destruct (on_sub_handle h); [discriminate|].
    match goal with
    | |- context [if negb (getItemCount t =? 0) then ?a else ?b] =>
        destruct (if negb (getItemCount t =? 0) then a else b) as [fs s0]
    end.
    destruct (is_success fs); [|discriminate].
    rewrite endTransaction_loop_stabilize.
    pose proof (stabilize_leaves_when_not_pending c false Hsync 0 s0) as Hl.
    pose proof (stabilize_spec false 1 s0) as Hspec.
    destruct (stabilize c false 1 s0) as [st1 s1|s1|st1 s1|s1].
    - discriminate.
    - destruct Hspec as (Hrb & _). discriminate.
    - unfold endTransaction_remove. destruct (txn (hnd s1)); discriminate.
    - destruct (Hl s1 eq_refl). }
  split; [|split]; (split; [assumption|]).
  - apply beginTransaction_fuel_mono. exact Hbegin.
  - apply abortTransaction_fuel_mono. exact Habort.
  - apply endTransaction_fuel_mono. exact Hend.
Qed.

Lemma one_pass_suffices_when_not_pending_witness :
  (forall s, abortTransaction settling_collaborators 1 5
               (fhandle_of active_root_handle) <> OutOfFuel s) /\
  abortTransaction settling_collaborators (1 + 9) 5
    (fhandle_of active_root_handle)
  = abortTransaction settling_collaborators 1 5
      (fhandle_of active_root_handle).
Proof.
  apply (proj1 (proj2 (one_pass_suffices_when_not_pending
                         settling_collaborators 0 9 5
                         (fhandle_of active_root_handle) 2 1
                         settling_never_pending))).
Defined.

(** While every reopen succeeds and every synchronization finds the file
    removal-pending with no rollback in progress, the loop never leaves. *)
Lemma stabilize_spins (c : Collaborators) (rb : bool) :
  (forall h, fst (fdb_check_file_reopen h) = FDB_RESULT_SUCCESS) ->
  (forall h, fstatus (file (fdb_sync_db_header h)) = FILE_REMOVED_PENDING /\
             rollback_on (file (fdb_sync_db_header h)) = false) ->
  forall fuel s, exists s1, stabilize c rb fuel s = Spinning s1.
Proof.
  intros Hreopen Hsync.
  induction fuel as [|fuel IH]; intros s; [exists s; reflexivity|].
  cbn [stabilize]. unfold check_file_reopen.
  pose proof (Hreopen (hnd s)) as Hst.
  destruct (fdb_check_file_reopen (hnd s)) as [st h]. cbn [fst] in Hst.
  subst st. cbn [is_success negb].
  destruct rb.
  - unfold isRollbackOn, getFileStatus, sync_db_header. logs.
    rewrite (proj2 (Hsync _)), (proj1 (Hsync _)). cbn [is_removed_pending].
    apply IH.
  - unfold getFileStatus, sync_db_header. logs.
    rewrite (proj1 (Hsync _)). cbn [is_removed_pending].
    apply IH.
Qed.

(** X12: there is no timeout.  While every reopen succeeds and every header
    synchronization finds the file removal-pending (and no rollback in
    progress), [beginTransaction] and [abortTransaction] on a handle they
    accept, and [endTransaction] once its commit step is passed, are still
    retrying after any number of passes; [beginTransaction] and
    [abortTransaction] have taken the busy guard and not released it. *)
Theorem lifecycle_spins_while_removal_pending (c : Collaborators)
  (fuel : nat) (tid : Z) (h : FdbKvsHandle) (iso opt : Z) :
  (forall x, fst (fdb_check_file_reopen x) = FDB_RESULT_SUCCESS) ->
  (forall x, fstatus (file (fdb_sync_db_header x)) = FILE_REMOVED_PENDING /\
             rollback_on (file (fdb_sync_db_header x)) = false) ->
  (ready_to_begin h ->
   exists s, beginTransaction c fuel tid (fhandle_of h) iso = OutOfFuel s /\
             In (EvBeginBusy true) (log s) /\ ~ In EvEndBusy (log s)) /\
  (ready_to_abort h ->
   exists s, abortTransaction c fuel tid (fhandle_of h) = OutOfFuel s /\
             In (EvBeginBusy true) (log s) /\ ~ In EvEndBusy (log s)) /\
  (forall t,
     txn h = Some t -> on_sub_handle h = false ->
     getItemCount t = 0 \/
     fst (commitWithKVHandle h opt (durability_sync h)) = FDB_RESULT_SUCCESS ->
     exists s, endTransaction c fuel tid (fhandle_of h) opt = OutOfFuel s).
Proof.
  intros Hreopen Hsync.
  assert (Hheld : forall pre,
            Forall (fun e => retry_event true e = true) pre \/
            Forall (fun e => retry_event false e = true) pre ->
            In (EvBeginBusy true) (EvBeginBusy true :: pre) /\
            ~ In EvEndBusy (EvBeginBusy true :: pre)).
  { intros pre Hpre. split; [left; reflexivity|].
    intros [Habs|Hin]; [discriminate|].
    destruct Hpre as [Hpre|Hpre]; rewrite Forall_forall in Hpre;
      specialize (Hpre _ Hin); discriminate. }
  split; [|split].
  - intros (Htxn & Hsub & Hfree).
    unfold beginTransaction, fhandle_of, BEGIN_HANDLE_BUSY.
    cbn [getRootHandle hnd]. rewrite Htxn, Hsub, Hfree. cbn [negb].
    rewrite beginTransaction_loop_stabilize.
    match goal with
    | |- context [stabilize c true fuel ?s0] =>
        destruct (stabilize_spins c true Hreopen Hsync fuel s0) as [s1 Hspin];
        pose proof (stabilize_spec true fuel s0) as Hspec
    end.
    rewrite Hspin in *. destruct Hspec as (_ & pre & Hpre & Hlog). logs.
    exists s1. split; [reflexivity|]. rewrite Hlog. apply Hheld. auto.
  - intros (Htxn & Hsub & Hfree).
    unfold abortTransaction, fhandle_of, BEGIN_HANDLE_BUSY.
    cbn [getRootHandle hnd]. rewrite Hsub, Hfree. cbn [negb].
    destruct (txn h); [|congruence].
    rewrite abortTransaction_loop_stabilize.
    match goal with
    | |- context [stabilize c false fuel ?s0] =>
        destruct (stabilize_spins c false Hreopen Hsync fuel s0) as [s1 Hspin];
        pose proof (stabilize_spec false fuel s0) as Hspec
    end.
    rewrite Hspin in *. destruct Hspec as (_ & pre & Hpre & Hlog). logs.
    exists s1. split; [reflexivity|]. rewrite Hlog. apply Hheld. auto.
  - intros t Htxn Hsub Hcommit.
    unfold endTransaction, fhandle_of. cbn [getRootHandle].
    rewrite Htxn, Hsub.
    assert (Hpass : exists s0,
              (if negb (getItemCount t =? 0)
               then commit opt (durability_sync h) (entry tid h)
               else (FDB_RESULT_SUCCESS, entry tid h))
              = (FDB_RESULT_SUCCESS, s0)).
    { destruct (getItemCount t =? 0) eqn:Hcount; cbn [negb].
      - eexists. reflexivity.
      - destruct Hcommit as [Hzero|Hok].
        + apply Z.eqb_neq in Hcount. contradiction.
        + unfold commit. cbn [hnd entry].
          destruct (commitWithKVHandle h opt (durability_sync h)) as [fs h1].
          cbn [fst] in Hok. subst fs. eexists. reflexivity. }
    destruct Hpass as [s0 Hpass]. unfold entry in Hpass. rewrite Hpass.
    cbn [is_success]. rewrite endTransaction_loop_stabilize.
    destruct (stabilize_spins c false Hreopen Hsync fuel s0) as [s1 Hspin].
    rewrite Hspin. exists s1. reflexivity.
Qed.

Lemma stuck_collaborators_stay_pending (x : FdbKvsHandle) :
  fstatus (file (@fdb_sync_db_header stuck_collaborators x))
  = FILE_REMOVED_PENDING /\
  rollback_on (file (@fdb_sync_db_header stuck_collaborators x)) = false.
Proof. split; reflexivity. Qed.

Lemma lifecycle_spins_while_removal_pending_witness :
  exists s,
    abortTransaction stuck_collaborators 25 5 (fhandle_of active_root_handle)
    = OutOfFuel s /\
    In (EvBeginBusy true) (log s) /\ ~ In EvEndBusy (log s).
Proof.
  apply (proj1 (proj2 (lifecycle_spins_while_removal_pending
                         stuck_collaborators 25 5 active_root_handle 2 1
                         (fun x => eq_refl)
                         stuck_collaborators_stay_pending))).
  split; [simpl; discriminate|]. split; reflexivity.
Defined.

(** ** Round trips *)

Lemma remove_fresh_last (x : Z) (l : list Z) :
  ~ In x l -> remove Z.eq_dec x (l ++ [x]) = l.
Proof.
  intros Hfresh. rewrite remove_app, (notin_remove Z.eq_dec l x Hfresh).
  simpl. destruct (Z.eq_dec x x); [apply app_nil_r|congruence].
Qed.

Lemma filter_keeps_foreign_entries (id : Z) (l : list (Z * Z)) :
  Forall (fun e => fst e <> id) l ->
  filter (fun e => negb (fst e =? id)) l = l.
Proof.
  induction 1 as [|e l He _ IH]; [reflexivity|].
  simpl. apply Z.eqb_neq in He. rewrite He, IH. reflexivity.
Qed.

Ltac fields :=
  cbn [log emit with_hnd with_file hnd transaction_id fst snd
       getRootHandle txn kvs handle_busy last_hdr_bid cur_header_revnum
       durability_opt file fstatus rollback_on mutex_held wal wal_txns
       wal_entries set_handle_busy set_file set_txn set_wal set_mutex_held
       addTransaction_Wal removeTransaction_Wal discardTxnEntries_Wal
       txn_id txn_items negb is_success] in *;
  rewrite <- ?app_assoc in *; cbn [app] in *.

(** X13: beginning a transaction and finishing it at once gives the handle
    back as it was.  With delegates that leave the handle alone, on a root
    handle without transaction whose guard and file mutex are free, whose
    file is neither removal-pending nor rolled back and whose WAL does not
    know the next id, [beginTransaction] succeeds, and a following
    [abortTransaction], or a following [endTransaction] (which commits
    nothing, the transaction having no item), succeeds and leaves exactly the
    original handle; only the id counter has advanced. *)
Theorem begin_then_finish_restores_handle (c : Collaborators)
  (fuel fuel' : nat) (tid : Z) (h : FdbKvsHandle) (iso opt : Z) :
  delegates_idle c ->
  ready_to_begin h ->
  mutex_held (file h) = false ->
  is_removed_pending (fstatus (file h)) = false ->
  rollback_on (file h) = false ->
  ~ In tid (wal_txns (wal (file h))) ->
  Forall (fun e => fst e <> tid) (wal_entries (wal (file h))) ->
  exists s1,
    beginTransaction c (S fuel) tid (fhandle_of h) iso
    = Returned FDB_RESULT_SUCCESS s1 /\
    (exists s2,
       abortTransaction c (S fuel') (transaction_id s1) (fhandle_of (hnd s1))
       = Returned FDB_RESULT_SUCCESS s2 /\
       hnd s2 = h /\ transaction_id s2 = wrap64 (tid + 1)) /\
    (exists s2,
       endTransaction c (S fuel') (transaction_id s1) (fhandle_of (hnd s1)) opt
       = Returned FDB_RESULT_SUCCESS s2 /\
       hnd s2 = h /\ transaction_id s2 = wrap64 (tid + 1) /\
       Forall (fun e => is_commit_event e = false) (log s2)).
Proof.
  intros [Hreopen Hsync] (Htxn & Hsub & Hfree) Hmutex Hpend Hrb Hreg Hent.
  destruct h as [htxn hkvs hbusy hbid hrev hdur [ffs frb fmx [wt we]]].
  cbn [txn handle_busy file mutex_held fstatus rollback_on wal wal_txns
       wal_entries] in *.
  subst htxn hbusy fmx frb.
  assert (Hroot : forall x, kvs x = hkvs -> on_sub_handle x = false).
  { intros x Hk. unfold on_sub_handle. rewrite Hk. exact Hsub. }
  eexists. split.
  - unfold beginTransaction, fhandle_of, BEGIN_HANDLE_BUSY.
    fields. rewrite Hroot by reflexivity.
    cbn [negb beginTransaction_loop].
    unfold check_file_reopen. logs. rewrite Hreopen. cbn [is_success negb].
    unfold isRollbackOn, getFileStatus, sync_db_header, mutexLock. logs.
    rewrite Hsync.
    fields.
    rewrite Hpend.
    unfold beginTransaction_create, getFileStatus, new_FdbTransaction,
      FdbTransaction_new, wal_addTransaction, mutexUnlock, END_HANDLE_BUSY.
    logs. reflexivity.
  - logs.
    cbn [hnd transaction_id set_handle_busy set_file set_txn set_wal
         set_mutex_held file wal txn kvs handle_busy last_hdr_bid
         cur_header_revnum durability_opt fstatus rollback_on mutex_held
         addTransaction_Wal wal_txns wal_entries txn_id].
    split.
    + eexists. split.
      * unfold abortTransaction, fhandle_of, BEGIN_HANDLE_BUSY.
        fields. rewrite Hroot by reflexivity.
        cbn [negb abortTransaction_loop].
        unfold check_file_reopen. logs. rewrite Hreopen.
        cbn [is_success negb].
        unfold getFileStatus, sync_db_header, mutexLock. logs.
        rewrite Hsync.
        fields.
        rewrite Hpend.
        unfold abortTransaction_discard. fields.
        fields.
        unfold wal_discardTxnEntries, wal_removeTransaction,
          release_transaction, mutexUnlock, END_HANDLE_BUSY.
        logs. reflexivity.
      * lazy beta iota zeta delta
          [log emit with_hnd with_file hnd transaction_id
           txn kvs handle_busy last_hdr_bid cur_header_revnum durability_opt
           file fstatus rollback_on mutex_held wal wal_txns wal_entries
           set_handle_busy set_file set_txn set_wal set_mutex_held
           addTransaction_Wal removeTransaction_Wal discardTxnEntries_Wal
           txn_id].
        rewrite (remove_fresh_last tid wt Hreg),
          (filter_keeps_foreign_entries tid we Hent).
        split; reflexivity.
    + eexists. split.
      * unfold endTransaction, fhandle_of, getItemCount.
        fields. rewrite Hroot by reflexivity. cbn [Z.eqb negb].
        cbn [is_success endTransaction_loop].
        unfold check_file_reopen. logs. rewrite Hreopen.
        cbn [is_success negb].
        unfold getFileStatus, sync_db_header, mutexLock. logs.
        rewrite Hsync.
        fields.
        rewrite Hpend.
        unfold endTransaction_remove. fields.
        fields.
        unfold wal_removeTransaction, release_transaction, mutexUnlock.
        logs. reflexivity.
      * lazy beta iota zeta delta
          [log emit with_hnd with_file hnd transaction_id
           txn kvs handle_busy last_hdr_bid cur_header_revnum durability_opt
           file fstatus rollback_on mutex_held wal wal_txns wal_entries
           set_handle_busy set_file set_txn set_wal set_mutex_held
           addTransaction_Wal removeTransaction_Wal discardTxnEntries_Wal
           txn_id].
        rewrite (remove_fresh_last tid wt Hreg).
        split; [reflexivity|]. split; [reflexivity|].
        repeat constructor.
Qed.

Lemma begin_then_finish_restores_handle_witness :
  exists s1,
    beginTransaction quiet_collaborators 1 5 (fhandle_of idle_root_handle) 2
    = Returned FDB_RESULT_SUCCESS s1 /\
    (exists s2,
       abortTransaction quiet_collaborators 1 (transaction_id s1)
         (fhandle_of (hnd s1))
       = Returned FDB_RESULT_SUCCESS s2 /\
       hnd s2 = idle_root_handle /\ transaction_id s2 = wrap64 (5 + 1)) /\
    (exists s2,
       endTransaction quiet_collaborators 1 (transaction_id s1)
         (fhandle_of (hnd s1)) 1
       = Returned FDB_RESULT_SUCCESS s2 /\
       hnd s2 = idle_root_handle /\ transaction_id s2 = wrap64 (5 + 1) /\
       Forall (fun e => is_commit_event e = false) (log s2)).
Proof.
  apply (begin_then_finish_restores_handle quiet_collaborators 0 0 5
           idle_root_handle 2 1).
  - split; intros h; reflexivity.
  - repeat split; reflexivity.
  - reflexivity.
  - reflexivity.
  - reflexivity.
  - simpl. tauto.
  - constructor.
Defined.

(** ** Items *)

(** X14: [resetTxnItem] cannot be applied twice to the same item.  A call
    that returns leaves 2^64-1 in the item's [dwq_index]; as the list has
    fewer slots than that, a second call with the item, on the transaction
    as the first call left it, throws [std::out_of_range]. *)
Theorem resetTxnItem_twice_throws (t t' : FdbTransaction)
  (item item' : wal_item) :
  (forall l, txn_items t = Some l ->
             Z.of_nat (length (items l)) < UINT64_MOD) ->
  resetTxnItem t item = Normal (t', item') ->
  dwq_index item' = 18446744073709551615 /\
  resetTxnItem t' item' = Throws std_out_of_range.
Proof.
  intros Hsize. unfold resetTxnItem at 1.
  destruct (txn_items t) as [l|] eqn:Hl; [|discriminate].
  destruct (vector_in_range (items l) (dwq_index item)); [|discriminate].
  intros Hret. injection Hret as <- <-.
  split; [reflexivity|].
  unfold resetTxnItem. cbn [txn_items set_txn_items items dwq_index].
  assert (Hout : vector_in_range
                   (vector_store (items l) (Z.to_nat (dwq_index item)) None)
                   UINT64_MINUS_ONE = false).
  { unfold vector_in_range. rewrite vector_store_length.
    specialize (Hsize l eq_refl).
    apply andb_false_iff. right. apply Z.ltb_ge.
    rewrite UINT64_MINUS_ONE_value. unfold UINT64_MOD in Hsize. lia. }
  rewrite Hout. reflexivity.
Qed.

Lemma resetTxnItem_twice_throws_witness :
  exists t' item',
    resetTxnItem one_item_txn {| item_addr := 4096; dwq_index := 0 |}
    = Normal (t', item') /\
    dwq_index item' = 18446744073709551615 /\
    resetTxnItem t' item' = Throws std_out_of_range.
Proof.
  eexists _, _. split; [reflexivity|].
  apply (resetTxnItem_twice_throws one_item_txn _
           {| item_addr := 4096; dwq_index := 0 |} _).
  - intros l Hl. vm_compute in Hl. injection Hl as <-. reflexivity.
  - reflexivity.
Defined.

(** ** The public entry points *)

(** The status [endTransaction] returns is one of its own three or one a
    delegate gave. *)
Lemma endTransaction_status_origin (c : Collaborators) (fuel : nat) (tid : Z)
  (fhandle : option FdbFileHandle) (opt : Z) (st : fdb_status) :
  returned_status (endTransaction c fuel tid fhandle opt) = Some st ->
  In st [FDB_RESULT_SUCCESS; FDB_RESULT_INVALID_HANDLE;
         FDB_RESULT_TRANSACTION_FAIL] \/
  (exists h, st = fst (fdb_check_file_reopen h)) \/
  (exists h sync, st = fst (commitWithKVHandle h opt sync)).
Proof.
  unfold endTransaction.
  destruct fhandle as [[[h|]]|]; cbn [getRootHandle returned_status].
  2, 3: intros Hret; injection Hret as <-; left; simpl; auto.
  destruct (txn h) as [t|].
  2: { intros Hret; injection Hret as <-; left; simpl; auto. }
  destruct (on_sub_handle h).
  { intros Hret; injection Hret as <-; left; simpl; auto. }
  assert (Hfs : forall fs s0,
            (if negb (getItemCount t =? 0)
             then commit opt (durability_sync h)
                    {| transaction_id := tid; hnd := h; log := [] |}
             else (FDB_RESULT_SUCCESS,
                   {| transaction_id := tid; hnd := h; log := [] |}))
            = (fs, s0) ->
            fs = FDB_RESULT_SUCCESS \/
            fs = fst (commitWithKVHandle h opt (durability_sync h))).
  { intros fs s0. destruct (negb (getItemCount t =? 0)).
    - unfold commit. cbn [hnd].
      destruct (commitWithKVHandle h opt (durability_sync h)) as [fs1 h1].
      intros Heq. injection Heq as <- _. right. reflexivity.
    - intros Heq. injection Heq as <- _. left. reflexivity. }
  match goal with
  | |- context [if negb (getItemCount t =? 0) then ?a else ?b] =>
      destruct (if negb (getItemCount t =? 0) then a else b) as [fs s0]
  end.
  specialize (Hfs fs s0 eq_refl).
  destruct (is_success fs).
  - rewrite endTransaction_loop_stabilize.
    pose proof (stabilize_spec false fuel s0) as Hspec.
    destruct (stabilize c false fuel s0) as [st1 s1|s1|st1 s1|s1];
      cbn [returned_status].
    + destruct Hspec as (_ & _ & Horigin & _).
      intros Hret. injection Hret as <-. right; left. exact Horigin.
    + discriminate.
    + destruct Hspec as (-> & _). unfold endTransaction_remove.
      destruct (txn (hnd s1)); cbn [returned_status]; [|discriminate].
      intros Hret. injection Hret as <-. left. simpl. auto.
    + discriminate.
  - cbn [returned_status]. intros Hret. injection Hret as <-.
    destruct Hfs as [->| ->]; [left; simpl; auto|].
    right; right. eauto.
Qed.

(** X15: the public entry points report a missing engine and nothing else
    does.  Provided the delegates do not return
    [FDB_RESULT_ENGINE_NOT_INSTANTIATED] themselves, each of
    [fdb_begin_transaction], [fdb_abort_transaction] and
    [fdb_end_transaction] returns that status exactly when there is no engine
    instance, and then it has performed no action at all. *)
Theorem engine_not_instantiated_iff (c : Collaborators) (engine : bool)
  (fuel : nat) (tid : Z) (fhandle : option FdbFileHandle) (iso opt : Z) :
  (forall h, fst (fdb_check_file_reopen h)
             <> FDB_RESULT_ENGINE_NOT_INSTANTIATED) ->
  (forall h o sync, fst (commitWithKVHandle h o sync)
                    <> FDB_RESULT_ENGINE_NOT_INSTANTIATED) ->
  (api_status (fdb_begin_transaction c engine fuel tid fhandle iso)
   = Some FDB_RESULT_ENGINE_NOT_INSTANTIATED <-> engine = false) /\
  (api_status (fdb_abort_transaction c engine fuel tid fhandle)
   = Some FDB_RESULT_ENGINE_NOT_INSTANTIATED <-> engine = false) /\
  (api_status (fdb_end_transaction c engine fuel tid fhandle opt)
   = Some FDB_RESULT_ENGINE_NOT_INSTANTIATED <-> engine = false) /\
  (engine = false ->
   api_actions (fdb_begin_transaction c engine fuel tid fhandle iso) = [] /\
   api_actions (fdb_abort_transaction c engine fuel tid fhandle) = [] /\
   api_actions (fdb_end_transaction c engine fuel tid fhandle opt) = []).
Proof.
  intros Hreopen Hcommit.
  unfold fdb_begin_transaction, fdb_abort_transaction, fdb_end_transaction.
  destruct engine; cbn [api_status api_actions].
  2: { repeat split; auto. }
  split; [|split; [|split]].
  - split; [|discriminate]. intros Hret. exfalso.
    destruct (beginTransaction_cases fuel tid fhandle iso)
      as [H|[(h & st0 & _ & H & Hst)|[(h & _ & H)|[(st0 & s' & pre & H & _
            & (h0 & Horigin) & _)|[(s' & pre & H & _)|[(s' & pre & fs & H & _)
            |(s' & pre & H & _)]]]]]];
      rewrite H in Hret; cbn [returned_status] in Hret; try discriminate.
    + injection Hret as ->. destruct Hst; discriminate.
    + injection Hret as ->. exact (Hreopen h0 (eq_sym Horigin)).
  - split; [|discriminate]. intros Hret. exfalso.
    destruct (abortTransaction_cases fuel tid fhandle)
      as [H|[(h & st0 & _ & H & Hst)|[(h & _ & H)|[(st0 & s' & pre & H & _
            & (h0 & Horigin) & _)|[(s' & pre & id & H & _)|(s' & pre & [H|H]
            & _)]]]]];
      rewrite H in Hret; cbn [returned_status] in Hret; try discriminate.
    + injection Hret as ->. destruct Hst; discriminate.
    + injection Hret as ->. exact (Hreopen h0 (eq_sym Horigin)).
  - split; [|discriminate]. intros Hret. exfalso.
    destruct (endTransaction_status_origin c fuel tid fhandle opt _ Hret)
      as [Hown|[(h0 & Horigin)|(h0 & sync & Horigin)]].
    + simpl in Hown. destruct Hown as [Hown|[Hown|[Hown|[]]]]; discriminate.
    + exact (Hreopen h0 (eq_sym Horigin)).
    + exact (Hcommit h0 opt sync (eq_sym Horigin)).
  - discriminate.
Qed.

Lemma engine_not_instantiated_iff_witness :
  api_status (fdb_end_transaction failing_commit_collaborators false 1 5
                (fhandle_of active_root_handle) 1)
  = Some FDB_RESULT_ENGINE_NOT_INSTANTIATED /\
  api_status (fdb_end_transaction failing_commit_collaborators true 1 5
                (fhandle_of active_root_handle) 1)
  <> Some FDB_RESULT_ENGINE_NOT_INSTANTIATED.
Proof.
  split.
  - apply (proj2 (proj1 (proj2 (proj2
             (engine_not_instantiated_iff failing_commit_collaborators false
                1 5 (fhandle_of active_root_handle) 2 1
                ltac:(intros h; simpl; discriminate)
                ltac:(intros h o sync; simpl; discriminate)))))).
    reflexivity.
  - intros Hret.
    apply (proj1 (proj1 (proj2 (proj2
             (engine_not_instantiated_iff failing_commit_collaborators true
                1 5 (fhandle_of active_root_handle) 2 1
                ltac:(intros h; simpl; discriminate)
                ltac:(intros h o sync; simpl; discriminate)))))) in Hret.
    discriminate.
Defined.

(** ** The durability flag *)

Lemma land_pow2_is_zero (x k : Z) :
  0 <= k -> (Z.land x (2 ^ k) =? 0) = negb (Z.testbit x k).
Proof.
  intros Hk. destruct (Z.testbit x k) eqn:Hbit; cbn [negb].
  - apply Z.eqb_neq. intros Hzero.
    assert (Hk' : Z.testbit (Z.land x (2 ^ k)) k = true).
    { rewrite Z.land_spec, Hbit, Z.pow2_bits_true by exact Hk. reflexivity. }
    rewrite Hzero, Z.bits_0 in Hk'. discriminate.
  - apply Z.eqb_eq. apply Z.bits_inj'. intros n Hn.
    rewrite Z.land_spec, Z.bits_0.
    destruct (Z.eq_dec n k) as [->|Hne].
    + rewrite Hbit. reflexivity.
    + rewrite Z.pow2_bits_false by (intros Heq; apply Hne; symmetry; exact Heq).
      apply andb_false_r.
Qed.

(** X16: the synchronous flag that [endTransaction] hands to the commit
    depends on one bit of the handle's durability option.  When
    [FDB_DRB_ASYNC] is the single bit [2^k], the flag is the negation of bit
    [k] of [durability_opt], whatever the other bits are. *)
Theorem durability_sync_tests_the_async_bit (c : Collaborators)
  (h : FdbKvsHandle) (k : Z) :
  0 <= k ->
  FDB_DRB_ASYNC = 2 ^ k ->
  durability_sync h = negb (Z.testbit (durability_opt h) k).
Proof.
  intros Hk Hflag. unfold durability_sync. rewrite Hflag.
  apply land_pow2_is_zero. exact Hk.
Qed.

Lemma durability_sync_tests_the_async_bit_witness :
  @durability_sync quiet_collaborators
    {| txn := None; kvs := None; handle_busy := false; last_hdr_bid := 0;
       cur_header_revnum := 0; durability_opt := 3; file := normal_file |}
  = negb (Z.testbit 3 1).
Proof.
  apply (durability_sync_tests_the_async_bit quiet_collaborators
           {| txn := None; kvs := None; handle_busy := false;
              last_hdr_bid := 0; cur_header_revnum := 0; durability_opt := 3;
              file := normal_file |} 1).
  - lia.
  - reflexivity.
Defined.

(** ** More on transaction ids *)

Lemma assigned_ids_consecutive (c : Collaborators) :
  forall calls tid,
    0 <= tid ->
    tid + Z.of_nat (length calls) <= UINT64_MOD ->
    assigned_ids c tid calls
    = consecutive_from tid (length (assigned_ids c tid calls)).
Proof.
  induction calls as [|call rest IH]; intros tid Hlo Hhi; [reflexivity|].
  cbn [assigned_ids]. cbn [length] in Hhi. rewrite Nat2Z.inj_succ in Hhi.
  destruct (perform_counter c tid call) as [[-> ->]|[-> ->]].
  - cbn [length consecutive_from]. f_equal.
    destruct rest as [|call' rest']; [reflexivity|].
    cbn [length] in Hhi. rewrite Nat2Z.inj_succ in Hhi.
    assert (Hnext : wrap64 (tid + 1) = tid + 1).
    { unfold wrap64. apply Z.mod_small. lia. }
    rewrite Hnext. apply IH; [lia|].
    cbn [length]. rewrite Nat2Z.inj_succ. lia.
  - apply IH; lia.
Qed.

(** X17: ids are handed out without gaps.  Along any sequence of at most
    2^64 lifecycle calls of a process, the created transactions get the ids
    0, 1, 2, ... in the order of their creation: a call that fails, an abort
    or an end consumes no id, and no id is given twice. *)
Theorem transaction_ids_are_consecutive (c : Collaborators)
  (calls : list lifecycle_call) :
  Z.of_nat (length calls) <= UINT64_MOD ->
  assigned_ids c initial_transaction_id calls
  = consecutive_from 0
      (length (assigned_ids c initial_transaction_id calls)) /\
  NoDup (assigned_ids c initial_transaction_id calls).
Proof.
  intros Hlen. split.
  - apply (assigned_ids_consecutive c calls initial_transaction_id);
      unfold initial_transaction_id; lia.
  - destruct (assigned_ids_increasing c calls initial_transaction_id)
      as [Hsorted _]; try (unfold initial_transaction_id; lia).
    induction Hsorted as [|id ids _ IH Hlt]; constructor; [|exact IH].
    intros Hin. rewrite Forall_forall in Hlt. specialize (Hlt id Hin). lia.
Qed.

Lemma transaction_ids_are_consecutive_witness :
  assigned_ids compacting_collaborators initial_transaction_id sample_calls
  = consecutive_from 0
      (length (assigned_ids compacting_collaborators initial_transaction_id
                 sample_calls)) /\
  NoDup
    (assigned_ids compacting_collaborators initial_transaction_id sample_calls).
Proof.
  apply (transaction_ids_are_consecutive compacting_collaborators
           sample_calls).
  vm_compute. discriminate.
Defined.

(** X18: the id counter wraps.  A successful [beginTransaction] that finds
    the counter at 2^64-1 creates the transaction with that id and leaves the
    counter at 0, so that the next successful [beginTransaction], on any
    handle, creates a transaction with id 0, smaller than the one before. *)
Theorem transaction_id_wraps_to_zero (c : Collaborators) (fuel fuel' : nat)
  (fhandle fhandle' : option FdbFileHandle) (iso iso' : Z) (s1 s2 : St) :
  beginTransaction c fuel 18446744073709551615 fhandle iso
  = Returned FDB_RESULT_SUCCESS s1 ->
  beginTransaction c fuel' (transaction_id s1) fhandle' iso'
  = Returned FDB_RESULT_SUCCESS s2 ->
  option_map txn_id (txn (hnd s1)) = Some 18446744073709551615 /\
  transaction_id s1 = 0 /\
  option_map txn_id (txn (hnd s2)) = Some 0 /\
  transaction_id s2 = 1.
Proof.
  assert (Hinv : forall fl tid fh i s,
            beginTransaction c fl tid fh i = Returned FDB_RESULT_SUCCESS s ->
            transaction_id s = wrap64 (tid + 1) /\
            option_map txn_id (txn (hnd s)) = Some tid).
  { intros fl tid fh i s Hret.
    destruct (beginTransaction_cases fl tid fh i)
      as [H|[(h & st0 & _ & H & Hst)|[(h & _ & H)|[(st0 & s' & pre & H & Hfail
            & _)|[(s' & pre & H & _)|[(s' & pre & fs & H & _ & _ & _ & Htid
            & Hid)|(s' & pre & H & _)]]]]]];
      rewrite H in Hret; try discriminate.
    - injection Hret as -> _. destruct Hst; discriminate.
    - injection Hret as -> _. discriminate.
    - injection Hret as <-. auto. }
  intros H1 H2.
  destruct (Hinv _ _ _ _ _ H1) as [Hc1 Hid1].
  assert (Hzero : transaction_id s1 = 0) by (rewrite Hc1; reflexivity).
  rewrite Hzero in H2.
  destruct (Hinv _ _ _ _ _ H2) as [Hc2 Hid2].
  repeat split; try assumption.
Qed.

Lemma transaction_id_wraps_to_zero_witness :
  option_map txn_id (txn (hnd begun_at_last_id)) = Some 18446744073709551615 /\
  transaction_id begun_at_last_id = 0 /\
  option_map txn_id
    (txn (hnd (final_state
                 (beginTransaction quiet_collaborators 1
                    (transaction_id begun_at_last_id)
                    (fhandle_of idle_root_handle) 1))))
  = Some 0 /\
  transaction_id
    (final_state (beginTransaction quiet_collaborators 1
                    (transaction_id begun_at_last_id)
                    (fhandle_of idle_root_handle) 1))
  = 1.
Proof.
  apply (transaction_id_wraps_to_zero quiet_collaborators 1 1
           (fhandle_of idle_root_handle) (fhandle_of idle_root_handle) 2 1
           begun_at_last_id _).
  - vm_compute. reflexivity.
  - vm_compute. reflexivity.
Defined.
